(** * chatapp: the message delivery protocol

    A shallow embedding of the two halves of the chat application:

    - [backend/server.js]: the WebSocket server (the Delivery Coordinator),
      with the Connection Registry ([./sockets]) and the Outbox Store
      ([./messages]) it calls;
    - [chat.js]: the browser client (the Client Session).

    Both sides are single-threaded and event-driven: every handler runs to
    completion. A handler is therefore a function from the state before the
    event to the state after it, together with the list of effects it
    performed in order (frames written to a socket, console lines, alerts).
    What the runtime supplies (the clock, random bytes, whether a
    constructor throws) is an argument of the handler. *)

From Stdlib Require Import Strings.Ascii Strings.Byte.
From stdpp Require Import gmap strings list pretty.


(** ** JavaScript values carried by parsed JSON *)

(** The fields of a parsed frame. [VUndef] is a missing field. Numbers are
    the integers of the protocol (timestamps); [VObj] stands for any array
    or object, which is truthy and never [===] to a string. *)
Inductive JsVal :=
  | VUndef
  | VNull
  | VBool (b : bool)
  | VNum (n : Z)
  | VStr (s : string)
  | VObj.

#[global] Instance JsVal_eq_dec : EqDecision JsVal.
Proof. solve_decision. Defined.

(** [!!v] *)
Definition truthy (v : JsVal) : bool :=
  match v with
  | VUndef | VNull => false
  | VBool b => b
  | VNum n => negb (n =? 0)%Z
  | VStr s => negb (String.eqb s "")
  | VObj => true
  end.

(** [a || b] *)
Definition js_or (a b : JsVal) : JsVal := if truthy a then a else b.

(** [v === s] for a string [s] *)
Definition seq_str (v : JsVal) (s : string) : bool :=
  match v with
  | VStr t => bool_decide (t = s)
  | _ => false
  end.

(** ** White space

    Strings are the UTF-8 text of the JavaScript strings. The white space
    [String.prototype.trim] and [parseInt] strip is the WhiteSpace and
    LineTerminator of the language: U+0009 to U+000D and U+0020 (one
    byte), U+00A0 (two bytes), and U+1680, U+2000 to U+200A, U+2028,
    U+2029, U+202F, U+205F, U+3000 and U+FEFF (three bytes). *)

Definition white_space1 (a : ascii) : bool :=
  let a := N_of_ascii a in
  ((9 <=? a) && (a <=? 13) || (a =? 32))%N.

Definition white_space2 (a b : ascii) : bool :=
  let a := N_of_ascii a in
  let b := N_of_ascii b in
  ((a =? 194) && (b =? 160))%N.

Definition white_space3 (a b c : ascii) : bool :=
  let a := N_of_ascii a in
  let b := N_of_ascii b in
  let c := N_of_ascii c in
  ((a =? 225) && (b =? 154) && (c =? 128)
   || (a =? 226) && (b =? 128)
      && ((128 <=? c) && (c <=? 138) || (c =? 168) || (c =? 169) || (c =? 175))
   || (a =? 226) && (b =? 129) && (c =? 159)
   || (a =? 227) && (b =? 128) && (c =? 128)
   || (a =? 239) && (b =? 187) && (c =? 191))%N.

(** Strips the white space a string starts with. With [backwards] the
    string is read from its end (it is given reversed), so the bytes of a
    character come last byte first. *)
Fixpoint strip_white_space (backwards : bool) (s : string) : string :=
  match s with
  | String a r =>
      if white_space1 a then strip_white_space backwards r
      else
        match r with
        | String b r' =>
            if (if backwards then white_space2 b a else white_space2 a b)
            then strip_white_space backwards r'
            else
              match r' with
              | String c r'' =>
                  if (if backwards then white_space3 c b a else white_space3 a b c)
                  then strip_white_space backwards r''
                  else s
              | EmptyString => s
              end
        | EmptyString => s
        end
  | EmptyString => EmptyString
  end.

(** [s.trimStart()] and [s.trim()] *)
Definition js_trimStart (s : string) : string := strip_white_space false s.

Definition js_trim (s : string) : string :=
  String.rev (strip_white_space true (String.rev (js_trimStart s))).

Inductive ReadyState := CONNECTING | OPEN | CLOSING | CLOSED.

#[global] Instance ReadyState_eq_dec : EqDecision ReadyState.
Proof. solve_decision. Defined.

(** ** Wire frames *)

(** A frame sent by a client, after [JSON.parse]: an object of which the
    server reads these fields. *)
Record WireMsg := {
  w_type : JsVal;
  w_clientMsgId : JsVal;
  w_to : JsVal;
  w_body : JsVal;
  w_ts : JsVal;
  w_serverMsgId : JsVal
}.

(** One element of the [messages] array of an [undelivered_batch]. *)
Record BatchItem := {
  b_serverMsgId : string;
  b_from : string;
  b_body : JsVal;
  b_ts : JsVal
}.

Inductive Presence := online | offline.

(** The two texts [sendError] is called with. *)
Inductive ErrorText :=
  | Invalid_message_format
  | Unknown_message_type (type : JsVal).

(** The frames the server builds, with the fields it puts in them. *)
Inductive Frame :=
  | incoming_message (serverMsgId : string) (from : string) (body ts : JsVal)
  | ack_message (serverMsgId : string) (clientMsgId to : JsVal)
  | presence_update (user : string) (status : Presence)
  | undelivered_batch (messages : list BatchItem)
  | error (err : ErrorText)
  | pong (timestamp : N).

(** The frames the client builds. *)
Inductive ClientFrame :=
  | send_message (clientMsgId to body : string) (ts : N)
  | client_ack (serverMsgId : string).

(** [JSON.stringify] on the client followed by [JSON.parse] on the server. *)
Definition wire (f : ClientFrame) : WireMsg :=
  match f with
  | send_message c t b ts =>
      {| w_type := VStr "send_message"; w_clientMsgId := VStr c;
         w_to := VStr t; w_body := VStr b; w_ts := VNum (Z.of_N ts);
         w_serverMsgId := VUndef |}
  | client_ack sid =>
      {| w_type := VStr "ack_message"; w_clientMsgId := VUndef;
         w_to := VUndef; w_body := VUndef; w_ts := VUndef;
         w_serverMsgId := VStr sid |}
  end.

(** ** Message identifiers: [generateMessageId] of server.js *)

Definition hex_digit (n : N) : ascii :=
  match n with
  | 0 => "0" | 1 => "1" | 2 => "2" | 3 => "3" | 4 => "4" | 5 => "5"
  | 6 => "6" | 7 => "7" | 8 => "8" | 9 => "9" | 10 => "a" | 11 => "b"
  | 12 => "c" | 13 => "d" | 14 => "e" | _ => "f"
  end%N%char.

Definition hex_of_byte (b : byte) : string :=
  String (hex_digit (Byte.to_N b / 16)) (String (hex_digit (Byte.to_N b mod 16)) "").

(** [buf.toString('hex')] *)
Fixpoint toString_hex (buf : list byte) : string :=
  match buf with
  | [] => ""
  | b :: rest => hex_of_byte b +:+ toString_hex rest
  end.

(** What one call of [handleSendMessage] reads from the runtime:
    [Date.now()] inside [generateMessageId], the result of
    [crypto.randomBytes(8)], and the later [Date.now()] that stands in for a
    missing [ts]. *)
Record Env := {
  env_now : N;
  env_random : list byte;
  env_now_ts : N
}.

(** [`${Date.now()}-${crypto.randomBytes(8).toString('hex')}`] *)
Definition generateMessageId (now : N) (random : list byte) : string :=
  pretty now +:+ "-" +:+ toString_hex random.

(** ** The Outbox Store ([./messages]) *)

Record Msg := {
  m_serverMsgId : string;
  m_clientMsgId : JsVal;
  m_from : string;
  m_to : JsVal;
  m_body : JsVal;
  m_ts : JsVal
}.

#[global] Instance Msg_eq_dec : EqDecision Msg.
Proof. solve_decision. Defined.

Module messages.

(** Modelled from the spec: the module [./messages] required by
    server.js is not part of the sources. The spec (Outbox Store) gives
    its contract: entries are keyed by [serverMessageId]; [add] inserts
    idempotently; [remove] removes the entry or reports absence without
    error; [drainFor] returns, in insertion order, every stored entry
    whose [to] equals the identity and does not remove them. The store is
    the list of entries in insertion order. *)
Definition Store := list Msg.

Definition empty : Store := [].

(** Modelled from the spec: lookup by key, the read half of [remove]. A
    key that is not a string names no entry. *)
Definition getMessage (serverMsgId : JsVal) (st : Store) : option Msg :=
  match serverMsgId with
  | VStr k => List.find (λ m, bool_decide (m_serverMsgId m = k)) st
  | _ => None
  end.

(** Modelled from the spec: [add]; an entry with the same key is replaced
    where it stands, so adding the same message twice is adding it once. *)
Fixpoint addMessage (msg : Msg) (st : Store) : Store :=
  match st with
  | [] => [msg]
  | m :: rest =>
      if bool_decide (m_serverMsgId m = m_serverMsgId msg)
      then msg :: rest
      else m :: addMessage msg rest
  end.

(** Modelled from the spec: [remove]; absence is not an error. *)
Definition removeMessage (serverMsgId : JsVal) (st : Store) : Store :=
  match serverMsgId with
  | VStr k => List.filter (λ m, negb (bool_decide (m_serverMsgId m = k))) st
  | _ => st
  end.

(** Modelled from the spec: [drainFor]; a read, in insertion order. *)
Definition getMessagesForUser (username : string) (st : Store) : list Msg :=
  List.filter (λ m, seq_str (m_to m) username) st.

End messages.

(** ** The Connection Registry ([./sockets]) *)

Module sockets.

(** Modelled from the spec: the module [./sockets] required by server.js
    is not part of the sources. The spec (Connection Registry) gives its
    contract: at most one handle per identity, [register] replaces,
    [unregister] forgets, [lookup] reflects the latest of the two. A
    handle is the number of a WebSocket object. *)
Definition Registry := gmap string nat.

Definition registerUser (username : string) (ws : nat) (r : gmap string nat)
  : gmap string nat := <[username := ws]> r.

Definition unregisterUser (username : string) (r : gmap string nat)
  : gmap string nat := delete username r.

Definition getSocket (username : JsVal) (r : gmap string nat) : option nat :=
  match username with
  | VStr u => r !! u
  | _ => None
  end.

Definition getOnlineUsers (r : gmap string nat) : list string :=
  (map_to_list r).*1.

End sockets.

(** ** The server: server.js *)

Module server.

(** The state the handlers of server.js read and write: the registry of
    [./sockets], the [readyState] of every WebSocket object the process
    holds, and the store of [./messages]. *)
Record State := {
  registry : gmap string nat;
  readyState : gmap nat ReadyState;
  store : list Msg
}.

Definition set_registry (r : gmap string nat) (st : State) : State :=
  {| registry := r; readyState := readyState st; store := store st |}.

Definition set_readyState (ws : nat) (r : ReadyState) (st : State) : State :=
  {| registry := registry st; readyState := <[ws := r]> (readyState st);
     store := store st |}.

Definition set_store (s : list Msg) (st : State) : State :=
  {| registry := registry st; readyState := readyState st; store := s |}.

Definition init : State :=
  {| registry := ∅; readyState := ∅; store := messages.empty |}.

(** The lines written with [console.log] and [console.error]. *)
Inductive LogLine :=
  | WS_rejected_missing
  | WS_rejected_invalid_token (username : string)
  | WS_connected (username : string)
  | WS_disconnected (username : string)
  | WS_error_parsing (username : string)
  | WS_unknown_type (username : string) (type : JsVal)
  | MSG_invalid_send_message (from : string)
  | MSG_delivered (serverMsgId from : string) (to : JsVal)
  | MSG_stored (serverMsgId from : string) (to : JsVal)
  | MSG_sending_undelivered (n : nat) (username : string)
  | ACK_invalid_ack_message (username : string)
  | ACK_deleted (serverMsgId : JsVal) (username : string)
  | ACK_not_found_or_mismatch (serverMsgId : JsVal).

(** What a handler does to the outside, in order: [ws.send(frame)],
    [ws.close(code)], a console line. *)
Inductive Effect :=
  | Send (ws : nat) (frame : Frame)
  | Close (ws : nat) (code : N)
  | Console (line : LogLine).

(** [socket.readyState === WebSocket.OPEN] *)
Definition isOpen (ws : nat) (st : State) : bool :=
  bool_decide (readyState st !! ws = Some OPEN).

(** [socket && socket.readyState === WebSocket.OPEN] *)
Definition openSocket (username : JsVal) (st : State) : option nat :=
  match sockets.getSocket username (registry st) with
  | Some ws => if isOpen ws st then Some ws else None
  | None => None
  end.

Definition sendError (ws : nat) (err : ErrorText) (st : State) : list Effect :=
  if isOpen ws st then [Send ws (error err)] else [].

Definition handleSendMessage (env : Env) (from : string) (message : WireMsg)
    (st : State) : State * list Effect :=
  let clientMsgId := w_clientMsgId message in
  let to := w_to message in
  let body := w_body message in
  let ts := w_ts message in
  if negb (truthy clientMsgId) || negb (truthy to) || negb (truthy body)
  then (st, [Console (MSG_invalid_send_message from)])
  else
    let serverMsgId := generateMessageId (env_now env) (env_random env) in
    let msg := {| m_serverMsgId := serverMsgId; m_clientMsgId := clientMsgId;
                  m_from := from; m_to := to; m_body := body;
                  m_ts := js_or ts (VNum (Z.of_N (env_now_ts env))) |} in
    let '(st1, delivery) :=
      match openSocket to st with
      | Some recipientSocket =>
          (set_store (messages.addMessage msg (store st)) st,
           [Send recipientSocket
              (incoming_message (m_serverMsgId msg) (m_from msg) (m_body msg) (m_ts msg));
            Console (MSG_delivered serverMsgId from to)])
      | None =>
          (set_store (messages.addMessage msg (store st)) st,
           [Console (MSG_stored serverMsgId from to)])
      end in
    let receipt :=
      match openSocket (VStr from) st1 with
      | Some senderSocket =>
          [Send senderSocket
             (ack_message (m_serverMsgId msg) (m_clientMsgId msg) (m_to msg))]
      | None => []
      end in
    (st1, delivery ++ receipt).

Definition handleAckMessage (username : string) (message : WireMsg)
    (st : State) : State * list Effect :=
  let serverMsgId := w_serverMsgId message in
  if negb (truthy serverMsgId)
  then (st, [Console (ACK_invalid_ack_message username)])
  else
    match messages.getMessage serverMsgId (store st) with
    | Some msg =>
        if seq_str (m_to msg) username
        then (set_store (messages.removeMessage serverMsgId (store st)) st,
              [Console (ACK_deleted serverMsgId username)])
        else (st, [Console (ACK_not_found_or_mismatch serverMsgId)])
    | None => (st, [Console (ACK_not_found_or_mismatch serverMsgId)])
    end.

Definition batchItem (msg : Msg) : BatchItem :=
  {| b_serverMsgId := m_serverMsgId msg; b_from := m_from msg;
     b_body := m_body msg; b_ts := m_ts msg |}.

Definition sendUndeliveredMessages (username : string) (ws : nat)
    (st : State) : State * list Effect :=
  let undelivered := messages.getMessagesForUser username (store st) in
  if bool_decide (0 < length undelivered)
  then (st, [Console (MSG_sending_undelivered (length undelivered) username);
             Send ws (undelivered_batch (batchItem <$> undelivered))])
  else (st, []).

Definition broadcastPresence (username : string) (status : Presence)
    (st : State) : list Effect :=
  let presenceUpdate := presence_update username status in
  flat_map (λ onlineUser,
      if bool_decide (onlineUser ≠ username)
      then match openSocket (VStr onlineUser) st with
           | Some socket => [Send socket presenceUpdate]
           | None => []
           end
      else [])
    (sockets.getOnlineUsers (registry st)).

Definition handleMessage (env : Env) (username : string) (message : WireMsg)
    (ws : nat) (st : State) : State * list Effect :=
  let type := w_type message in
  if seq_str type "send_message" then handleSendMessage env username message st
  else if seq_str type "ack_message" then handleAckMessage username message st
  else if seq_str type "ping" then (st, [Send ws (pong (env_now env))])
  else (st, Console (WS_unknown_type username type)
              :: sendError ws (Unknown_message_type type) st).

(** [!token], [!username] for a query parameter. *)
Definition missing (p : option string) : bool :=
  match p with
  | Some s => String.eqb s ""
  | None => true
  end.

(** The events of the process. [on_connection] carries the query
    parameters of the request and the verdict of [validateToken], which
    is the business of the authentication collaborator; [on_message] and
    [on_close] carry the [username] and [ws] their closures captured, and
    [on_message] the parsed payload ([None] when [JSON.parse] or the
    destructuring throws). *)
Inductive Event :=
  | on_connection (ws : nat) (token username : option string) (validToken : bool)
  | on_message (username : string) (ws : nat) (data : option WireMsg) (env : Env)
  | on_close (username : string) (ws : nat).

Definition step (ev : Event) (st : State) : State * list Effect :=
  match ev with
  | on_connection ws token username validToken =>
      let st := set_readyState ws OPEN st in
      if missing token || missing username
      then (set_readyState ws CLOSING st,
            [Console WS_rejected_missing; Close ws 4000])
      else
        let username := default "" username in
        if negb validToken
        then (set_readyState ws CLOSING st,
              [Console (WS_rejected_invalid_token username); Close ws 4001])
        else
          let st1 := set_registry (sockets.registerUser username ws (registry st)) st in
          let presence := broadcastPresence username online st1 in
          let '(st2, batch) := sendUndeliveredMessages username ws st1 in
          (st2, Console (WS_connected username) :: presence ++ batch)
  | on_message username ws data env =>
      match data with
      | Some message => handleMessage env username message ws st
      | None => (st, Console (WS_error_parsing username)
                       :: sendError ws Invalid_message_format st)
      end
  | on_close username ws =>
      let st := set_readyState ws CLOSED st in
      let st1 := set_registry (sockets.unregisterUser username (registry st)) st in
      (st1, Console (WS_disconnected username)
              :: broadcastPresence username offline st1)
  end.

(** A run of the process: the final state and everything it did. *)
Fixpoint run (evs : list Event) (st : State) : State * list Effect :=
  match evs with
  | [] => (st, [])
  | ev :: rest =>
      let '(st1, out1) := step ev st in
      let '(st2, out2) := run rest st1 in
      (st2, out1 ++ out2)
  end.

End server.

(** ** The client: chat.js *)

Module ChatApp.

Definition MAX_RECONNECT_ATTEMPTS : N := 5.
Definition BASE_DELAY : N := 1000.

(** A [div] built by [appendMessage]: its class list, its [dataset], and
    the body and time shown in it. *)
Record Element := {
  sent : bool;
  pending : bool;
  delivered : bool;
  failed : bool;
  data_clientMsgId : option string;
  data_serverMsgId : option string;
  body : JsVal;
  ts : JsVal
}.

(** The text of the connection status indicator. *)
Inductive Status :=
  | Connecting
  | Connected
  | Disconnected
  | Reconnecting_in (seconds : N)
  | Connection_failed.

(** The variables of the closure and the part of the page they reach.
    DOM elements are objects: [dom] holds every element [appendMessage]
    created, [pendingMessages] and [messagesContainer] hold references
    (indices) into it. A [None] for [messagesContainer], [messageInput],
    [connectionStatus] or [currentChatName] is a [querySelector] that
    found nothing; [socket] is [None] before the first [new WebSocket]
    and otherwise the [readyState] of the current socket;
    [reconnectTimer] is the delay of the pending timer. *)
Record State := {
  socket : option ReadyState;
  reconnectAttempts : N;
  reconnectTimer : option N;
  seenMessageIds : gset string;
  pendingMessages : gmap string (option nat);
  dom : list Element;
  messagesContainer : option (list nat);
  messageInput : option string;
  connectionStatus : option (Status * bool);
  currentChatName : option string;
  currentUser : string;
  selectedContact : string
}.

Definition set_socket (v : option ReadyState) (st : State) : State :=
  {| socket := v; reconnectAttempts := reconnectAttempts st;
     reconnectTimer := reconnectTimer st; seenMessageIds := seenMessageIds st;
     pendingMessages := pendingMessages st; dom := dom st;
     messagesContainer := messagesContainer st; messageInput := messageInput st;
     connectionStatus := connectionStatus st; currentChatName := currentChatName st;
     currentUser := currentUser st; selectedContact := selectedContact st |}.

Definition set_reconnectAttempts (v : N) (st : State) : State :=
  {| socket := socket st; reconnectAttempts := v;
     reconnectTimer := reconnectTimer st; seenMessageIds := seenMessageIds st;
     pendingMessages := pendingMessages st; dom := dom st;
     messagesContainer := messagesContainer st; messageInput := messageInput st;
     connectionStatus := connectionStatus st; currentChatName := currentChatName st;
     currentUser := currentUser st; selectedContact := selectedContact st |}.

Definition set_reconnectTimer (v : option N) (st : State) : State :=
  {| socket := socket st; reconnectAttempts := reconnectAttempts st;
     reconnectTimer := v; seenMessageIds := seenMessageIds st;
     pendingMessages := pendingMessages st; dom := dom st;
     messagesContainer := messagesContainer st; messageInput := messageInput st;
     connectionStatus := connectionStatus st; currentChatName := currentChatName st;
     currentUser := currentUser st; selectedContact := selectedContact st |}.

Definition set_seenMessageIds (v : gset string) (st : State) : State :=
  {| socket := socket st; reconnectAttempts := reconnectAttempts st;
     reconnectTimer := reconnectTimer st; seenMessageIds := v;
     pendingMessages := pendingMessages st; dom := dom st;
     messagesContainer := messagesContainer st; messageInput := messageInput st;
     connectionStatus := connectionStatus st; currentChatName := currentChatName st;
     currentUser := currentUser st; selectedContact := selectedContact st |}.

Definition set_pendingMessages (v : gmap string (option nat)) (st : State) : State :=
  {| socket := socket st; reconnectAttempts := reconnectAttempts st;
     reconnectTimer := reconnectTimer st; seenMessageIds := seenMessageIds st;
     pendingMessages := v; dom := dom st;
     messagesContainer := messagesContainer st; messageInput := messageInput st;
     connectionStatus := connectionStatus st; currentChatName := currentChatName st;
     currentUser := currentUser st; selectedContact := selectedContact st |}.

Definition set_dom (v : list Element) (st : State) : State :=
  {| socket := socket st; reconnectAttempts := reconnectAttempts st;
     reconnectTimer := reconnectTimer st; seenMessageIds := seenMessageIds st;
     pendingMessages := pendingMessages st; dom := v;
     messagesContainer := messagesContainer st; messageInput := messageInput st;
     connectionStatus := connectionStatus st; currentChatName := currentChatName st;
     currentUser := currentUser st; selectedContact := selectedContact st |}.

Definition set_messagesContainer (v : option (list nat)) (st : State) : State :=
  {| socket := socket st; reconnectAttempts := reconnectAttempts st;
     reconnectTimer := reconnectTimer st; seenMessageIds := seenMessageIds st;
     pendingMessages := pendingMessages st; dom := dom st;
     messagesContainer := v; messageInput := messageInput st;
     connectionStatus := connectionStatus st; currentChatName := currentChatName st;
     currentUser := currentUser st; selectedContact := selectedContact st |}.

Definition set_messageInput (v : option string) (st : State) : State :=
  {| socket := socket st; reconnectAttempts := reconnectAttempts st;
     reconnectTimer := reconnectTimer st; seenMessageIds := seenMessageIds st;
     pendingMessages := pendingMessages st; dom := dom st;
     messagesContainer := messagesContainer st; messageInput := v;
     connectionStatus := connectionStatus st; currentChatName := currentChatName st;
     currentUser := currentUser st; selectedContact := selectedContact st |}.

Definition set_connectionStatus (v : option (Status * bool)) (st : State) : State :=
  {| socket := socket st; reconnectAttempts := reconnectAttempts st;
     reconnectTimer := reconnectTimer st; seenMessageIds := seenMessageIds st;
     pendingMessages := pendingMessages st; dom := dom st;
     messagesContainer := messagesContainer st; messageInput := messageInput st;
     connectionStatus := v; currentChatName := currentChatName st;
     currentUser := currentUser st; selectedContact := selectedContact st |}.

Definition set_currentChatName (v : option string) (st : State) : State :=
  {| socket := socket st; reconnectAttempts := reconnectAttempts st;
     reconnectTimer := reconnectTimer st; seenMessageIds := seenMessageIds st;
     pendingMessages := pendingMessages st; dom := dom st;
     messagesContainer := messagesContainer st; messageInput := messageInput st;
     connectionStatus := connectionStatus st; currentChatName := v;
     currentUser := currentUser st; selectedContact := selectedContact st |}.

Definition set_selectedContact (v : string) (st : State) : State :=
  {| socket := socket st; reconnectAttempts := reconnectAttempts st;
     reconnectTimer := reconnectTimer st; seenMessageIds := seenMessageIds st;
     pendingMessages := pendingMessages st; dom := dom st;
     messagesContainer := messagesContainer st; messageInput := messageInput st;
     connectionStatus := connectionStatus st; currentChatName := currentChatName st;
     currentUser := currentUser st; selectedContact := v |}.

Inductive LogLine :=
  | WebSocket_connected
  | WebSocket_closed (wasClean : bool)
  | WebSocket_error
  | WebSocket_connection_error
  | Unknown_type
  | Error_parsing_message
  | Duplicate_message_ignored (serverMsgId : string)
  | Not_connected
  | Missing_token_or_user.

(** What a handler does to the outside, in order: [socket.send],
    [messagesContainer.appendChild] (with the element as it is then),
    [new WebSocket], [setTimeout], [alert], a console line, and an
    exception nobody catches. *)
Inductive Effect :=
  | Send (frame : ClientFrame)
  | AppendChild (el : Element)
  | NewWebSocket
  | SetTimeout (delay : N)
  | Alert
  | Console (line : LogLine)
  | Uncaught.

(** A handler body either returns or throws, in both cases after having
    changed the state and done some effects. *)
Inductive Outcome :=
  | Returned (st : State) (out : list Effect)
  | Threw (st : State) (out : list Effect).

(** [socket && socket.readyState === WebSocket.OPEN] *)
Definition socketOpen (st : State) : bool :=
  bool_decide (socket st = Some OPEN).

Definition updateConnectionStatus (message : Status) (isConnected : bool)
    (st : State) : State :=
  match connectionStatus st with
  | Some _ => set_connectionStatus (Some (message, isConnected)) st
  | None => st
  end.

(** [Math.min(BASE_DELAY * Math.pow(2, attempts - 1), 30000)] *)
Definition backoff (attempts : N) : N :=
  N.min (BASE_DELAY * 2 ^ (attempts - 1)) 30000.

(** [Math.ceil(delay / 1000)] *)
Definition ceil_seconds (delay : N) : N := (delay + 999) / 1000.

Definition scheduleReconnect (st : State) : State * list Effect :=
  match reconnectTimer st with
  | Some _ => (st, [])
  | None =>
      let st := set_reconnectAttempts (reconnectAttempts st + 1) st in
      let delay := backoff (reconnectAttempts st) in
      let st := updateConnectionStatus (Reconnecting_in (ceil_seconds delay)) false st in
      (set_reconnectTimer (Some delay) st, [SetTimeout delay])
  end.

(** [connect]; [throws] tells whether [new WebSocket(wsUrl)] throws. *)
Definition connect (throws : bool) (st : State) : State * list Effect :=
  let st := updateConnectionStatus Connecting false st in
  if throws
  then let '(st, out) := scheduleReconnect st in
       (st, Console WebSocket_connection_error :: out)
  else (set_socket (Some CONNECTING) st, [NewWebSocket]).

Definition handleOpen (st : State) : State * list Effect :=
  let st := set_reconnectAttempts 0 st in
  (updateConnectionStatus Connected true st, [Console WebSocket_connected]).

Definition handleClose (wasClean : bool) (st : State) : State * list Effect :=
  let st := updateConnectionStatus Disconnected false st in
  if negb wasClean && bool_decide (reconnectAttempts st < MAX_RECONNECT_ATTEMPTS)%N
  then let '(st, out) := scheduleReconnect st in
       (st, Console (WebSocket_closed wasClean) :: out)
  else if bool_decide (MAX_RECONNECT_ATTEMPTS ≤ reconnectAttempts st)%N
  then (updateConnectionStatus Connection_failed false st,
        [Console (WebSocket_closed wasClean)])
  else (st, [Console (WebSocket_closed wasClean)]).

Definition handleError (st : State) : State * list Effect :=
  (st, [Console WebSocket_error]).

(** The truthiness of a string that may be [undefined]. *)
Definition present (s : option string) : bool :=
  match s with
  | Some s => negb (String.eqb s "")
  | None => false
  end.

(** [s.trim()] *)
Definition trim (s : string) : string := js_trim s.

(** [`${Date.now()}-${Math.random().toString(36).substr(2, 9)}`];
    [random] is the substring the runtime produced. *)
Definition generateMessageId (now : N) (random : string) : string :=
  pretty now +:+ "-" +:+ random.

(** The object [appendMessage] is called with. *)
Record MessageArgs := {
  a_from : string;
  a_to : string;
  a_body : JsVal;
  a_ts : JsVal;
  a_clientMsgId : option string;
  a_serverMsgId : option string;
  a_pending : bool
}.

(** Returns the new element, or [None] for [null]. *)
Definition appendMessage (a : MessageArgs) (st : State)
    : State * option nat * list Effect :=
  match messagesContainer st with
  | None => (st, None, [])
  | Some children =>
      let otherUser :=
        if bool_decide (a_from a = currentUser st) then a_to a else a_from a in
      if negb (String.eqb (selectedContact st) "")
         && bool_decide (otherUser ≠ selectedContact st)
      then (st, None, [])
      else
        let messageDiv :=
          {| sent := bool_decide (a_from a = currentUser st);
             pending := a_pending a;
             delivered := false;
             failed := false;
             data_clientMsgId :=
               if present (a_clientMsgId a) then a_clientMsgId a else None;
             data_serverMsgId :=
               if present (a_serverMsgId a) then a_serverMsgId a else None;
             body := a_body a;
             ts := a_ts a |} in
        let ref := length (dom st) in
        let st := set_dom (dom st ++ [messageDiv]) st in
        let st := set_messagesContainer (Some (children ++ [ref])) st in
        (st, Some ref, [AppendChild messageDiv])
  end.

Definition add_failed (el : Element) : Element :=
  {| sent := sent el; pending := pending el; delivered := delivered el;
     failed := true; data_clientMsgId := data_clientMsgId el;
     data_serverMsgId := data_serverMsgId el; body := body el; ts := ts el |}.

(** [classList.remove('pending')], [classList.add('delivered')] and
    [dataset.serverMsgId = serverMsgId]. *)
Definition mark_delivered (serverMsgId : string) (el : Element) : Element :=
  {| sent := sent el; pending := false; delivered := true;
     failed := failed el; data_clientMsgId := data_clientMsgId el;
     data_serverMsgId := Some serverMsgId; body := body el; ts := ts el |}.

Definition sendMessage (now : N) (random : string) (now_ts : N) (st : State)
    : Outcome :=
  let body := trim <$> messageInput st in
  if negb (present body) || String.eqb (selectedContact st) ""
  then Returned st []
  else
    let body := default "" body in
    let clientMsgId := generateMessageId now random in
    let ts := now_ts in
    let message := send_message clientMsgId (selectedContact st) body ts in
    let '(st, messageElement, out) :=
      appendMessage
        {| a_from := currentUser st; a_to := selectedContact st;
           a_body := VStr body; a_ts := VNum (Z.of_N ts);
           a_clientMsgId := Some clientMsgId; a_serverMsgId := None;
           a_pending := true |} st in
    let st := set_pendingMessages
                (<[clientMsgId := messageElement]> (pendingMessages st)) st in
    if socketOpen st
    then Returned (set_messageInput (Some "") st) (out ++ [Send message])
    else
      let out := out ++ [Console Not_connected; Alert] in
      match messageElement with
      | Some ref => Returned (set_dom (alter add_failed ref (dom st)) st) out
      | None => Threw st out
      end.

Definition handleIncomingMessage (serverMsgId from : string) (body ts : JsVal)
    (st : State) : State * list Effect :=
  if bool_decide (serverMsgId ∈ seenMessageIds st)
  then (st, [Console (Duplicate_message_ignored serverMsgId)])
  else
    let st := set_seenMessageIds ({[serverMsgId]} ∪ seenMessageIds st) st in
    let '(st, _, out) :=
      appendMessage
        {| a_from := from; a_to := currentUser st; a_body := body; a_ts := ts;
           a_clientMsgId := None; a_serverMsgId := Some serverMsgId;
           a_pending := false |} st in
    if socketOpen st
    then (st, out ++ [Send (client_ack serverMsgId)])
    else (st, out).

Definition handleAckMessage (serverMsgId : string) (clientMsgId : JsVal)
    (st : State) : Outcome :=
  match clientMsgId with
  | VStr c =>
      if truthy clientMsgId
      then match pendingMessages st !! c with
           | Some (Some messageElement) =>
               let st := set_dom (alter (mark_delivered serverMsgId)
                                    messageElement (dom st)) st in
               Returned (set_pendingMessages (delete c (pendingMessages st)) st) []
           | Some None => Threw st []
           | None => Returned st []
           end
      else Returned st []
  | _ => Returned st []
  end.

(** The contact list is not part of the modelled page: the status dot of
    a contact takes no part in the message flow. *)
Definition handlePresenceUpdate (user : string) (status : Presence)
    (st : State) : State * list Effect := (st, []).

(** [messages.forEach(msg => handleIncomingMessage({...}))] *)
Fixpoint handleUndeliveredBatch (messages : list BatchItem) (st : State)
    : State * list Effect :=
  match messages with
  | [] => (st, [])
  | msg :: rest =>
      let '(st1, out1) :=
        handleIncomingMessage (b_serverMsgId msg) (b_from msg)
                              (b_body msg) (b_ts msg) st in
      let '(st2, out2) := handleUndeliveredBatch rest st1 in
      (st2, out1 ++ out2)
  end.

(** [data] is [None] when [JSON.parse] throws. *)
Definition handleMessage (data : option Frame) (st : State)
    : State * list Effect :=
  match data with
  | None => (st, [Console Error_parsing_message])
  | Some (incoming_message serverMsgId from body ts) =>
      handleIncomingMessage serverMsgId from body ts st
  | Some (ack_message serverMsgId clientMsgId _) =>
      match handleAckMessage serverMsgId clientMsgId st with
      | Returned st out => (st, out)
      | Threw st out => (st, out ++ [Console Error_parsing_message])
      end
  | Some (presence_update user status) => handlePresenceUpdate user status st
  | Some (undelivered_batch messages) => handleUndeliveredBatch messages st
  | Some (error _) | Some (pong _) => (st, [Console Unknown_type])
  end.

Definition selectContact (contact : string) (st : State) : State * list Effect :=
  let st := set_selectedContact contact st in
  let st := match currentChatName st with
            | Some _ => set_currentChatName (Some contact) st
            | None => st
            end in
  let st := match messagesContainer st with
            | Some _ => set_messagesContainer (Some []) st
            | None => st
            end in
  (st, []).

(** The page [init] finds: which elements exist, with their first
    contents, and the [token] and [user] parameters of the URL. *)
Record Page := {
  p_messagesContainer : bool;
  p_messageInput : option string;
  p_connectionStatus : option (Status * bool);
  p_currentChatName : option string;
  p_token : option string;
  p_user : option string
}.

Definition init (page : Page) (throws : bool) : State * list Effect :=
  let st :=
    {| socket := None; reconnectAttempts := 0; reconnectTimer := None;
       seenMessageIds := ∅; pendingMessages := ∅; dom := [];
       messagesContainer := if p_messagesContainer page then Some [] else None;
       messageInput := p_messageInput page;
       connectionStatus := p_connectionStatus page;
       currentChatName := p_currentChatName page;
       currentUser := default "" (p_user page);
       selectedContact := "" |} in
  if negb (present (p_token page)) || negb (present (p_user page))
  then (st, [Console Missing_token_or_user; Alert])
  else connect throws st.

(** The events of the page. [timeout] is the reconnect timer firing,
    [send] a click on the send button or Enter in the input, with what
    [generateMessageId] and [Date.now()] then read; [select] a click on
    a contact; [type] the user editing the input. *)
Inductive Event :=
  | onopen
  | onmessage (data : option Frame)
  | onclose (wasClean : bool)
  | onerror
  | timeout (throws : bool)
  | send (now : N) (random : string) (now_ts : N)
  | select (contact : string)
  | type (text : string).

Definition step (ev : Event) (st : State) : State * list Effect :=
  match ev with
  | onopen =>
      match socket st with
      | Some _ => handleOpen (set_socket (Some OPEN) st)
      | None => (st, [])
      end
  | onmessage data => handleMessage data st
  | onclose wasClean =>
      match socket st with
      | Some _ => handleClose wasClean (set_socket (Some CLOSED) st)
      | None => (st, [])
      end
  | onerror => handleError st
  | timeout throws =>
      match reconnectTimer st with
      | Some _ => connect throws (set_reconnectTimer None st)
      | None => (st, [])
      end
  | send now random now_ts =>
      match sendMessage now random now_ts st with
      | Returned st out => (st, out)
      | Threw st out => (st, out ++ [Uncaught])
      end
  | select contact => selectContact contact st
  | type text =>
      match messageInput st with
      | Some _ => (set_messageInput (Some text) st, [])
      | None => (st, [])
      end
  end.

Fixpoint run (evs : list Event) (st : State) : State * list Effect :=
  match evs with
  | [] => (st, [])
  | ev :: rest =>
      let '(st1, out1) := step ev st in
      let '(st2, out2) := run rest st1 in
      (st2, out1 ++ out2)
  end.

End ChatApp.

(** * Observations and example states *)

(** A field is missing ([undefined]) or empty (the empty string). *)
Definition missing_or_empty (v : JsVal) : Prop := v = VUndef ∨ v = VStr "".

(** The frames among the effects of a handler of the server. *)
Definition frames_sent (out : list server.Effect) : list (nat * Frame) :=
  omap (λ e, match e with server.Send ws f => Some (ws, f) | _ => None end) out.

(** A message of alice for bob, as the server stores it. *)
Definition hi_bob : Msg :=
  {| m_serverMsgId := "1700000000000-00112233445566ff";
     m_clientMsgId := VStr "1700000000000-k3x9"; m_from := "alice";
     m_to := VStr "bob"; m_body := VStr "hi"; m_ts := VNum 1700000000000 |}.

(** Example states of the server: alice holds the open socket 1 and bob
    is not connected; in the second the Outbox holds [hi_bob]. *)
Definition alice_online : server.State :=
  {| server.registry := {["alice" := 1%nat]}; server.readyState := {[1%nat := OPEN]};
     server.store := [] |}.

Definition alice_online_hi_stored : server.State := server.set_store [hi_bob] alice_online.

(** The request passes the validation of [handleSendMessage]. *)
Definition accepted (message : WireMsg) : bool :=
  truthy (w_clientMsgId message) && truthy (w_to message) && truthy (w_body message).

(** The message [handleSendMessage] builds for an accepted request. *)
Definition accepted_message (env : Env) (from : string) (message : WireMsg) : Msg :=
  {| m_serverMsgId := generateMessageId (env_now env) (env_random env);
     m_clientMsgId := w_clientMsgId message; m_from := from;
     m_to := w_to message; m_body := w_body message;
     m_ts := js_or (w_ts message) (VNum (Z.of_N (env_now_ts env))) |}.

(** The identifiers the server assigned, read off its console: every
    accepted [send_message] writes one line, [Delivered] or [Stored], that
    carries the new [serverMsgId]. *)
Definition assigned_ids (out : list server.Effect) : list string :=
  omap (λ e, match e with
             | server.Console (server.MSG_delivered id _ _)
             | server.Console (server.MSG_stored id _ _) => Some id
             | _ => None
             end) out.

(** What [generateMessageId] read from the runtime, for each accepted
    [send_message] of a run: the clock and the random bytes. *)
Definition submit_readings (evs : list server.Event) : list (N * list byte) :=
  omap (λ ev, match ev with
              | server.on_message _ _ (Some message) env =>
                  if seq_str (w_type message) "send_message" && accepted message
                  then Some (env_now env, env_random env)
                  else None
              | _ => None
              end) evs.

(** The value of a hexadecimal digit, to read [toString_hex] back. *)
Definition unhex_digit (c : ascii) : option N :=
  List.find (λ n, Ascii.eqb (hex_digit n) c) (N.of_nat <$> seq 0 16).

Definition unhex_byte (c1 c2 : ascii) : option byte :=
  match unhex_digit c1, unhex_digit c2 with
  | Some h, Some l => Byte.of_N (16 * h + l)
  | _, _ => None
  end.

(** Two requests of alice that read the same millisecond and the same
    random bytes. *)
Definition same_reading : Env :=
  {| env_now := 1700000000000;
     env_random := [x00; x11; x22; x33; x44; x55; x66; xff];
     env_now_ts := 1700000000000 |}.

Definition two_submits : list server.Event :=
  [server.on_message "alice" 1
     (Some (wire (send_message "1700000000000-k3x9" "bob" "hi" 1700000000000)))
     same_reading;
   server.on_message "alice" 1
     (Some (wire (send_message "1700000000000-p0q1" "bob" "there" 1700000000000)))
     same_reading].

(** The page of alice, and her session once it is connected, bob is
    selected and "hi" is typed into the input. *)
Definition alice_page : ChatApp.Page :=
  {| ChatApp.p_messagesContainer := true;
     ChatApp.p_messageInput := Some "";
     ChatApp.p_connectionStatus := Some (ChatApp.Disconnected, false);
     ChatApp.p_currentChatName := Some "";
     ChatApp.p_token := Some "dG9rZW4=";
     ChatApp.p_user := Some "alice" |}.

Definition alice_session : ChatApp.State :=
  (ChatApp.run [ChatApp.onopen; ChatApp.select "bob"; ChatApp.type "hi"]
     (ChatApp.init alice_page false).1).1.

(** The element of a message of alice to bob, as [sendMessage] appends
    it. *)
Definition hi_pending : ChatApp.Element :=
  {| ChatApp.sent := true; ChatApp.pending := true; ChatApp.delivered := false;
     ChatApp.failed := false;
     ChatApp.data_clientMsgId := Some "1700000000000-k3x9";
     ChatApp.data_serverMsgId := None;
     ChatApp.body := VStr "hi"; ChatApp.ts := VNum 1700000000000 |}.

(** The entries the client rendered for a [serverMsgId]: the elements it
    appended to the messages container that carry the identifier in their
    [dataset]; and the acknowledgments it sent for it. *)
Definition is_render (id : string) (e : ChatApp.Effect) : bool :=
  match e with
  | ChatApp.AppendChild el => bool_decide (ChatApp.data_serverMsgId el = Some id)
  | _ => false
  end.

Definition is_ack (id : string) (e : ChatApp.Effect) : bool :=
  match e with
  | ChatApp.Send (client_ack serverMsgId) => bool_decide (serverMsgId = id)
  | _ => false
  end.

Definition renders (id : string) (out : list ChatApp.Effect) : nat :=
  length (List.filter (is_render id) out).

Definition acks (id : string) (out : list ChatApp.Effect) : nat :=
  length (List.filter (is_ack id) out).

(** The frames the client wrote to its socket. *)
Definition client_frames (out : list ChatApp.Effect) : list ClientFrame :=
  omap (λ e, match e with ChatApp.Send f => Some f | _ => None end) out.

(** A handler of the client respects the Seen-Set for [id]: it only adds
    to the set, it renders and acknowledges [id] at most once, not at all
    when [id] was already in the set, and only if [id] is in the set
    afterwards. *)
Definition dedups (id : string)
    (f : ChatApp.State → ChatApp.State * list ChatApp.Effect) : Prop :=
  ∀ st,
    ChatApp.seenMessageIds st ⊆ ChatApp.seenMessageIds (f st).1
    ∧ (renders id (f st).2 ≤ 1 ∧ acks id (f st).2 ≤ 1)%nat
    ∧ (id ∈ ChatApp.seenMessageIds st →
       renders id (f st).2 = 0%nat ∧ acks id (f st).2 = 0%nat)
    ∧ (id ∉ ChatApp.seenMessageIds (f st).1 →
       renders id (f st).2 = 0%nat ∧ acks id (f st).2 = 0%nat).

(** The [incoming_message] event that carries one message of a batch. *)
Definition incoming_of (msg : BatchItem) : ChatApp.Event :=
  ChatApp.onmessage
    (Some (incoming_message (b_serverMsgId msg) (b_from msg) (b_body msg) (b_ts msg))).

(** A session of bob, connected, with alice selected. *)
Definition bob_page : ChatApp.Page :=
  {| ChatApp.p_messagesContainer := true;
     ChatApp.p_messageInput := Some "";
     ChatApp.p_connectionStatus := Some (ChatApp.Disconnected, false);
     ChatApp.p_currentChatName := Some "";
     ChatApp.p_token := Some "dG9rZW4=";
     ChatApp.p_user := Some "bob" |}.

Definition bob_session : ChatApp.State :=
  (ChatApp.run [ChatApp.onopen; ChatApp.select "alice"]
     (ChatApp.init bob_page false).1).1.

(** The same session after it has rendered and acknowledged the message
    "hi" of alice. *)
Definition bob_seen_hi : ChatApp.State :=
  (ChatApp.step
     (ChatApp.onmessage
        (Some (incoming_message "1700000000000-00112233445566ff" "alice"
                 (VStr "hi") (VNum 1700000000000))))
     bob_session).1.

(** The delays of the reconnections a handler scheduled, and the number of
    sockets it constructed. *)
Definition scheduled (out : list ChatApp.Effect) : list N :=
  omap (λ e, match e with ChatApp.SetTimeout delay => Some delay | _ => None end) out.

Definition sockets_constructed (out : list ChatApp.Effect) : nat :=
  length (List.filter
            (λ e, match e with ChatApp.NewWebSocket => true | _ => false end) out).

(** The Exhausted state: the attempts are used up and no timer is pending. *)
Definition exhausted (st : ChatApp.State) : Prop :=
  ChatApp.reconnectTimer st = None
  ∧ (ChatApp.MAX_RECONNECT_ATTEMPTS ≤ ChatApp.reconnectAttempts st)%N.

(** A page whose [user] parameter decodes to a string with a [#] in it:
    the URL [connect] builds then has a fragment, and [new WebSocket]
    throws a [SyntaxError] at every call. *)
Definition hash_page : ChatApp.Page :=
  {| ChatApp.p_messagesContainer := true;
     ChatApp.p_messageInput := Some "";
     ChatApp.p_connectionStatus := Some (ChatApp.Disconnected, false);
     ChatApp.p_currentChatName := Some "";
     ChatApp.p_token := Some "dG9rZW4=";
     ChatApp.p_user := Some "al#ice" |}.

(** The reconnect timer firing five times, [new WebSocket] throwing each
    time. *)
Definition constructor_throws : list ChatApp.Event :=
  [ChatApp.timeout true; ChatApp.timeout true; ChatApp.timeout true;
   ChatApp.timeout true; ChatApp.timeout true].

(** A run in which every attempt ends in an unclean close: the first
    connection and then five reconnections. *)
Definition every_attempt_closes : list ChatApp.Event :=
  [ChatApp.onclose false; ChatApp.timeout false;
   ChatApp.onclose false; ChatApp.timeout false;
   ChatApp.onclose false; ChatApp.timeout false;
   ChatApp.onclose false; ChatApp.timeout false;
   ChatApp.onclose false; ChatApp.timeout false;
   ChatApp.onclose false].

(** The scenario of the spec: a message is forwarded directly, the
    connection drops and is re-established, and the batch sent on
    reconnection contains the same message. *)
Definition direct_then_batch : list ChatApp.Event :=
  [ChatApp.onmessage
     (Some (incoming_message "1700000000000-00112233445566ff" "alice"
              (VStr "hi") (VNum 1700000000000)));
   ChatApp.onclose false;
   ChatApp.timeout false;
   ChatApp.onopen;
   ChatApp.onmessage
     (Some (undelivered_batch
              [{| b_serverMsgId := "1700000000000-00112233445566ff";
                  b_from := "alice"; b_body := VStr "hi";
                  b_ts := VNum 1700000000000 |}]))].

(** A second message of alice for bob. *)
Definition again_bob : Msg :=
  {| m_serverMsgId := "1700000000500-8899aabbccddeeff";
     m_clientMsgId := VStr "1700000000500-p0q1"; m_from := "alice";
     m_to := VStr "bob"; m_body := VStr "there"; m_ts := VNum 1700000000500 |}.

(** The events that can set or delete the pending marker of [clientMsgId]:
    a [send] that generates this identifier, and an [ack_message] that
    names it. *)
Definition concerns_marker (clientMsgId : string) (ev : ChatApp.Event) : Prop :=
  match ev with
  | ChatApp.send now random _ => ChatApp.generateMessageId now random = clientMsgId
  | ChatApp.onmessage (Some (ack_message _ (VStr c) _)) => c = clientMsgId
  | _ => False
  end.

(** The event is a click on send. *)
Definition is_send (ev : ChatApp.Event) : Prop :=
  match ev with
  | ChatApp.send _ _ _ => True
  | _ => False
  end.

(** The batch for bob when the Outbox holds [hi_bob] and [again_bob]. *)
Definition two_for_bob : list BatchItem :=
  server.batchItem <$> [hi_bob; again_bob].

(** ** Tokens: [generateToken] and [validateToken] of server.js *)

Module auth.

(** What the token functions take from the platform: the hex digest of
    HMAC-SHA256 keyed with [TOKEN_SECRET]
    ([crypto.createHmac('sha256', TOKEN_SECRET).update(payload).digest('hex')]),
    [Buffer.from(s).toString('base64')] and
    [Buffer.from(t, 'base64').toString('utf8')]. *)
Record Platform := {
  hmac_hex : string → string;
  base64 : string → string;
  unbase64 : string → string
}.

(** Every character is a decimal digit. *)
Fixpoint all_digits (s : string) : bool :=
  match s with
  | EmptyString => true
  | String a rest =>
      match Ascii.is_nat a with
      | Some _ => all_digits rest
      | None => false
      end
  end.

(** [contains c s]: the character occurs in the string. *)
Fixpoint contains (c : ascii) (s : string) : bool :=
  match s with
  | EmptyString => false
  | String a rest => Ascii.eqb a c || contains c rest
  end.

(** What the code relies on: decoding undoes encoding, and a hex digest
    has no colon in it. *)
Definition lawful (p : Platform) : Prop :=
  (∀ s, unbase64 p (base64 p s) = s)
  ∧ (∀ payload, contains ":" (hmac_hex p payload) = false).

(** [s.split(sep)] for a separator of one character. *)
Fixpoint split (sep : ascii) (s : string) : list string :=
  match s with
  | EmptyString => [EmptyString]
  | String a rest =>
      if Ascii.eqb a sep then EmptyString :: split sep rest
      else match split sep rest with
           | hd :: tl => String a hd :: tl
           | [] => [String a EmptyString]
           end
  end.

(** [`${x}`] for a string that may be [undefined]. *)
Definition template (x : option string) : string := default "undefined" x.

Definition hex_value (c : ascii) : option N :=
  match Ascii.is_nat c with
  | Some d => Some (N.of_nat d)
  | None =>
      match c with
      | "a" | "A" => Some 10 | "b" | "B" => Some 11 | "c" | "C" => Some 12
      | "d" | "D" => Some 13 | "e" | "E" => Some 14 | "f" | "F" => Some 15
      | _ => None
      end%char%N
  end.

Definition dec_value (c : ascii) : option N := N.of_nat <$> Ascii.is_nat c.

(** The value of the longest prefix of digits, after [acc]. *)
Fixpoint digits (radix : N) (value : ascii → option N) (acc : N) (s : string) : N :=
  match s with
  | String a rest =>
      match value a with
      | Some d => digits radix value (radix * acc + d) rest
      | None => acc
      end
  | EmptyString => acc
  end.

(** The number a string starts with, or [None] for [NaN]. *)
Definition number (radix : N) (value : ascii → option N) (s : string) : option N :=
  match s with
  | String a _ =>
      match value a with
      | Some _ => Some (digits radix value 0 s)
      | None => None
      end
  | EmptyString => None
  end.

(** [parseInt(s)] without a radix: leading white space, a sign, a [0x]
    prefix for base sixteen, then the longest run of digits; [None] is
    [NaN]. The value is the integer the digits write: the number the
    built-in returns for every value below 2^53, which the readings of the
    clock are. *)
Definition parseInt (s : string) : option Z :=
  let s := js_trimStart s in
  let '(negative, s) :=
    match s with
    | String "-" rest => (true, rest)
    | String "+" rest => (false, rest)
    | _ => (false, s)
    end%char in
  let magnitude :=
    match s with
    | String "0" (String "x" rest) | String "0" (String "X" rest) =>
        number 16 hex_value rest
    | _ => number 10 dec_value s
    end%char in
  (λ n, if negative then (- Z.of_N n)%Z else Z.of_N n) <$> magnitude.

(** [generateToken(username)], issued when [Date.now()] is [now]. *)
Definition generateToken (p : Platform) (now : N) (username : string) : string :=
  let timestamp := now in
  let payload := username +:+ ":" +:+ pretty timestamp in
  let signature := hmac_hex p payload in
  base64 p (payload +:+ ":" +:+ signature).

(** [validateToken(token, username)], called when [Date.now()] is [now].
    Nothing in the body of the [try] throws for a token that is a
    string. *)
Definition validateToken (p : Platform) (now : N) (token username : string) : bool :=
  let decoded := unbase64 p token in
  let parts := split ":" decoded in
  let user := parts !! 0%nat in
  let timestamp := parts !! 1%nat in
  let signature := parts !! 2%nat in
  if negb (bool_decide (user = Some username)) then false
  else
    let payload := template user +:+ ":" +:+ template timestamp in
    let expectedSignature := hmac_hex p payload in
    if negb (bool_decide (signature = Some expectedSignature)) then false
    else
      match parseInt (template timestamp) with
      | Some issued =>
          if (24 * 60 * 60 * 1000 <? Z.of_N now - issued)%Z then false else true
      | None => true
      end.

End auth.

(** A platform for examples: identity for base64 and a constant digest. *)
Definition toy_platform : auth.Platform :=
  {| auth.hmac_hex := λ _, "5f2a"; auth.base64 := id; auth.unbase64 := id |}.

(** The string of the given bytes. *)
Definition bytes (l : list N) : string :=
  foldr (λ b s, String (ascii_of_N b) s) EmptyString l.

(** The twenty-five white space characters of the language, in UTF-8:
    U+0009 to U+000D, U+0020, U+00A0, U+1680, U+2000 to U+200A, U+2028,
    U+2029, U+202F, U+205F, U+3000, U+FEFF. *)
Definition white_space : list string :=
  bytes <$>
    [[9]; [10]; [11]; [12]; [13]; [32]; [194; 160]; [225; 154; 128];
     [226; 128; 128]; [226; 128; 129]; [226; 128; 130]; [226; 128; 131];
     [226; 128; 132]; [226; 128; 133]; [226; 128; 134]; [226; 128; 135];
     [226; 128; 136]; [226; 128; 137]; [226; 128; 138];
     [226; 128; 168]; [226; 128; 169]; [226; 128; 175]; [226; 129; 159];
     [227; 128; 128]; [239; 187; 191]]%N.

(** Characters that are not white space: U+00E9, U+0085, U+200B, U+180E
    and U+2060. *)
Definition not_white_space : list string :=
  bytes <$>
    [[195; 169]; [194; 133]; [226; 128; 139]; [225; 160; 142]; [226; 129; 160]]%N.

(** The identifiers the [ack_message] frames of a run name. *)
Definition acknowledged_keys (evs : list server.Event) : list JsVal :=
  omap (λ ev, match ev with
              | server.on_message _ _ (Some message) _ =>
                  if seq_str (w_type message) "ack_message"
                  then Some (w_serverMsgId message)
                  else None
              | _ => None
              end) evs.

(** The identifiers assigned to the accepted [send_message] requests of a
    run. *)
Definition submitted_ids (evs : list server.Event) : list string :=
  (λ r, generateMessageId r.1 r.2) <$> submit_readings evs.

(** What the server handles while a message waits: carol connects, sends
    a message of her own and a ping, an unparsable frame arrives, and
    carol disconnects. *)
Definition busy_meanwhile : list server.Event :=
  [server.on_connection 5 (Some "dG9rZW4=") (Some "carol") true;
   server.on_message "carol" 5
     (Some (wire (send_message "1700000000700-z1z2" "alice" "hello" 1700000000700)))
     {| env_now := 1700000000700;
        env_random := [x0a; x0b; x0c; x0d; x0e; x0f; x10; x11];
        env_now_ts := 1700000000700 |};
   server.on_message "carol" 5
     (Some {| w_type := VStr "ping"; w_clientMsgId := VUndef; w_to := VUndef;
              w_body := VUndef; w_ts := VUndef; w_serverMsgId := VUndef |})
     same_reading;
   server.on_message "carol" 5 None same_reading;
   server.on_close "carol" 5].


(** U+00A0, the no-break space. *)
Definition nbsp : string := bytes [194; 160]%N.

(** * Properties of the Outbox Store *)

Section outbox.

Implicit Types (st : list Msg) (msg : Msg) (k : string).

Lemma getMessage_removeMessage key st :
  messages.getMessage key (messages.removeMessage key st) = None.
Proof.
  destruct key as [| | | |k|]; try reflexivity. simpl.
  induction st as [|m st IH]; simpl; [reflexivity|].
  destruct (bool_decide (m_serverMsgId m = k)) eqn:E; simpl; [exact IH|].
  rewrite E. exact IH.
Qed.

Lemma getMessage_removeMessage_ne k k' st :
  k ≠ k' →
  messages.getMessage (VStr k) (messages.removeMessage (VStr k') st)
  = messages.getMessage (VStr k) st.
Proof.
  intros Hne. simpl.
  induction st as [|m st IH]; simpl; [reflexivity|].
  destruct (bool_decide (m_serverMsgId m = k')) eqn:E; simpl.
  - apply bool_decide_eq_true in E.
    rewrite bool_decide_eq_false_2 by congruence. exact IH.
  - destruct (bool_decide (m_serverMsgId m = k)); [reflexivity | exact IH].
Qed.

Lemma getMessage_addMessage msg st :
  messages.getMessage (VStr (m_serverMsgId msg)) (messages.addMessage msg st)
  = Some msg.
Proof.
  simpl. induction st as [|m st IH]; simpl.
  - by rewrite bool_decide_eq_true_2.
  - destruct (bool_decide (m_serverMsgId m = m_serverMsgId msg)) eqn:E; simpl.
    + by rewrite bool_decide_eq_true_2.
    + rewrite E. exact IH.
Qed.

Lemma getMessage_addMessage_is_Some msg k st :
  is_Some (messages.getMessage (VStr k) st) →
  is_Some (messages.getMessage (VStr k) (messages.addMessage msg st)).
Proof.
  simpl. induction st as [|m st IH]; simpl; intros [x Hx]; [discriminate|].
  destruct (bool_decide (m_serverMsgId m = m_serverMsgId msg)) eqn:E; simpl.
  - apply bool_decide_eq_true in E.
    destruct (bool_decide (m_serverMsgId m = k)) eqn:E'.
    + apply bool_decide_eq_true in E'.
      rewrite bool_decide_eq_true_2 by congruence. eauto.
    + apply bool_decide_eq_false in E'.
      rewrite bool_decide_eq_false_2 by congruence. eauto.
  - destruct (bool_decide (m_serverMsgId m = k)); eauto.
Qed.

Lemma getMessage_key key st msg :
  messages.getMessage key st = Some msg → key = VStr (m_serverMsgId msg).
Proof.
  destruct key as [| | | |k|]; try discriminate. simpl. intros H.
  apply List.find_some in H as [_ H]. apply bool_decide_eq_true in H.
  by subst.
Qed.

End outbox.

(** * Properties of the server *)

Lemma seq_str_true v s : seq_str v s = true ↔ v = VStr s.
Proof.
  destruct v; simpl; try (split; [discriminate | congruence]).
  rewrite bool_decide_eq_true. split; congruence.
Qed.

Lemma seq_str_false v s : seq_str v s = false ↔ v ≠ VStr s.
Proof.
  rewrite <- seq_str_true. destruct (seq_str v s); split; congruence.
Qed.

Lemma missing_or_empty_falsy v : missing_or_empty v → truthy v = false.
Proof. by intros [-> | ->]. Qed.

Section server_claims.

Import server.

(** C7: a [send_message] in which [clientMsgId], [to] or [body] is
    missing or empty is rejected and creates no state: the state of the
    server (registry, sockets, Outbox) is what it was, so no
    [serverMsgId] was assigned and nothing stored, and the only effect is
    the console line, so no frame goes to the recipient or back to the
    sender. *)
Theorem invalid_send_rejected env from message st :
  missing_or_empty (w_clientMsgId message)
  ∨ missing_or_empty (w_to message)
  ∨ missing_or_empty (w_body message) →
  handleSendMessage env from message st
    = (st, [Console (MSG_invalid_send_message from)])
  ∧ store (handleSendMessage env from message st).1 = store st
  ∧ frames_sent (handleSendMessage env from message st).2 = [].
Proof.
  intros H. assert (handleSendMessage env from message st
    = (st, [Console (MSG_invalid_send_message from)])) as ->; [|done].
  unfold handleSendMessage.
  destruct H as [H | [H | H]]; apply missing_or_empty_falsy in H;
    rewrite H; simpl; rewrite ?orb_true_r; reflexivity.
Qed.

Lemma invalid_send_rejected_witness :
  let message := wire (send_message "1700000000000-k3x9" "bob" "" 1700000000000) in
  let env := {| env_now := 1700000000001; env_random := [];
                env_now_ts := 1700000000001 |} in
  (missing_or_empty (w_clientMsgId message)
   ∨ missing_or_empty (w_to message)
   ∨ missing_or_empty (w_body message))
  ∧ handleSendMessage env "alice" message alice_online
    = (alice_online, [Console (MSG_invalid_send_message "alice")]).
Proof.
  simpl. split.
  - right. right. right. reflexivity.
  - apply (invalid_send_rejected
             {| env_now := 1700000000001; env_random := [];
                env_now_ts := 1700000000001 |} "alice"
             (wire (send_message "1700000000000-k3x9" "bob" "" 1700000000000))
             alice_online).
    right. right. right. reflexivity.
Defined.

(** C3, as the claim states it, fails: eve acknowledges a message that
    is for bob, and the entry is still in the Outbox after the call. *)
Lemma ack_by_other_identity_keeps_entry :
  let ack := wire (client_ack "1700000000000-00112233445566ff") in
  messages.getMessage (w_serverMsgId ack) (store alice_online_hi_stored)
    = Some hi_bob
  ∧ m_to hi_bob ≠ VStr "eve"
  ∧ messages.getMessage (w_serverMsgId ack)
      (store (handleAckMessage "eve" ack alice_online_hi_stored).1)
    = Some hi_bob.
Proof. simpl. split; [reflexivity|]. split; [discriminate | reflexivity]. Qed.

(** C3 (amended): [handleAckMessage] checks the acknowledging identity
    before it removes anything. When the Outbox holds an entry for the
    acknowledged [serverMsgId] whose [to] is not the acknowledging
    identity, the call leaves the server state as it was: the entry stays
    in the Outbox, and the call only writes a console line. *)
Theorem ack_mismatch_keeps_entry username message st msg :
  messages.getMessage (w_serverMsgId message) (store st) = Some msg →
  m_to msg ≠ VStr username →
  (handleAckMessage username message st).1 = st
  ∧ messages.getMessage (w_serverMsgId message)
      (store (handleAckMessage username message st).1) = Some msg
  ∧ frames_sent (handleAckMessage username message st).2 = [].
Proof.
  intros Hget Hto. apply seq_str_false in Hto.
  unfold handleAckMessage.
  destruct (truthy (w_serverMsgId message)); simpl; [|done].
  rewrite Hget, Hto. done.
Qed.

Lemma ack_mismatch_keeps_entry_witness :
  let ack := wire (client_ack "1700000000000-00112233445566ff") in
  messages.getMessage (w_serverMsgId ack) (store alice_online_hi_stored)
    = Some hi_bob
  ∧ m_to hi_bob ≠ VStr "eve"
  ∧ (handleAckMessage "eve" ack alice_online_hi_stored).1
    = alice_online_hi_stored.
Proof.
  simpl. split; [reflexivity|]. split; [discriminate|].
  apply (ack_mismatch_keeps_entry "eve"
           (wire (client_ack "1700000000000-00112233445566ff"))
           alice_online_hi_stored hi_bob); [reflexivity | discriminate].
Defined.

(** C4: [handleAckMessage] is idempotent. Acknowledging the same
    [serverMsgId] again as the same identity leaves the server in the
    state the first call left it in; the second call removes nothing and
    does nothing but write the console line of an ignored
    acknowledgment. *)
Theorem acknowledge_idempotent username message st :
  let st1 := (handleAckMessage username message st).1 in
  (handleAckMessage username message st1).1 = st1
  ∧ store (handleAckMessage username message st1).1 = store st1
  ∧ ((handleAckMessage username message st1).2
       = [Console (ACK_not_found_or_mismatch (w_serverMsgId message))]
     ∨ (handleAckMessage username message st1).2
       = [Console (ACK_invalid_ack_message username)]).
Proof.
  unfold handleAckMessage.
  destruct (truthy (w_serverMsgId message)) eqn:Ht; simpl; [|auto].
  destruct (messages.getMessage (w_serverMsgId message) (store st))
    as [msg|] eqn:Hget.
  - destruct (seq_str (m_to msg) username) eqn:Hto; simpl.
    + rewrite getMessage_removeMessage. auto.
    + rewrite Hget, Hto. auto.
  - simpl. rewrite Hget. auto.
Qed.

End server_claims.

(** * Message identifiers *)

Section identifiers.

Lemma append_cons c s t : String c s +:+ t = String c (s +:+ t).
Proof. reflexivity. Qed.

Lemma append_nil t : "" +:+ t = t.
Proof. reflexivity. Qed.

Lemma unhex_hex_of_byte b :
  match hex_of_byte b with
  | String c1 (String c2 EmptyString) => unhex_byte c1 c2 = Some b
  | _ => False
  end.
Proof. destruct b; reflexivity. Qed.

Lemma hex_of_byte_shape b :
  ∃ c1 c2, hex_of_byte b = String c1 (String c2 EmptyString).
Proof. unfold hex_of_byte. eauto. Qed.

Lemma hex_of_byte_inj b1 b2 : hex_of_byte b1 = hex_of_byte b2 → b1 = b2.
Proof.
  intros H. pose proof (unhex_hex_of_byte b1) as H1.
  pose proof (unhex_hex_of_byte b2) as H2. rewrite H in H1.
  destruct (hex_of_byte b2) as [|c1 [|c2 [|]]]; try contradiction.
  congruence.
Qed.

Lemma toString_hex_inj r1 r2 : toString_hex r1 = toString_hex r2 → r1 = r2.
Proof.
  revert r2. induction r1 as [|b1 r1 IH]; intros [|b2 r2]; simpl; try done.
  intros H.
  destruct (hex_of_byte_shape b1) as (c1 & c2 & E1).
  destruct (hex_of_byte_shape b2) as (d1 & d2 & E2).
  rewrite E1, E2, !append_cons, !append_nil in H. injection H as -> -> H.
  f_equal; [|by apply IH].
  apply hex_of_byte_inj. by rewrite E1, E2.
Qed.

Lemma toString_hex_length r : String.length (toString_hex r) = (2 * length r)%nat.
Proof.
  induction r as [|b r IH]; [done|]. cbn [toString_hex].
  destruct (hex_of_byte_shape b) as (c1 & c2 & ->).
  rewrite !append_cons, append_nil. cbn [String.length length]. lia.
Qed.

Lemma string_length_app s t :
  String.length (s +:+ t) = (String.length s + String.length t)%nat.
Proof.
  induction s as [|a s IH]; [done|].
  rewrite append_cons. cbn [String.length]. by rewrite IH.
Qed.

Lemma string_app_inj_length s1 s2 t1 t2 :
  s1 +:+ t1 = s2 +:+ t2 → String.length t1 = String.length t2 →
  s1 = s2 ∧ t1 = t2.
Proof.
  revert s2. induction s1 as [|a s1 IH]; intros [|b s2];
    rewrite ?append_cons, ?append_nil; intros H Hlen.
  - done.
  - subst t1. simpl in Hlen. rewrite string_length_app in Hlen. lia.
  - subst t2. simpl in Hlen. rewrite string_length_app in Hlen. lia.
  - injection H as -> H. destruct (IH _ H Hlen) as [-> ->]. done.
Qed.

(** Two identifiers are equal only when both the clock reading and the
    random bytes are. *)
Lemma generateMessageId_inj now1 r1 now2 r2 :
  length r1 = length r2 →
  generateMessageId now1 r1 = generateMessageId now2 r2 →
  now1 = now2 ∧ r1 = r2.
Proof.
  unfold generateMessageId. intros Hlen H.
  apply string_app_inj_length in H as [Hn Hr].
  - split; [by apply (inj pretty)|].
    apply (inj (String.app "-")) in Hr. by apply toString_hex_inj.
  - rewrite !append_cons, !append_nil. simpl. rewrite !toString_hex_length. lia.
Qed.

End identifiers.

(** * The Outbox across the handlers of the server *)

Section outbox_lifetime.

Import server.

Lemma handleSendMessage_accepted env from message st :
  accepted message = true →
  (handleSendMessage env from message st).1
    = set_store (messages.addMessage (accepted_message env from message) (store st)) st
  ∧ assigned_ids (handleSendMessage env from message st).2
    = [generateMessageId (env_now env) (env_random env)].
Proof.
  unfold accepted, handleSendMessage, accepted_message. intros H.
  apply andb_true_iff in H as [H Hb]. apply andb_true_iff in H as [Hc Ht].
  rewrite Hc, Ht, Hb. cbn [negb orb].
  destruct (openSocket (w_to message) st); cbn [fst snd];
    (split; [reflexivity|]); unfold assigned_ids; rewrite omap_app;
    by destruct (openSocket _ _).
Qed.

Lemma handleSendMessage_rejected env from message st :
  accepted message = false →
  handleSendMessage env from message st
    = (st, [Console (MSG_invalid_send_message from)]).
Proof.
  unfold accepted, handleSendMessage. intros H.
  destruct (truthy (w_clientMsgId message)), (truthy (w_to message)),
    (truthy (w_body message)); done.
Qed.

Lemma handleAckMessage_store username message st :
  store (handleAckMessage username message st).1 = store st
  ∨ ∃ msg, messages.getMessage (w_serverMsgId message) (store st) = Some msg
           ∧ m_to msg = VStr username
           ∧ store (handleAckMessage username message st).1
             = messages.removeMessage (w_serverMsgId message) (store st).
Proof.
  unfold handleAckMessage.
  destruct (truthy (w_serverMsgId message)); [|by left].
  destruct (messages.getMessage _ _) as [msg|] eqn:Hget; [|by left].
  destruct (seq_str (m_to msg) username) eqn:Hto; [|by left].
  right. exists msg. by apply seq_str_true in Hto.
Qed.

Lemma sendUndeliveredMessages_state username ws st :
  (sendUndeliveredMessages username ws st).1 = st.
Proof. unfold sendUndeliveredMessages. by destruct (bool_decide _). Qed.

Lemma step_on_connection_store ws token username validToken st :
  store (step (on_connection ws token username validToken) st).1 = store st.
Proof.
  cbn [step]. destruct (missing token || missing username); [done|].
  destruct validToken; [|done]. cbn [negb].
  destruct (sendUndeliveredMessages _ _ _) as [st2 batch] eqn:E.
  apply (f_equal fst) in E. rewrite sendUndeliveredMessages_state in E.
  cbn in E. by subst st2.
Qed.

(** C5: a message that passes the validation of [handleSendMessage] is in
    the Outbox when the handler returns, whatever the registry says about
    the recipient (the statement holds for every state, so for a recipient
    with an open socket, with a socket that is not open, and with none);
    draining for a connecting recipient is a read that leaves the server
    state, and so the store, as it was; and an entry leaves the Outbox in
    one step of the server only when that step handles an [ack_message]
    naming it, sent by the identity in its [to]. *)
Theorem accepted_stored_until_acknowledged :
  (∀ env from message st,
     accepted message = true →
     messages.getMessage
       (VStr (generateMessageId (env_now env) (env_random env)))
       (store (handleSendMessage env from message st).1)
     = Some (accepted_message env from message))
  ∧ (∀ username ws st, (sendUndeliveredMessages username ws st).1 = st)
  ∧ (∀ ws token username validToken st,
       store (step (on_connection ws token username validToken) st).1 = store st)
  ∧ (∀ ev st k m,
       messages.getMessage (VStr k) (store st) = Some m →
       messages.getMessage (VStr k) (store (step ev st).1) = None →
       ∃ username ws message env,
         ev = on_message username ws (Some message) env
         ∧ w_type message = VStr "ack_message"
         ∧ w_serverMsgId message = VStr k
         ∧ m_to m = VStr username).
Proof.
  split; [|split; [|split]].
  - intros env from message st Hacc.
    destruct (handleSendMessage_accepted env from message st Hacc) as [-> _].
    apply (getMessage_addMessage (accepted_message env from message)).
  - apply sendUndeliveredMessages_state.
  - apply step_on_connection_store.
  - intros ev st k m Hin Hout. destruct ev as [ws token u v|u ws [message|] env|u ws].
    + rewrite step_on_connection_store in Hout. congruence.
    + cbn [step] in Hout. unfold handleMessage in Hout.
      destruct (seq_str (w_type message) "send_message") eqn:Hs.
      { destruct (accepted message) eqn:Hacc.
        - destruct (handleSendMessage_accepted env u message st Hacc) as [E _].
          rewrite E in Hout. cbn [step fst store set_store set_registry set_readyState] in Hout.
          destruct (getMessage_addMessage_is_Some
                      (accepted_message env u message) k (store st)) as [x Hx];
            [eauto|]. congruence.
        - rewrite handleSendMessage_rejected in Hout by done.
          cbn [step fst store set_store set_registry set_readyState] in Hout. congruence. }
      destruct (seq_str (w_type message) "ack_message") eqn:Ha.
      { apply seq_str_true in Ha.
        destruct (handleAckMessage_store u message st) as [E|(msg & Hg & Hto & E)];
          rewrite E in Hout; [congruence|].
        exists u, ws, message, env.
        pose proof (getMessage_key _ _ _ Hg) as Hkey.
        destruct (decide (k = m_serverMsgId msg)) as [->|Hne].
        - rewrite Hkey in Hg. rewrite Hg in Hin. by simplify_eq.
        - rewrite Hkey in Hout.
          rewrite getMessage_removeMessage_ne in Hout by done. congruence. }
      destruct (seq_str (w_type message) "ping"); cbn [step fst store set_store set_registry set_readyState] in Hout; congruence.
    + cbn [step fst store set_store set_registry set_readyState] in Hout. congruence.
    + cbn [step fst store set_store set_registry set_readyState] in Hout. congruence.
Qed.

Lemma accepted_stored_until_acknowledged_witness :
  let message := wire (send_message "1700000000000-k3x9" "bob" "hi" 1700000000000) in
  accepted message = true
  ∧ messages.getMessage
      (VStr (generateMessageId (env_now same_reading) (env_random same_reading)))
      (store (handleSendMessage same_reading "alice" message alice_online).1)
    = Some (accepted_message same_reading "alice" message).
Proof.
  split; [reflexivity|].
  apply (proj1 accepted_stored_until_acknowledged). reflexivity.
Defined.

End outbox_lifetime.

(** * Uniqueness of the identifiers the server assigns *)

Section assigned_identifiers.

Import server.

Lemma assigned_ids_app out1 out2 :
  assigned_ids (out1 ++ out2) = assigned_ids out1 ++ assigned_ids out2.
Proof. apply omap_app. Qed.

Lemma assigned_ids_broadcastPresence username status st :
  assigned_ids (broadcastPresence username status st) = [].
Proof.
  unfold broadcastPresence.
  induction (sockets.getOnlineUsers (registry st)) as [|u us IH]; [done|].
  cbn [flat_map]. rewrite assigned_ids_app, IH.
  destruct (bool_decide (u ≠ username)); [|done].
  by destruct (openSocket (VStr u) st).
Qed.

Lemma assigned_ids_sendError ws err st : assigned_ids (sendError ws err st) = [].
Proof. unfold sendError. by destruct (isOpen ws st). Qed.

Lemma assigned_ids_handleAckMessage username message st :
  assigned_ids (handleAckMessage username message st).2 = [].
Proof.
  unfold handleAckMessage. destruct (truthy _); [|done].
  destruct (messages.getMessage _ _) as [msg|]; [|done].
  by destruct (seq_str _ _).
Qed.

Lemma submit_readings_message u ws message env :
  submit_readings [on_message u ws (Some message) env]
  = if seq_str (w_type message) "send_message" && accepted message
    then [(env_now env, env_random env)] else [].
Proof.
  unfold submit_readings. cbn.
  by destruct (seq_str (w_type message) "send_message" && accepted message).
Qed.

Lemma assigned_ids_cons_Console line out :
  assigned_ids (Console line :: out)
  = match line with
    | MSG_delivered id _ _ | MSG_stored id _ _ => id :: assigned_ids out
    | _ => assigned_ids out
    end.
Proof. by destruct line. Qed.

Lemma assigned_ids_step ev st :
  assigned_ids (step ev st).2
  = (λ r, generateMessageId r.1 r.2) <$> submit_readings [ev].
Proof.
  destruct ev as [ws token u v|u ws [message|] env|u ws].
  - change (submit_readings _) with (@nil (N * list byte)). cbn [step].
    destruct (missing token || missing u); [done|].
    destruct v; [|done]. cbn [negb].
    unfold sendUndeliveredMessages. destruct (bool_decide _); cbn [snd];
      rewrite assigned_ids_cons_Console, assigned_ids_app,
        assigned_ids_broadcastPresence; done.
  - rewrite submit_readings_message. cbn [step]. unfold handleMessage.
    destruct (seq_str (w_type message) "send_message") eqn:Hs; cbn [andb].
    { destruct (accepted message) eqn:Hacc.
      - by destruct (handleSendMessage_accepted env u message st Hacc) as [_ ->].
      - by rewrite handleSendMessage_rejected. }
    destruct (seq_str (w_type message) "ack_message").
    { by rewrite assigned_ids_handleAckMessage. }
    destruct (seq_str (w_type message) "ping"); [done|]. cbn [snd].
    by rewrite assigned_ids_cons_Console, assigned_ids_sendError.
  - change (submit_readings _) with (@nil (N * list byte)). cbn [step snd].
    by rewrite assigned_ids_cons_Console, assigned_ids_sendError.
  - change (submit_readings _) with (@nil (N * list byte)). cbn [step snd].
    by rewrite assigned_ids_cons_Console, assigned_ids_broadcastPresence.
Qed.

Lemma submit_readings_cons ev evs :
  submit_readings (ev :: evs) = submit_readings [ev] ++ submit_readings evs.
Proof. apply (omap_app _ [ev] evs). Qed.

Lemma assigned_ids_run evs st :
  assigned_ids (run evs st).2
  = (λ r, generateMessageId r.1 r.2) <$> submit_readings evs.
Proof.
  revert st. induction evs as [|ev evs IH]; intros st; [done|].
  cbn [run]. destruct (step ev st) as [st1 out1] eqn:E.
  specialize (IH st1). destruct (run evs st1) as [st2 out2]. cbn [snd] in *.
  rewrite assigned_ids_app, IH, submit_readings_cons, fmap_app.
  f_equal. apply (f_equal snd) in E. cbn [snd] in E. subst out1.
  apply assigned_ids_step.
Qed.

(** C8, as the claim states it, fails: two requests accepted in the same
    millisecond for which [crypto.randomBytes] returns the same eight
    bytes are given the same [serverMsgId]. *)
Lemma same_reading_same_id :
  submit_readings two_submits
    = [(1700000000000%N, [x00; x11; x22; x33; x44; x55; x66; xff]);
       (1700000000000%N, [x00; x11; x22; x33; x44; x55; x66; xff])]
  ∧ assigned_ids (run two_submits alice_online).2
    = ["1700000000000-00112233445566ff"; "1700000000000-00112233445566ff"]
  ∧ ¬ NoDup (assigned_ids (run two_submits alice_online).2).
Proof.
  assert (assigned_ids (run two_submits alice_online).2
    = ["1700000000000-00112233445566ff"; "1700000000000-00112233445566ff"]) as E
    by (vm_compute; reflexivity).
  split; [reflexivity|]. split; [exact E|].
  rewrite E. intros H. apply NoDup_cons in H as [H _].
  apply H. left.
Qed.

(** C8 (amended): in every run of the server, the [serverMsgId]s assigned
    to the accepted [send_message] requests are pairwise different,
    provided no two of these requests read both the same clock value in
    [Date.now()] and the same bytes from [crypto.randomBytes(8)]. *)
Theorem serverMsgId_unique evs st :
  NoDup (submit_readings evs) →
  Forall (λ r, length r.2 = 8%nat) (submit_readings evs) →
  NoDup (assigned_ids (run evs st).2).
Proof.
  intros Hnd Hlen. rewrite assigned_ids_run.
  apply NoDup_fmap_2_strong; [|exact Hnd].
  intros [n1 r1] [n2 r2] H1 H2 Heq. cbn [fst snd] in Heq.
  rewrite Forall_forall in Hlen.
  pose proof (Hlen _ H1) as L1. pose proof (Hlen _ H2) as L2. cbn [snd] in L1, L2.
  apply generateMessageId_inj in Heq as [-> ->]; [done | congruence].
Qed.

Lemma serverMsgId_unique_witness :
  let evs :=
    [on_message "alice" 1
       (Some (wire (send_message "1700000000000-k3x9" "bob" "hi" 1700000000000)))
       same_reading;
     on_message "alice" 1
       (Some (wire (send_message "1700000000000-p0q1" "bob" "there" 1700000000000)))
       {| env_now := 1700000000000;
          env_random := [x00; x11; x22; x33; x44; x55; x66; xfe];
          env_now_ts := 1700000000000 |}] in
  NoDup (submit_readings evs)
  ∧ Forall (λ r, length r.2 = 8%nat) (submit_readings evs)
  ∧ NoDup (assigned_ids (run evs alice_online).2).
Proof.
  intros evs.
  assert (NoDup (submit_readings evs)) as Hnd.
  { vm_compute. apply NoDup_cons. split.
    - intros H. apply list_elem_of_In in H. destruct H as [H|[]]. discriminate H.
    - apply NoDup_cons. split; [|apply NoDup_nil; exact I].
      intros H. apply list_elem_of_In in H. destruct H. }
  assert (Forall (λ r, length r.2 = 8%nat) (submit_readings evs)) as Hlen.
  { vm_compute. repeat constructor. }
  split; [exact Hnd|]. split; [exact Hlen|].
  exact (serverMsgId_unique evs alice_online Hnd Hlen).
Defined.

End assigned_identifiers.

(** * Where the acknowledgment that confirms a sent message comes from *)

Section transport_receipt.

Lemma frames_sent_handleAckMessage username message st :
  frames_sent (server.handleAckMessage username message st).2 = [].
Proof.
  unfold server.handleAckMessage. destruct (truthy _); [|done].
  destruct (messages.getMessage _ _) as [msg|]; [|done].
  by destruct (seq_str _ _).
Qed.

Lemma openSocket_set_store username s st :
  server.openSocket username (server.set_store s st) = server.openSocket username st.
Proof. reflexivity. Qed.

Lemma handleSendMessage_receipt env from message st ws :
  accepted message = true →
  server.openSocket (VStr from) st = Some ws →
  server.Send ws
    (ack_message (generateMessageId (env_now env) (env_random env))
       (w_clientMsgId message) (w_to message))
  ∈ (server.handleSendMessage env from message st).2.
Proof.
  unfold accepted, server.handleSendMessage. intros H Hws.
  apply andb_true_iff in H as [H Hb]. apply andb_true_iff in H as [Hc Ht].
  rewrite Hc, Ht, Hb. cbn [negb orb].
  destruct (server.openSocket (w_to message) st); cbn [snd];
    rewrite openSocket_set_store, Hws; cbn [m_serverMsgId m_clientMsgId m_to];
    apply list_elem_of_In, in_or_app; right; left; reflexivity.
Qed.

Lemma ack_not_in_broadcastPresence username status st ws sid c to :
  server.Send ws (ack_message sid c to) ∉ server.broadcastPresence username status st.
Proof.
  unfold server.broadcastPresence.
  induction (sockets.getOnlineUsers (server.registry st)) as [|u us IH];
    cbn [flat_map]; [apply not_elem_of_nil|].
  rewrite elem_of_app. intros [H|H]; [|by apply IH].
  destruct (bool_decide (u ≠ username)); [|by apply not_elem_of_nil in H].
  destruct (server.openSocket (VStr u) st); [|by apply not_elem_of_nil in H].
  apply list_elem_of_singleton in H. discriminate.
Qed.

Lemma ack_not_in_sendError ws' err st ws sid c to :
  server.Send ws (ack_message sid c to) ∉ server.sendError ws' err st.
Proof.
  unfold server.sendError. destruct (server.isOpen ws' st).
  - intros H. apply list_elem_of_singleton in H. discriminate.
  - apply not_elem_of_nil.
Qed.

Lemma ack_in_handleSendMessage env from message st ws sid c to :
  server.Send ws (ack_message sid c to)
    ∈ (server.handleSendMessage env from message st).2 →
  accepted message = true
  ∧ sid = generateMessageId (env_now env) (env_random env)
  ∧ c = w_clientMsgId message ∧ to = w_to message
  ∧ server.openSocket (VStr from) st = Some ws.
Proof.
  destruct (accepted message) eqn:Hacc.
  2:{ rewrite handleSendMessage_rejected by done. intros H.
      apply list_elem_of_singleton in H. discriminate. }
  revert Hacc. unfold accepted, server.handleSendMessage. intros H.
  apply andb_true_iff in H as [H Hb]. apply andb_true_iff in H as [Hc Ht].
  rewrite Hc, Ht, Hb. cbn [negb orb].
  destruct (server.openSocket (w_to message) st); cbn [snd];
    rewrite openSocket_set_store;
    destruct (server.openSocket (VStr from) st) as [sws|];
    cbn [m_serverMsgId m_clientMsgId m_to];
    rewrite !elem_of_app, ?elem_of_cons, ?elem_of_nil;
    intros Hin; destruct_or?; try done; simplify_eq; done.
Qed.

Lemma ack_in_step ev st ws sid c to :
  server.Send ws (ack_message sid c to) ∈ (server.step ev st).2 →
  ∃ from ws' message env,
    ev = server.on_message from ws' (Some message) env
    ∧ w_type message = VStr "send_message"
    ∧ accepted message = true
    ∧ sid = generateMessageId (env_now env) (env_random env)
    ∧ c = w_clientMsgId message.
Proof.
  destruct ev as [ws' token u v|u ws' [message|] env|u ws']; cbn [server.step].
  - destruct (server.missing token || server.missing u).
    { cbn [snd]. rewrite !elem_of_cons, elem_of_nil. intros H; destruct_or?; done. }
    destruct v; cbn [negb].
    2:{ cbn [snd]. rewrite !elem_of_cons, elem_of_nil. intros H; destruct_or?; done. }
    unfold server.sendUndeliveredMessages.
    destruct (bool_decide _); cbn [snd];
      rewrite elem_of_cons, elem_of_app, ?elem_of_cons, ?elem_of_nil;
      intros H; destruct_or?; try done;
      by apply ack_not_in_broadcastPresence in H.
  - unfold server.handleMessage.
    destruct (seq_str (w_type message) "send_message") eqn:Hs.
    { intros H. apply ack_in_handleSendMessage in H as (? & ? & ? & ? & ?).
      apply seq_str_true in Hs. by exists u, ws', message, env. }
    destruct (seq_str (w_type message) "ack_message").
    { intros H. pose proof (frames_sent_handleAckMessage u message st) as E.
      assert ((ws, ack_message sid c to)
                ∈ frames_sent (server.handleAckMessage u message st).2) as Hin.
      { apply list_elem_of_omap. eexists. split; [exact H | reflexivity]. }
      rewrite E in Hin. by apply not_elem_of_nil in Hin. }
    destruct (seq_str (w_type message) "ping"); cbn [snd].
    { rewrite elem_of_cons, elem_of_nil. intros H; destruct_or?; done. }
    rewrite elem_of_cons. intros [H|H]; [done|].
    by apply ack_not_in_sendError in H.
  - cbn [snd]. rewrite elem_of_cons. intros [H|H]; [done|].
    by apply ack_not_in_sendError in H.
  - cbn [snd]. rewrite elem_of_cons. intros [H|H]; [done|].
    by apply ack_not_in_broadcastPresence in H.
Qed.

Lemma client_handleAckMessage_confirms serverMsgId c ref st :
  c ≠ "" →
  ChatApp.pendingMessages st !! c = Some (Some ref) →
  ChatApp.handleAckMessage serverMsgId (VStr c) st
  = ChatApp.Returned
      (ChatApp.set_pendingMessages (delete c (ChatApp.pendingMessages st))
         (ChatApp.set_dom
            (alter (ChatApp.mark_delivered serverMsgId) ref (ChatApp.dom st)) st))
      [].
Proof.
  intros Hc Hp. unfold ChatApp.handleAckMessage. cbn [truthy].
  destruct (String.eqb c "") eqn:E; [by apply String.eqb_eq in E|].
  cbn [negb]. by rewrite Hp.
Qed.

(** C1, as the claim states it, fails. alice sends "hi" to bob, who is not
    connected and has no session. The server answers the [send_message]
    itself with an [ack_message] on the socket of alice, and on that frame
    her client deletes the pending marker and marks the element delivered,
    although no recipient has acknowledged anything. *)
Lemma marker_confirmed_without_recipient :
  let sent :=
    ChatApp.step (ChatApp.send 1700000000000 "k3x9" 1700000000000) alice_session in
  let request := send_message "1700000000000-k3x9" "bob" "hi" 1700000000000 in
  let served :=
    server.step (server.on_message "alice" 1 (Some (wire request)) same_reading)
      alice_online in
  let receipt :=
    ack_message "1700000000000-00112233445566ff"
      (VStr "1700000000000-k3x9") (VStr "bob") in
  let confirmed := ChatApp.step (ChatApp.onmessage (Some receipt)) sent.1 in
  sent.2 = [ChatApp.AppendChild hi_pending; ChatApp.Send request]
  ∧ ChatApp.pendingMessages sent.1 = {["1700000000000-k3x9" := Some 0%nat]}
  ∧ sockets.getSocket (VStr "bob") (server.registry alice_online) = None
  ∧ served.2
    = [server.Console
         (server.MSG_stored "1700000000000-00112233445566ff" "alice" (VStr "bob"));
       server.Send 1 receipt]
  ∧ ChatApp.pendingMessages confirmed.1 = ∅
  ∧ ChatApp.dom confirmed.1
    = [ChatApp.mark_delivered "1700000000000-00112233445566ff" hi_pending].
Proof. vm_compute. repeat split; reflexivity. Qed.

(** C1 (amended): the [ack_message] that clears the pending marker of the
    sender is generated by the server at submit time. For every accepted
    [send_message], [handleSendMessage] itself writes
    [ack_message {serverMsgId, clientMsgId, to}] to the socket of the
    sender when that socket is open, whether or not the recipient is
    connected; no other step of the server writes an [ack_message] frame,
    and the [handleAckMessage] of the server, which handles the
    acknowledgment of the recipient, sends no frame at all; on that frame
    the client of the sender marks the pending element delivered and
    deletes the marker. *)
Theorem ack_message_generated_at_submit :
  (∀ env from message st ws,
     accepted message = true →
     server.openSocket (VStr from) st = Some ws →
     server.Send ws
       (ack_message (generateMessageId (env_now env) (env_random env))
          (w_clientMsgId message) (w_to message))
     ∈ (server.handleSendMessage env from message st).2)
  ∧ (∀ ev st ws sid c to,
       server.Send ws (ack_message sid c to) ∈ (server.step ev st).2 →
       ∃ from ws' message env,
         ev = server.on_message from ws' (Some message) env
         ∧ w_type message = VStr "send_message"
         ∧ accepted message = true
         ∧ sid = generateMessageId (env_now env) (env_random env)
         ∧ c = w_clientMsgId message)
  ∧ (∀ username message st,
       frames_sent (server.handleAckMessage username message st).2 = [])
  ∧ (∀ serverMsgId c ref st,
       c ≠ "" →
       ChatApp.pendingMessages st !! c = Some (Some ref) →
       ChatApp.handleAckMessage serverMsgId (VStr c) st
       = ChatApp.Returned
           (ChatApp.set_pendingMessages (delete c (ChatApp.pendingMessages st))
              (ChatApp.set_dom
                 (alter (ChatApp.mark_delivered serverMsgId) ref (ChatApp.dom st))
                 st))
           []).
Proof.
  split; [|split; [|split]].
  - apply handleSendMessage_receipt.
  - apply ack_in_step.
  - apply frames_sent_handleAckMessage.
  - apply client_handleAckMessage_confirms.
Qed.

Lemma ack_message_generated_at_submit_witness :
  let request := wire (send_message "1700000000000-k3x9" "bob" "hi" 1700000000000) in
  accepted request = true
  ∧ server.openSocket (VStr "alice") alice_online = Some 1%nat
  ∧ server.Send 1
      (ack_message
         (generateMessageId (env_now same_reading) (env_random same_reading))
         (w_clientMsgId request) (w_to request))
    ∈ (server.handleSendMessage same_reading "alice" request alice_online).2.
Proof.
  split; [reflexivity|]. split; [reflexivity|].
  apply (proj1 ack_message_generated_at_submit); reflexivity.
Defined.

End transport_receipt.

(** * Duplicate suppression in the client *)

Section seen_set.

Import ChatApp.

Implicit Types (st : State) (out : list Effect) (id : string).

Lemma renders_app id out1 out2 :
  renders id (out1 ++ out2) = (renders id out1 + renders id out2)%nat.
Proof. unfold renders. by rewrite List.filter_app, length_app. Qed.

Lemma acks_app id out1 out2 :
  acks id (out1 ++ out2) = (acks id out1 + acks id out2)%nat.
Proof. unfold acks. by rewrite List.filter_app, length_app. Qed.

(** What [appendMessage] leaves alone, and what it appends. *)
Lemma appendMessage_spec a st :
  seenMessageIds (appendMessage a st).1.1 = seenMessageIds st
  ∧ socket (appendMessage a st).1.1 = socket st
  ∧ ((appendMessage a st).2 = []
     ∨ ∃ el, (appendMessage a st).2 = [AppendChild el]
             ∧ data_serverMsgId el
               = (if present (a_serverMsgId a) then a_serverMsgId a else None)).
Proof.
  unfold appendMessage. destruct (messagesContainer st); [|by auto].
  destruct (_ && _); [by auto|]. cbn.
  split; [done|]. split; [done|]. right. eexists. split; reflexivity.
Qed.

Lemma renders_appendMessage id a st :
  (renders id (appendMessage a st).2 ≤ 1)%nat
  ∧ (a_serverMsgId a ≠ Some id → renders id (appendMessage a st).2 = 0%nat).
Proof.
  destruct (appendMessage_spec a st) as (_ & _ & [->|(el & -> & Hel)]).
  { cbn. split; [lia | done]. }
  unfold renders. cbn [List.filter is_render]. split.
  - destruct (bool_decide _); cbn; lia.
  - intros Hne. rewrite bool_decide_eq_false_2; [done|].
    rewrite Hel. destruct (present (a_serverMsgId a)); congruence.
Qed.

Lemma acks_appendMessage id a st : acks id (appendMessage a st).2 = 0%nat.
Proof.
  by destruct (appendMessage_spec a st) as (_ & _ & [->|(el & -> & _)]).
Qed.

Lemma handleIncomingMessage_seen serverMsgId from body ts st :
  serverMsgId ∈ seenMessageIds st →
  handleIncomingMessage serverMsgId from body ts st
  = (st, [Console (Duplicate_message_ignored serverMsgId)]).
Proof.
  intros H. unfold handleIncomingMessage. by rewrite bool_decide_eq_true_2.
Qed.

Lemma handleIncomingMessage_fresh serverMsgId from body ts st :
  serverMsgId ∉ seenMessageIds st →
  let st1 := set_seenMessageIds ({[serverMsgId]} ∪ seenMessageIds st) st in
  let a := {| a_from := from; a_to := currentUser st1; a_body := body;
              a_ts := ts; a_clientMsgId := None;
              a_serverMsgId := Some serverMsgId; a_pending := false |} in
  handleIncomingMessage serverMsgId from body ts st
  = ((appendMessage a st1).1.1,
     (appendMessage a st1).2
       ++ if socketOpen st then [Send (client_ack serverMsgId)] else []).
Proof.
  intros H st1 a. unfold handleIncomingMessage.
  rewrite bool_decide_eq_false_2 by done. fold st1. fold a.
  destruct (appendMessage_spec a st1) as (_ & Hsock & _).
  destruct (appendMessage a st1) as [[st2 r] out]. cbn [fst snd] in *.
  unfold socketOpen. rewrite Hsock. cbn [st1 set_seenMessageIds socket].
  destruct (bool_decide (socket st = Some OPEN)); [done|].
  by rewrite app_nil_r.
Qed.

Lemma dedups_handleIncomingMessage id serverMsgId from body ts :
  dedups id (handleIncomingMessage serverMsgId from body ts).
Proof.
  intros st. destruct (decide (serverMsgId ∈ seenMessageIds st)) as [Hin|Hnin].
  { rewrite handleIncomingMessage_seen by done. cbn. repeat split; lia || done. }
  rewrite handleIncomingMessage_fresh by done. cbn [fst snd].
  set (st1 := set_seenMessageIds _ st). set (a := Build_MessageArgs _ _ _ _ _ _ _).
  destruct (appendMessage_spec a st1) as (Hseen & _ & _).
  destruct (renders_appendMessage id a st1) as [Hr1 Hr0].
  pose proof (acks_appendMessage id a st1) as Ha0.
  rewrite Hseen, renders_app, acks_app, Ha0.
  assert (renders id (if socketOpen st then [Send (client_ack serverMsgId)] else [])
          = 0%nat) as -> by (by destruct (socketOpen st)).
  assert (serverMsgId ≠ id →
          acks id (if socketOpen st then [Send (client_ack serverMsgId)] else [])
          = 0%nat) as Hack.
  { intros Hne. destruct (socketOpen st); [|done].
    unfold acks. cbn. by rewrite bool_decide_eq_false_2. }
  assert (acks id (if socketOpen st then [Send (client_ack serverMsgId)] else [])
          ≤ 1)%nat as Hack1.
  { destruct (socketOpen st); [|cbn; lia].
    unfold acks. cbn. destruct (bool_decide _); cbn; lia. }
  cbn [st1 set_seenMessageIds seenMessageIds].
  split; [apply union_subseteq_r|]. split; [lia|]. split.
  - intros Hid. assert (serverMsgId ≠ id) as Hne by (intros ->; done).
    rewrite Hr0, Hack by (cbn; congruence). done.
  - intros Hid. assert (serverMsgId ≠ id) as Hne.
    { intros ->. apply Hid, elem_of_union_l, elem_of_singleton. reflexivity. }
    rewrite Hr0, Hack by (cbn; congruence). done.
Qed.

(** Handlers run one after the other. *)
Lemma dedups_then id f g :
  dedups id f → dedups id g →
  dedups id (λ st, let '(st1, out1) := f st in
                   let '(st2, out2) := g st1 in (st2, out1 ++ out2)).
Proof.
  intros Hf Hg st. specialize (Hf st). destruct (f st) as [st1 out1].
  specialize (Hg st1). destruct (g st1) as [st2 out2]. cbn [fst snd] in *.
  destruct Hf as (Hs1 & Hb1 & Hin1 & Hout1), Hg as (Hs2 & Hb2 & Hin2 & Hout2).
  rewrite renders_app, acks_app.
  split; [by etrans|].
  destruct (decide (id ∈ seenMessageIds st1)) as [H1|H1].
  - destruct (Hin2 H1) as [-> ->]. split; [lia|]. split.
    + intros H. destruct (Hin1 H) as [-> ->]. done.
    + intros H. exfalso. apply H. by apply Hs2.
  - destruct (Hout1 H1) as [-> ->]. split; [lia|]. split.
    + intros H. exfalso. apply H1. by apply Hs1.
    + intros H. by destruct (Hout2 H) as [-> ->].
Qed.

(** A handler that leaves the Seen-Set alone and neither renders an entry
    with a [serverMsgId] nor acknowledges. *)
Lemma dedups_silent id f :
  (∀ st, seenMessageIds (f st).1 = seenMessageIds st
         ∧ renders id (f st).2 = 0%nat ∧ acks id (f st).2 = 0%nat) →
  dedups id f.
Proof.
  intros H st. destruct (H st) as (-> & -> & ->). repeat split; lia || done.
Qed.

Lemma dedups_handleUndeliveredBatch id messages :
  dedups id (handleUndeliveredBatch messages).
Proof.
  induction messages as [|msg rest IH].
  - apply dedups_silent. done.
  - apply (dedups_then id
             (handleIncomingMessage (b_serverMsgId msg) (b_from msg)
                (b_body msg) (b_ts msg))
             (handleUndeliveredBatch rest));
      [apply dedups_handleIncomingMessage | exact IH].
Qed.

Lemma seenMessageIds_updateConnectionStatus message isConnected st :
  seenMessageIds (updateConnectionStatus message isConnected st) = seenMessageIds st.
Proof. unfold updateConnectionStatus. by destruct (connectionStatus st). Qed.

Lemma scheduleReconnect_silent id st :
  seenMessageIds (scheduleReconnect st).1 = seenMessageIds st
  ∧ renders id (scheduleReconnect st).2 = 0%nat
  ∧ acks id (scheduleReconnect st).2 = 0%nat.
Proof.
  unfold scheduleReconnect. destruct (reconnectTimer st); [done|].
  cbn [fst snd set_reconnectTimer seenMessageIds].
  by rewrite seenMessageIds_updateConnectionStatus.
Qed.

Lemma connect_silent id throws st :
  seenMessageIds (connect throws st).1 = seenMessageIds st
  ∧ renders id (connect throws st).2 = 0%nat
  ∧ acks id (connect throws st).2 = 0%nat.
Proof.
  unfold connect. destruct throws.
  - destruct (scheduleReconnect_silent id (updateConnectionStatus Connecting false st))
      as (Hs & Hr & Ha).
    destruct (scheduleReconnect _) as [st1 out]. cbn [fst snd] in *.
    by rewrite Hs, seenMessageIds_updateConnectionStatus.
  - cbn [fst snd set_socket seenMessageIds].
    by rewrite seenMessageIds_updateConnectionStatus.
Qed.

Lemma handleOpen_silent id st :
  seenMessageIds (handleOpen st).1 = seenMessageIds st
  ∧ renders id (handleOpen st).2 = 0%nat
  ∧ acks id (handleOpen st).2 = 0%nat.
Proof.
  unfold handleOpen. cbn [fst snd].
  by rewrite seenMessageIds_updateConnectionStatus.
Qed.

Lemma handleClose_silent id wasClean st :
  seenMessageIds (handleClose wasClean st).1 = seenMessageIds st
  ∧ renders id (handleClose wasClean st).2 = 0%nat
  ∧ acks id (handleClose wasClean st).2 = 0%nat.
Proof.
  unfold handleClose. destruct (_ && _).
  - destruct (scheduleReconnect_silent id (updateConnectionStatus Disconnected false st))
      as (Hs & Hr & Ha).
    destruct (scheduleReconnect _) as [st1 out]. cbn [fst snd] in *.
    by rewrite Hs, seenMessageIds_updateConnectionStatus.
  - destruct (bool_decide _); cbn [fst snd];
      by rewrite ?seenMessageIds_updateConnectionStatus.
Qed.

Lemma handleAckMessage_silent id serverMsgId clientMsgId st :
  match handleAckMessage serverMsgId clientMsgId st with
  | Returned st1 out | Threw st1 out =>
      seenMessageIds st1 = seenMessageIds st ∧ out = []
  end.
Proof.
  unfold handleAckMessage. destruct clientMsgId; try done.
  destruct (truthy _); [|done].
  by destruct (pendingMessages st !! s) as [[ref|]|].
Qed.

Lemma sendMessage_silent id now random now_ts st :
  match sendMessage now random now_ts st with
  | Returned st1 out | Threw st1 out =>
      seenMessageIds st1 = seenMessageIds st
      ∧ renders id out = 0%nat ∧ acks id out = 0%nat
  end.
Proof.
  unfold sendMessage. destruct (_ || _); [done|].
  set (a := Build_MessageArgs _ _ _ _ _ _ _).
  destruct (appendMessage_spec a st) as (Hseen & _ & _).
  destruct (renders_appendMessage id a st) as [_ Hr].
  pose proof (acks_appendMessage id a st) as Ha.
  specialize (Hr ltac:(done)).
  destruct (appendMessage a st) as [[st1 r] out]. cbn [fst snd] in *.
  destruct (socketOpen _).
  - cbn [set_messageInput set_pendingMessages seenMessageIds].
    by rewrite renders_app, acks_app, Hr, Ha.
  - destruct r; cbn [set_dom set_pendingMessages seenMessageIds];
      by rewrite renders_app, acks_app, Hr, Ha.
Qed.

Lemma dedups_handleMessage id data : dedups id (handleMessage data).
Proof.
  destruct data as [[serverMsgId from body ts|serverMsgId clientMsgId to
                    |user status|messages|err|timestamp]|].
  - exact (dedups_handleIncomingMessage id serverMsgId from body ts).
  - apply dedups_silent. intros st. cbn [handleMessage].
    pose proof (handleAckMessage_silent id serverMsgId clientMsgId st) as H.
    by destruct (handleAckMessage _ _ _) as [st1 out|st1 out];
      destruct H as [H ->]; cbn [fst snd]; rewrite H.
  - by apply dedups_silent.
  - exact (dedups_handleUndeliveredBatch id messages).
  - by apply dedups_silent.
  - by apply dedups_silent.
  - by apply dedups_silent.
Qed.

Lemma dedups_step id ev : dedups id (step ev).
Proof.
  destruct ev as [|data|wasClean| |throws|now random now_ts|contact|text].
  - apply dedups_silent. intros st. cbn [step]. destruct (socket st); [|done].
    apply (handleOpen_silent id (set_socket (Some OPEN) st)).
  - exact (dedups_handleMessage id data).
  - apply dedups_silent. intros st. cbn [step]. destruct (socket st); [|done].
    apply (handleClose_silent id wasClean (set_socket (Some CLOSED) st)).
  - by apply dedups_silent.
  - apply dedups_silent. intros st. cbn [step].
    destruct (reconnectTimer st); [|done].
    apply (connect_silent id throws (set_reconnectTimer None st)).
  - apply dedups_silent. intros st. cbn [step].
    pose proof (sendMessage_silent id now random now_ts st) as H.
    destruct (sendMessage _ _ _ _) as [st1 out|st1 out];
      destruct H as (H & Hr & Ha); cbn [fst snd]; rewrite H; [done|].
    by rewrite renders_app, acks_app, Hr, Ha.
  - apply dedups_silent. intros st. cbn [step]. unfold selectContact.
    cbn [fst snd]. by destruct (currentChatName _), (messagesContainer _).
  - apply dedups_silent. intros st. cbn [step]. by destruct (messageInput st).
Qed.

Lemma dedups_run id evs : dedups id (run evs).
Proof.
  induction evs as [|ev evs IH].
  - by apply dedups_silent.
  - apply (dedups_then id (step ev) (run evs)); [apply dedups_step | exact IH].
Qed.

End seen_set.

(** * Rendering and acknowledging incoming messages *)

Section incoming.

Import ChatApp.

(** A batch is handled as the sequence of its messages, each as an
    [incoming_message] of its own. *)
Lemma handleUndeliveredBatch_run messages st :
  handleMessage (Some (undelivered_batch messages)) st
  = run (incoming_of <$> messages) st.
Proof.
  cbn [handleMessage]. revert st.
  induction messages as [|msg rest IH]; intros st; [done|].
  cbn [handleUndeliveredBatch fmap list_fmap run]. unfold incoming_of at 1.
  cbn [step handleMessage].
  destruct (handleIncomingMessage _ _ _ _ st) as [st1 out1].
  by rewrite IH.
Qed.

(** The scenario of the spec: forwarded directly and then again in the
    batch after a reconnection, the message is rendered once and
    acknowledged once. *)
Example direct_then_batch_once :
  renders "1700000000000-00112233445566ff" (run direct_then_batch bob_session).2
    = 1%nat
  ∧ client_frames (run direct_then_batch bob_session).2
    = [client_ack "1700000000000-00112233445566ff"]
  ∧ length (default [] (messagesContainer (run direct_then_batch bob_session).1))
    = 1%nat.
Proof. vm_compute. repeat split; reflexivity. Qed.

(** C2: in every run of the client, from every state, at most one entry is
    rendered for a given [serverMsgId], whatever mixes of
    [incoming_message] and [undelivered_batch] frames (and of any other
    events) present it; and an [undelivered_batch] is handled exactly as
    the sequence of [incoming_message] frames for its messages, through
    the same [handleIncomingMessage] and the same Seen-Set. *)
Theorem one_entry_per_serverMsgId :
  (∀ evs st id, (renders id (run evs st).2 ≤ 1)%nat)
  ∧ (∀ messages st,
       step (onmessage (Some (undelivered_batch messages))) st
       = run (incoming_of <$> messages) st).
Proof.
  split.
  - intros evs st id. by destruct (dedups_run id evs st) as (_ & [H _] & _).
  - intros messages st. apply handleUndeliveredBatch_run.
Qed.

Lemma handleUndeliveredBatch_all_seen messages st :
  Forall (λ msg, b_serverMsgId msg ∈ seenMessageIds st) messages →
  (handleUndeliveredBatch messages st).1 = st
  ∧ client_frames (handleUndeliveredBatch messages st).2 = [].
Proof.
  induction 1 as [|msg rest Hmsg _ IH]; [done|].
  cbn [handleUndeliveredBatch]. rewrite handleIncomingMessage_seen by done.
  destruct (handleUndeliveredBatch rest st) as [st2 out2].
  cbn [fst snd] in *. destruct IH as [-> IH]. split; [done|].
  unfold client_frames in *. by rewrite omap_app, IH.
Qed.

(** C9: a message whose [serverMsgId] is already in the Seen-Set is
    dropped without a frame: [handleIncomingMessage] leaves the state as
    it is and only writes a console line, and so does every message of an
    [undelivered_batch] that is already seen. In every later run of the
    session no [ack_message] is sent for an identifier that is in the
    Seen-Set, so an identifier is acknowledged at most once. *)
Theorem duplicate_not_acknowledged :
  (∀ serverMsgId from body ts st,
     serverMsgId ∈ seenMessageIds st →
     handleIncomingMessage serverMsgId from body ts st
       = (st, [Console (Duplicate_message_ignored serverMsgId)])
     ∧ client_frames (handleIncomingMessage serverMsgId from body ts st).2 = [])
  ∧ (∀ messages st,
       Forall (λ msg, b_serverMsgId msg ∈ seenMessageIds st) messages →
       (handleUndeliveredBatch messages st).1 = st
       ∧ client_frames (handleUndeliveredBatch messages st).2 = [])
  ∧ (∀ evs st id, id ∈ seenMessageIds st → acks id (run evs st).2 = 0%nat)
  ∧ (∀ evs st id, (acks id (run evs st).2 ≤ 1)%nat).
Proof.
  split; [|split; [|split]].
  - intros serverMsgId from body ts st H.
    by rewrite handleIncomingMessage_seen.
  - apply handleUndeliveredBatch_all_seen.
  - intros evs st id H.
    destruct (dedups_run id evs st) as (_ & _ & Hin & _). by destruct (Hin H).
  - intros evs st id. by destruct (dedups_run id evs st) as (_ & [_ H] & _).
Qed.

Lemma duplicate_not_acknowledged_witness :
  "1700000000000-00112233445566ff" ∈ seenMessageIds bob_seen_hi
  ∧ handleIncomingMessage "1700000000000-00112233445566ff" "alice"
      (VStr "hi") (VNum 1700000000000) bob_seen_hi
    = (bob_seen_hi,
       [Console (Duplicate_message_ignored "1700000000000-00112233445566ff")]).
Proof.
  assert ("1700000000000-00112233445566ff" ∈ seenMessageIds bob_seen_hi) as H.
  { apply (bool_decide_unpack _). vm_compute. exact I. }
  split; [exact H|].
  exact (proj1 (proj1 duplicate_not_acknowledged
                  "1700000000000-00112233445566ff" "alice"
                  (VStr "hi") (VNum 1700000000000) bob_seen_hi H)).
Defined.

Lemma appendMessage_other_conversation a st :
  selectedContact st ≠ "" →
  a_to a = currentUser st →
  a_from a ≠ selectedContact st →
  appendMessage a st = (st, None, []).
Proof.
  intros Hsel Hto Hfrom. unfold appendMessage.
  destruct (messagesContainer st); [|done].
  assert ((if bool_decide (a_from a = currentUser st) then a_to a else a_from a)
          = a_from a) as ->.
  { case_bool_decide; congruence. }
  rewrite (bool_decide_eq_true_2 _ Hfrom).
  destruct (String.eqb (selectedContact st) "") eqn:E; [|done].
  by apply String.eqb_eq in E.
Qed.

Lemma server_ack_removes username serverMsgId msg st :
  serverMsgId ≠ "" →
  messages.getMessage (VStr serverMsgId) (server.store st) = Some msg →
  m_to msg = VStr username →
  messages.getMessage (VStr serverMsgId)
    (server.store (server.handleAckMessage username (wire (client_ack serverMsgId)) st).1)
  = None.
Proof.
  intros Hid Hget Hto. unfold server.handleAckMessage.
  cbn [wire w_serverMsgId truthy].
  destruct (String.eqb serverMsgId "") eqn:E; [by apply String.eqb_eq in E|].
  cbn [negb]. rewrite Hget.
  rewrite (proj2 (seq_str_true (m_to msg) username) Hto).
  cbn [fst server.store server.set_store].
  apply (getMessage_removeMessage (VStr serverMsgId)).
Qed.

(** Whatever the Seen-Set and the socket, a message of someone other than
    the selected contact is in the Seen-Set after the handler and nothing
    is appended for it. *)
Lemma unselected_sender_never_appended serverMsgId from body ts st :
  selectedContact st ≠ "" →
  from ≠ selectedContact st →
  serverMsgId ∈ seenMessageIds (handleIncomingMessage serverMsgId from body ts st).1
  ∧ messagesContainer (handleIncomingMessage serverMsgId from body ts st).1
    = messagesContainer st
  ∧ ∀ el, AppendChild el ∉ (handleIncomingMessage serverMsgId from body ts st).2.
Proof.
  intros Hsel Hfrom.
  destruct (decide (serverMsgId ∈ seenMessageIds st)) as [Hin|Hnew].
  - rewrite handleIncomingMessage_seen by done. cbn [fst snd].
    split; [done|]. split; [done|]. intros el H.
    apply list_elem_of_singleton in H. discriminate.
  - rewrite handleIncomingMessage_fresh by done.
    rewrite appendMessage_other_conversation by done. cbn [fst snd].
    split; [apply elem_of_union_l, elem_of_singleton; reflexivity|].
    split; [done|]. intros el. destruct (socketOpen st).
    + intros H. apply list_elem_of_singleton in H. discriminate.
    + apply not_elem_of_nil.
Qed.




End incoming.

(** * Reconnection *)

Section reconnection.

Import ChatApp.

(** A successful connection resets the attempt counter. *)
Lemma handleOpen_resets st : reconnectAttempts (handleOpen st).1 = 0%N.
Proof.
  unfold handleOpen, updateConnectionStatus. cbn [fst].
  by destruct (connectionStatus _).
Qed.

Lemma onopen_resets st :
  is_Some (socket st) → reconnectAttempts (step onopen st).1 = 0%N.
Proof. intros [r Hr]. cbn [step]. rewrite Hr. apply handleOpen_resets. Qed.

(** The delays of the first five attempts. *)
Lemma backoff_table :
  backoff 1 = 1000%N ∧ backoff 2 = 2000%N ∧ backoff 3 = 4000%N
  ∧ backoff 4 = 8000%N ∧ backoff 5 = 16000%N.
Proof. repeat split; reflexivity. Qed.

(** With no timer pending, [scheduleReconnect] counts the attempt and
    schedules it after the backoff delay of its number. *)
Lemma scheduleReconnect_delay st :
  reconnectTimer st = None →
  let k := (reconnectAttempts st + 1)%N in
  reconnectAttempts (scheduleReconnect st).1 = k
  ∧ reconnectTimer (scheduleReconnect st).1 = Some (N.min (1000 * 2 ^ (k - 1)) 30000)
  ∧ (scheduleReconnect st).2 = [SetTimeout (N.min (1000 * 2 ^ (k - 1)) 30000)].
Proof.
  intros H. unfold scheduleReconnect. rewrite H. cbn [fst snd].
  unfold updateConnectionStatus.
  by destruct (connectionStatus _).
Qed.

(** A pending timer makes [scheduleReconnect] a no-op. *)
Lemma scheduleReconnect_pending st delay :
  reconnectTimer st = Some delay → scheduleReconnect st = (st, []).
Proof. intros H. unfold scheduleReconnect. by rewrite H. Qed.

(** On a close, the guard of [handleClose] holds: once the attempts are
    used up nothing is scheduled and the failure is reported. *)
Lemma handleClose_exhausted wasClean st :
  (MAX_RECONNECT_ATTEMPTS ≤ reconnectAttempts st)%N →
  (handleClose wasClean st).1
    = updateConnectionStatus Connection_failed false
        (updateConnectionStatus Disconnected false st)
  ∧ (handleClose wasClean st).2 = [Console (WebSocket_closed wasClean)].
Proof.
  intros H. unfold handleClose.
  assert (reconnectAttempts (updateConnectionStatus Disconnected false st)
          = reconnectAttempts st) as ->.
  { unfold updateConnectionStatus. by destruct (connectionStatus st). }
  rewrite bool_decide_eq_false_2 by lia. rewrite andb_false_r.
  by rewrite bool_decide_eq_true_2.
Qed.

Lemma exhausted_updateConnectionStatus message isConnected st :
  exhausted st → exhausted (updateConnectionStatus message isConnected st).
Proof. unfold updateConnectionStatus. by destruct (connectionStatus st). Qed.

Lemma appendMessage_reconnect a st :
  reconnectTimer (appendMessage a st).1.1 = reconnectTimer st
  ∧ reconnectAttempts (appendMessage a st).1.1 = reconnectAttempts st
  ∧ scheduled (appendMessage a st).2 = []
  ∧ sockets_constructed (appendMessage a st).2 = 0%nat.
Proof.
  unfold appendMessage. destruct (messagesContainer st); [|done].
  by destruct (_ && _).
Qed.

Lemma handleIncomingMessage_reconnect serverMsgId from body ts st :
  reconnectTimer (handleIncomingMessage serverMsgId from body ts st).1 = reconnectTimer st
  ∧ reconnectAttempts (handleIncomingMessage serverMsgId from body ts st).1
    = reconnectAttempts st
  ∧ scheduled (handleIncomingMessage serverMsgId from body ts st).2 = []
  ∧ sockets_constructed (handleIncomingMessage serverMsgId from body ts st).2 = 0%nat.
Proof.
  unfold handleIncomingMessage. destruct (bool_decide _); [done|].
  set (st1 := set_seenMessageIds _ st). set (a := Build_MessageArgs _ _ _ _ _ _ _).
  destruct (appendMessage_reconnect a st1) as (Ht & Hn & Hs & Hc).
  destruct (appendMessage a st1) as [[st2 r] out]. cbn [fst snd] in *.
  destruct (socketOpen st2); cbn [fst snd]; rewrite Ht, Hn;
    (split; [done|]); (split; [done|]);
    unfold scheduled, sockets_constructed in *;
    rewrite ?omap_app, ?List.filter_app, ?length_app, ?Hs, ?Hc; done.
Qed.

Lemma handleUndeliveredBatch_reconnect messages st :
  reconnectTimer (handleUndeliveredBatch messages st).1 = reconnectTimer st
  ∧ reconnectAttempts (handleUndeliveredBatch messages st).1 = reconnectAttempts st
  ∧ scheduled (handleUndeliveredBatch messages st).2 = []
  ∧ sockets_constructed (handleUndeliveredBatch messages st).2 = 0%nat.
Proof.
  revert st. induction messages as [|msg rest IH]; intros st; [done|].
  cbn [handleUndeliveredBatch].
  destruct (handleIncomingMessage_reconnect (b_serverMsgId msg) (b_from msg)
              (b_body msg) (b_ts msg) st) as (Ht & Hn & Hs & Hc).
  destruct (handleIncomingMessage _ _ _ _ st) as [st1 out1].
  specialize (IH st1). destruct (handleUndeliveredBatch rest st1) as [st2 out2].
  cbn [fst snd] in *. destruct IH as (Ht2 & Hn2 & Hs2 & Hc2).
  unfold scheduled, sockets_constructed in *.
  rewrite omap_app, List.filter_app, length_app, Hs, Hc, Hs2, Hc2.
  repeat split; congruence.
Qed.

(** Outside the constructor, the bound holds: in the Exhausted state no
    event other than a socket opening schedules a reconnection or
    constructs a socket, and the state stays Exhausted. *)
Lemma exhausted_step ev st :
  exhausted st → ev ≠ onopen →
  exhausted (step ev st).1
  ∧ scheduled (step ev st).2 = []
  ∧ sockets_constructed (step ev st).2 = 0%nat.
Proof.
  intros [Htimer Hmax] Hev.
  destruct ev as [|data|wasClean| |throws|now random now_ts|contact|text];
    cbn [step]; [done|..].
  - destruct data as [[serverMsgId from body ts|serverMsgId clientMsgId to
                      |user status|messages|err|timestamp]|];
      cbn [handleMessage]; try done.
    + destruct (handleIncomingMessage_reconnect serverMsgId from body ts st)
        as (Ht & Hn & Hs & Hc).
      unfold exhausted. by rewrite Ht, Hn.
    + unfold handleAckMessage. destruct clientMsgId; try done.
      destruct (truthy _); [|done].
      by destruct (pendingMessages st !! s) as [[ref|]|].
    + destruct (handleUndeliveredBatch_reconnect messages st)
        as (Ht & Hn & Hs & Hc).
      unfold exhausted. by rewrite Ht, Hn.
  - destruct (socket st); [|done].
    destruct (handleClose_exhausted wasClean (set_socket (Some CLOSED) st))
      as [-> ->]; [done|].
    split; [|done]. by do 2 apply exhausted_updateConnectionStatus.
  - done.
  - by rewrite Htimer.
  - unfold sendMessage. destruct (_ || _); [done|].
    set (a := Build_MessageArgs _ _ _ _ _ _ _).
    destruct (appendMessage_reconnect a st) as (Ht & Hn & Hs & Hc).
    destruct (appendMessage a st) as [[st1 r] out]. cbn [fst snd] in *.
    unfold exhausted, scheduled, sockets_constructed in *.
    destruct (socketOpen _); [|destruct r]; cbn [fst snd];
      rewrite ?omap_app, ?List.filter_app, ?length_app, ?Hs, ?Hc;
      cbn; rewrite ?Ht, ?Hn; done.
  - destruct st as [? ? ? ? ? ? container ? ? chatName ? ?].
    by destruct chatName, container.
  - by destruct (messageInput st).
Qed.

Lemma exhausted_run evs st :
  exhausted st → onopen ∉ evs →
  exhausted (run evs st).1
  ∧ scheduled (run evs st).2 = []
  ∧ sockets_constructed (run evs st).2 = 0%nat.
Proof.
  revert st. induction evs as [|ev evs IH]; intros st Hex Hev; [done|].
  apply not_elem_of_cons in Hev as [Hne Hev].
  destruct (exhausted_step ev st Hex) as (Hex1 & Hs1 & Hc1); [done|].
  cbn [run]. destruct (step ev st) as [st1 out1]. cbn [fst snd] in *.
  destruct (IH st1 Hex1 Hev) as (Hex2 & Hs2 & Hc2).
  destruct (run evs st1) as [st2 out2]. cbn [fst snd] in *.
  unfold scheduled, sockets_constructed in *.
  by rewrite omap_app, List.filter_app, length_app, Hs1, Hc1, Hs2, Hc2.
Qed.

(** When the constructor throws, [connect] schedules the next attempt
    whatever the counter says. *)
Lemma timeout_throws_schedules st delay :
  reconnectTimer st = Some delay →
  let k := (reconnectAttempts st + 1)%N in
  reconnectAttempts (step (timeout true) st).1 = k
  ∧ reconnectTimer (step (timeout true) st).1 = Some (backoff k)
  ∧ scheduled (step (timeout true) st).2 = [backoff k].
Proof.
  intros H. cbn [step]. rewrite H. unfold connect.
  set (st1 := updateConnectionStatus Connecting false (set_reconnectTimer None st)).
  assert (reconnectTimer st1 = None) as Ht.
  { unfold st1, updateConnectionStatus. by destruct (connectionStatus _). }
  assert (reconnectAttempts st1 = reconnectAttempts st) as Hn.
  { unfold st1, updateConnectionStatus. by destruct (connectionStatus _). }
  destruct (scheduleReconnect_delay st1 Ht) as (Ha & Hb & Hc).
  destruct (scheduleReconnect st1) as [st2 out]. cbn [fst snd] in *.
  rewrite Hn in *. subst out. done.
Qed.

(** When every attempt ends in an unclean close, the five reconnections
    are scheduled after 1, 2, 4, 8 and 16 seconds, and the close of the
    fifth leaves the session Exhausted, with the failure reported. *)
Example five_attempts_then_exhausted :
  let started := init alice_page false in
  let closed := run every_attempt_closes started.1 in
  scheduled (started.2 ++ closed.2) = [1000; 2000; 4000; 8000; 16000]%N
  ∧ sockets_constructed (started.2 ++ closed.2) = 6%nat
  ∧ reconnectAttempts closed.1 = 5%N
  ∧ reconnectTimer closed.1 = None
  ∧ connectionStatus closed.1 = Some (Connection_failed, false).
Proof. vm_compute. repeat split; reflexivity. Qed.

(** C6 fails on the code: [connect] calls [scheduleReconnect] from its
    [catch] without the test of [MAX_RECONNECT_ATTEMPTS] that [handleClose]
    makes. When [new WebSocket] throws, the fifth failed attempt is
    followed by a sixth: six reconnections are scheduled, the counter
    stands at 6, a timer of 30000 ms is pending, and the status reads
    "Reconnecting in 30s..." instead of "Connection failed". *)
Theorem sixth_attempt_after_constructor_throws :
  let started := init hash_page true in
  let retried := run constructor_throws started.1 in
  scheduled (started.2 ++ retried.2) = [1000; 2000; 4000; 8000; 16000; 30000]%N
  ∧ reconnectAttempts retried.1 = 6%N
  ∧ reconnectTimer retried.1 = Some 30000%N
  ∧ connectionStatus retried.1 = Some (Reconnecting_in 30, false)
  ∧ ¬ exhausted retried.1.
Proof.
  vm_compute. repeat split; try reflexivity. intros [H _]. discriminate H.
Qed.

End reconnection.

(** * Further properties of the server *)

Section server_behaviour.

Import server.

Lemma openSocket_Some username st ws :
  openSocket username st = Some ws ↔
  sockets.getSocket username (registry st) = Some ws ∧ isOpen ws st = true.
Proof.
  unfold openSocket. destruct (sockets.getSocket username (registry st)) as [ws'|].
  - destruct (isOpen ws' st) eqn:E; split.
    + intros [= <-]. done.
    + intros [[= <-] _]. done.
    + done.
    + intros [[= <-] ?]. congruence.
  - split; [done | intros [? _]; done].
Qed.

Lemma handleSendMessage_frames env from message st :
  accepted message = true →
  frames_sent (handleSendMessage env from message st).2
  = from_option
      (λ ws, [(ws, incoming_message
                     (generateMessageId (env_now env) (env_random env)) from
                     (w_body message)
                     (js_or (w_ts message) (VNum (Z.of_N (env_now_ts env)))))])
      [] (openSocket (w_to message) st)
    ++ from_option
         (λ ws, [(ws, ack_message
                        (generateMessageId (env_now env) (env_random env))
                        (w_clientMsgId message) (w_to message))])
         [] (openSocket (VStr from) st)
  ∧ ∀ ws f, (ws, f) ∈ frames_sent (handleSendMessage env from message st).2 →
            isOpen ws st = true.
Proof.
  intros Hacc.
  assert (frames_sent (handleSendMessage env from message st).2
  = from_option
      (λ ws, [(ws, incoming_message
                     (generateMessageId (env_now env) (env_random env)) from
                     (w_body message)
                     (js_or (w_ts message) (VNum (Z.of_N (env_now_ts env)))))])
      [] (openSocket (w_to message) st)
    ++ from_option
         (λ ws, [(ws, ack_message
                        (generateMessageId (env_now env) (env_random env))
                        (w_clientMsgId message) (w_to message))])
         [] (openSocket (VStr from) st)) as E.
  { revert Hacc. unfold accepted, handleSendMessage. intros H.
    apply andb_true_iff in H as [H Hb]. apply andb_true_iff in H as [Hc Ht].
    rewrite Hc, Ht, Hb. cbn [negb orb].
    destruct (openSocket (w_to message) st); cbn [snd];
      rewrite openSocket_set_store;
      by destruct (openSocket (VStr from) st). }
  split; [exact E|]. intros ws f. rewrite E, elem_of_app. intros [H|H].
  - destruct (openSocket (w_to message) st) as [r|] eqn:Hr; cbn [from_option] in H;
      [|by apply not_elem_of_nil in H].
    apply list_elem_of_singleton in H. injection H as -> _.
    by apply openSocket_Some in Hr as [_ ?].
  - destruct (openSocket (VStr from) st) as [r|] eqn:Hr; cbn [from_option] in H;
      [|by apply not_elem_of_nil in H].
    apply list_elem_of_singleton in H. injection H as -> _.
    by apply openSocket_Some in Hr as [_ ?].
Qed.

(** The frames of an accepted [send_message]: at most two, in this order.
    The recipient gets an [incoming_message] (without the [clientMsgId])
    exactly when it is registered with an open socket; the sender gets the
    [ack_message] exactly when its own socket is open. Every frame goes to
    a registered socket whose [readyState] is [OPEN]. *)
Theorem submit_frames env from message st :
  accepted message = true →
  frames_sent (handleSendMessage env from message st).2
  = from_option
      (λ ws, [(ws, incoming_message
                     (generateMessageId (env_now env) (env_random env)) from
                     (w_body message)
                     (js_or (w_ts message) (VNum (Z.of_N (env_now_ts env)))))])
      [] (openSocket (w_to message) st)
    ++ from_option
         (λ ws, [(ws, ack_message
                        (generateMessageId (env_now env) (env_random env))
                        (w_clientMsgId message) (w_to message))])
         [] (openSocket (VStr from) st)
  ∧ ∀ ws f, (ws, f) ∈ frames_sent (handleSendMessage env from message st).2 →
            isOpen ws st = true.
Proof. apply handleSendMessage_frames. Qed.

Lemma submit_frames_witness :
  let request := wire (send_message "1700000000000-k3x9" "bob" "hi" 1700000000000) in
  accepted request = true
  ∧ frames_sent (handleSendMessage same_reading "alice" request alice_online).2
    = [(1%nat, ack_message "1700000000000-00112233445566ff"
                 (VStr "1700000000000-k3x9") (VStr "bob"))].
Proof.
  split; [reflexivity|].
  rewrite (proj1 (submit_frames same_reading "alice"
                    (wire (send_message "1700000000000-k3x9" "bob" "hi" 1700000000000))
                    alice_online eq_refl)).
  vm_compute. reflexivity.
Defined.

(** A valid acknowledgment removes the entry it names and no other: the
    lookup of every other [serverMsgId] is what it was, and neither the
    registry nor the sockets change. *)
Theorem ack_removes_only_named_entry username message st msg :
  truthy (w_serverMsgId message) = true →
  messages.getMessage (w_serverMsgId message) (store st) = Some msg →
  m_to msg = VStr username →
  let st' := (handleAckMessage username message st).1 in
  messages.getMessage (w_serverMsgId message) (store st') = None
  ∧ (∀ k, k ≠ m_serverMsgId msg →
          messages.getMessage (VStr k) (store st') = messages.getMessage (VStr k) (store st))
  ∧ registry st' = registry st
  ∧ readyState st' = readyState st.
Proof.
  intros Ht Hget Hto. unfold handleAckMessage. rewrite Ht, Hget. cbn [negb].
  rewrite (proj2 (seq_str_true _ _) Hto). cbn [fst store set_store registry readyState].
  split; [apply getMessage_removeMessage|]. split; [|done].
  intros k Hk. rewrite (getMessage_key _ _ _ Hget).
  by apply getMessage_removeMessage_ne.
Qed.

Lemma ack_removes_only_named_entry_witness :
  let ack := wire (client_ack "1700000000000-00112233445566ff") in
  truthy (w_serverMsgId ack) = true
  ∧ messages.getMessage (w_serverMsgId ack) (store alice_online_hi_stored) = Some hi_bob
  ∧ m_to hi_bob = VStr "bob"
  ∧ messages.getMessage (w_serverMsgId ack)
      (store (handleAckMessage "bob" ack alice_online_hi_stored).1) = None.
Proof.
  split; [reflexivity|]. split; [reflexivity|]. split; [reflexivity|].
  apply (ack_removes_only_named_entry "bob"
           (wire (client_ack "1700000000000-00112233445566ff"))
           alice_online_hi_stored hi_bob); reflexivity.
Defined.

Lemma elem_of_addMessage msg st : msg ∈ messages.addMessage msg st.
Proof.
  induction st as [|m st IH]; cbn [messages.addMessage]; [apply list_elem_of_here|].
  destruct (bool_decide _); [apply list_elem_of_here|].
  by apply list_elem_of_further.
Qed.

Lemma elem_of_getMessagesForUser msg username st :
  msg ∈ messages.getMessagesForUser username st ↔ msg ∈ st ∧ m_to msg = VStr username.
Proof.
  unfold messages.getMessagesForUser.
  rewrite !list_elem_of_In, List.filter_In, seq_str_true. done.
Qed.

Lemma elem_of_addMessage_ne m msg st :
  m ∈ st → m_serverMsgId m ≠ m_serverMsgId msg → m ∈ messages.addMessage msg st.
Proof.
  intros Hin Hne. induction st as [|m' st IH]; [by apply not_elem_of_nil in Hin|].
  cbn [messages.addMessage]. apply elem_of_cons in Hin as [->|Hin].
  - rewrite bool_decide_eq_false_2 by done. apply list_elem_of_here.
  - destruct (bool_decide _); apply list_elem_of_further; [done | by apply IH].
Qed.

Lemma elem_of_removeMessage_ne m key st :
  m ∈ st → key ≠ VStr (m_serverMsgId m) → m ∈ messages.removeMessage key st.
Proof.
  intros Hin Hne. destruct key as [| | | |k|]; try done.
  cbn [messages.removeMessage]. apply list_elem_of_In, List.filter_In.
  split; [by apply list_elem_of_In|].
  apply negb_true_iff, bool_decide_eq_false. congruence.
Qed.

Lemma getMessage_addMessage_ne k msg st :
  k ≠ m_serverMsgId msg →
  messages.getMessage (VStr k) (messages.addMessage msg st)
  = messages.getMessage (VStr k) st.
Proof.
  intros Hne. cbn [messages.getMessage].
  induction st as [|m st IH]; cbn [messages.addMessage List.find].
  - by rewrite bool_decide_eq_false_2.
  - destruct (bool_decide (m_serverMsgId m = m_serverMsgId msg)) eqn:E;
      cbn [List.find].
    + apply bool_decide_eq_true in E.
      rewrite !bool_decide_eq_false_2 by congruence. done.
    + destruct (bool_decide (m_serverMsgId m = k)); [done | exact IH].
Qed.

Lemma getMessage_None k st :
  messages.getMessage (VStr k) st = None ↔ ∀ m, m ∈ st → m_serverMsgId m ≠ k.
Proof.
  cbn [messages.getMessage]. split.
  - intros H m Hin Hk. apply list_elem_of_In in Hin.
    apply (List.find_none _ _ H) in Hin. by rewrite bool_decide_eq_true_2 in Hin.
  - intros H. induction st as [|m st IH]; [done|]. cbn [List.find].
    rewrite bool_decide_eq_false_2 by (apply H, list_elem_of_here).
    apply IH. intros m' Hin. by apply H, list_elem_of_further.
Qed.

Lemma getMessage_removeMessage_None k key st :
  messages.getMessage (VStr k) st = None →
  messages.getMessage (VStr k) (messages.removeMessage key st) = None.
Proof.
  rewrite !getMessage_None. intros H m Hin. apply H.
  destruct key as [| | | |k'|]; try done.
  cbn [messages.removeMessage] in Hin.
  by apply list_elem_of_In, List.filter_In in Hin as [?%list_elem_of_In _].
Qed.

Lemma submitted_ids_cons ev evs :
  submitted_ids (ev :: evs) = submitted_ids [ev] ++ submitted_ids evs.
Proof. unfold submitted_ids. by rewrite submit_readings_cons, fmap_app. Qed.

Lemma acknowledged_keys_cons ev evs :
  acknowledged_keys (ev :: evs) = acknowledged_keys [ev] ++ acknowledged_keys evs.
Proof. apply (omap_app _ [ev] evs). Qed.

(** One step of the server keeps a stored message unless it handles an
    acknowledgment that names its [serverMsgId] or a request that is
    assigned the same [serverMsgId]. *)
Lemma step_keeps_stored msg ev st :
  msg ∈ store st →
  VStr (m_serverMsgId msg) ∉ acknowledged_keys [ev] →
  m_serverMsgId msg ∉ submitted_ids [ev] →
  msg ∈ store (step ev st).1.
Proof.
  intros Hin Hack Hsub.
  destruct ev as [ws token u v|u ws [message|] env|u ws].
  - by rewrite step_on_connection_store.
  - unfold submitted_ids in Hsub. rewrite submit_readings_message in Hsub.
    unfold acknowledged_keys in Hack. cbn [omap list_omap] in Hack.
    cbn [step]. unfold handleMessage.
    destruct (seq_str (w_type message) "send_message") eqn:Hs.
    { destruct (accepted message) eqn:Hacc; cbn [andb] in Hsub.
      - destruct (handleSendMessage_accepted env u message st Hacc) as [-> _].
        cbn [store set_store]. apply elem_of_addMessage_ne; [done|].
        cbn. intros E. apply Hsub. rewrite E. apply list_elem_of_here.
      - by rewrite handleSendMessage_rejected. }
    destruct (seq_str (w_type message) "ack_message") eqn:Ha.
    { destruct (handleAckMessage_store u message st) as [->|(m & _ & _ & ->)];
        [done|].
      apply elem_of_removeMessage_ne; [done|].
      intros E. apply Hack. rewrite E. apply list_elem_of_here. }
    by destruct (seq_str (w_type message) "ping").
  - done.
  - done.
Qed.

Lemma run_keeps_stored msg evs st :
  msg ∈ store st →
  VStr (m_serverMsgId msg) ∉ acknowledged_keys evs →
  m_serverMsgId msg ∉ submitted_ids evs →
  msg ∈ store (run evs st).1.
Proof.
  revert st. induction evs as [|ev evs IH]; intros st Hin Hack Hsub; [done|].
  rewrite acknowledged_keys_cons in Hack. rewrite submitted_ids_cons in Hsub.
  apply not_elem_of_app in Hack as [Hack1 Hack2].
  apply not_elem_of_app in Hsub as [Hsub1 Hsub2].
  pose proof (step_keeps_stored msg ev st Hin Hack1 Hsub1) as Hstep.
  cbn [run]. destruct (step ev st) as [st1 out1]. specialize (IH st1).
  destruct (run evs st1) as [st2 out2]. cbn [fst] in *. by apply IH.
Qed.

(** A message accepted for a recipient waits for it: whatever the server
    handles in between, as long as no acknowledgment names the
    [serverMsgId] of the message and no other request is assigned the same
    [serverMsgId], the batch the recipient is sent when it connects
    contains the message. *)
Theorem queued_message_in_batch_on_connect
    env from message st evs ws token username :
  accepted message = true →
  w_to message = VStr username →
  token ≠ "" →
  VStr (generateMessageId (env_now env) (env_random env)) ∉ acknowledged_keys evs →
  generateMessageId (env_now env) (env_random env) ∉ submitted_ids evs →
  let st1 := (run evs (handleSendMessage env from message st).1).1 in
  ∃ items,
    Send ws (undelivered_batch items)
      ∈ (step (on_connection ws (Some token) (Some username) true) st1).2
    ∧ batchItem (accepted_message env from message) ∈ items.
Proof.
  intros Hacc Hto Htok Hack Hsub st1.
  assert (username ≠ "") as Hu.
  { intros ->. unfold accepted in Hacc. rewrite Hto in Hacc. cbn in Hacc.
    by rewrite andb_false_r in Hacc. }
  assert (accepted_message env from message ∈ store st1) as Hin.
  { unfold st1. apply run_keeps_stored; [|done..].
    destruct (handleSendMessage_accepted env from message st Hacc) as [-> _].
    apply elem_of_addMessage. }
  cbn [step missing]. apply String.eqb_neq in Htok, Hu. rewrite Htok, Hu.
  cbn [orb negb]. change (default "" (Some username)) with username.
  set (st2 := set_registry _ _).
  assert (accepted_message env from message
            ∈ messages.getMessagesForUser username (store st2)) as Hin2.
  { apply elem_of_getMessagesForUser. done. }
  unfold sendUndeliveredMessages.
  destruct (messages.getMessagesForUser username (store st2)) as [|m ms] eqn:E.
  { by apply not_elem_of_nil in Hin2. }
  rewrite bool_decide_eq_true_2 by (cbn; lia).
  exists (batchItem <$> (m :: ms)). split.
  - apply list_elem_of_further, elem_of_app. right.
    apply list_elem_of_further, list_elem_of_here.
  - by apply list_elem_of_fmap_2.
Qed.

Lemma queued_message_in_batch_on_connect_witness :
  let request := wire (send_message "1700000000000-k3x9" "bob" "hi" 1700000000000) in
  let evs := busy_meanwhile in
  let st1 := (run evs (handleSendMessage same_reading "alice" request alice_online).1).1 in
  accepted request = true ∧ w_to request = VStr "bob" ∧ "dG9rZW4=" ≠ ""
  ∧ (VStr (generateMessageId (env_now same_reading) (env_random same_reading))
       ∉ acknowledged_keys evs)
  ∧ (generateMessageId (env_now same_reading) (env_random same_reading)
       ∉ submitted_ids evs)
  ∧ ∃ items,
      Send 2 (undelivered_batch items)
        ∈ (step (on_connection 2 (Some "dG9rZW4=") (Some "bob") true) st1).2
      ∧ batchItem (accepted_message same_reading "alice" request) ∈ items.
Proof.
  assert ("dG9rZW4=" ≠ "") as H3 by discriminate.
  assert (VStr (generateMessageId (env_now same_reading) (env_random same_reading))
            ∉ acknowledged_keys busy_meanwhile) as H4.
  { apply (bool_decide_unpack _). vm_compute. exact I. }
  assert (generateMessageId (env_now same_reading) (env_random same_reading)
            ∉ submitted_ids busy_meanwhile) as H5.
  { apply (bool_decide_unpack _). vm_compute. exact I. }
  split; [reflexivity|]. split; [reflexivity|]. split; [exact H3|].
  split; [exact H4|]. split; [exact H5|].
  exact (queued_message_in_batch_on_connect same_reading "alice"
           (wire (send_message "1700000000000-k3x9" "bob" "hi" 1700000000000))
           alice_online busy_meanwhile 2%nat "dG9rZW4=" "bob"
           eq_refl eq_refl H3 H4 H5).
Defined.

(** One step of the server does not bring back a [serverMsgId] that is
    not in the Outbox, unless it assigns it to a new request. *)
Lemma step_keeps_absent k ev st :
  messages.getMessage (VStr k) (store st) = None →
  k ∉ submitted_ids [ev] →
  messages.getMessage (VStr k) (store (step ev st).1) = None.
Proof.
  intros Hnone Hsub.
  destruct ev as [ws token u v|u ws [message|] env|u ws].
  - by rewrite step_on_connection_store.
  - unfold submitted_ids in Hsub. rewrite submit_readings_message in Hsub.
    cbn [step]. unfold handleMessage.
    destruct (seq_str (w_type message) "send_message") eqn:Hs.
    { destruct (accepted message) eqn:Hacc; cbn [andb] in Hsub.
      - destruct (handleSendMessage_accepted env u message st Hacc) as [-> _].
        cbn [store set_store]. rewrite getMessage_addMessage_ne; [done|].
        cbn. intros E. apply Hsub. rewrite E. apply list_elem_of_here.
      - by rewrite handleSendMessage_rejected. }
    destruct (seq_str (w_type message) "ack_message") eqn:Ha.
    { destruct (handleAckMessage_store u message st) as [->|(m & _ & _ & ->)];
        [done|]. by apply getMessage_removeMessage_None. }
    by destruct (seq_str (w_type message) "ping").
  - done.
  - done.
Qed.

Lemma presence_frames_only username status st ws items :
  Send ws (undelivered_batch items) ∈ broadcastPresence username status st → False.
Proof.
  unfold broadcastPresence.
  induction (sockets.getOnlineUsers (registry st)) as [|u us IH];
    cbn [flat_map]; [by intros ?%not_elem_of_nil|].
  rewrite elem_of_app. intros [H|H]; [|by apply IH].
  destruct (bool_decide (u ≠ username)); [|by apply not_elem_of_nil in H].
  destruct (openSocket (VStr u) st); [|by apply not_elem_of_nil in H].
  apply list_elem_of_singleton in H. discriminate.
Qed.

(** A batch is made of messages of the Outbox. *)
Lemma batch_in_step ev st ws items item :
  Send ws (undelivered_batch items) ∈ (step ev st).2 →
  item ∈ items →
  ∃ m, m ∈ store st ∧ item = batchItem m.
Proof.
  destruct ev as [ws' token u v|u ws' [message|] env|u ws']; cbn [step].
  - destruct (missing token || missing u).
    { cbn [snd]. rewrite !elem_of_cons, elem_of_nil. intros H; destruct_or?; done. }
    destruct v; cbn [negb].
    2:{ cbn [snd]. rewrite !elem_of_cons, elem_of_nil. intros H; destruct_or?; done. }
    set (st1 := set_registry _ _). unfold sendUndeliveredMessages.
    destruct (bool_decide _); cbn [snd];
      rewrite elem_of_cons, elem_of_app, ?elem_of_cons, ?elem_of_nil;
      intros H Hitem; destruct_or?; try done.
    + apply presence_frames_only in H. done.
    + injection H as _ ->. apply list_elem_of_fmap in Hitem as (m & -> & Hm).
      apply elem_of_getMessagesForUser in Hm as [Hm _]. by exists m.
    + apply presence_frames_only in H. done.
  - intros H. exfalso. revert H. unfold handleMessage.
    destruct (seq_str (w_type message) "send_message").
    { destruct (accepted message) eqn:Hacc.
      - intros H.
        assert ((ws, undelivered_batch items)
                  ∈ frames_sent (handleSendMessage env u message st).2) as Hf.
        { apply list_elem_of_omap. eexists. split; [exact H | reflexivity]. }
        rewrite (proj1 (handleSendMessage_frames env u message st Hacc)) in Hf.
        apply elem_of_app in Hf as [Hf|Hf];
          [destruct (openSocket (w_to message) st)
          |destruct (openSocket (VStr u) st)]; cbn [from_option] in Hf;
          rewrite ?list_elem_of_singleton, ?elem_of_nil in Hf; done.
      - rewrite handleSendMessage_rejected by done. cbn [snd].
        rewrite elem_of_cons, elem_of_nil. intros H; destruct_or?; done. }
    destruct (seq_str (w_type message) "ack_message").
    { intros H.
      assert ((ws, undelivered_batch items)
                ∈ frames_sent (handleAckMessage u message st).2) as Hf.
      { apply list_elem_of_omap. eexists. split; [exact H | reflexivity]. }
      rewrite frames_sent_handleAckMessage in Hf. by apply not_elem_of_nil in Hf. }
    destruct (seq_str (w_type message) "ping"); cbn [snd].
    { rewrite elem_of_cons, elem_of_nil. intros H; destruct_or?; done. }
    rewrite elem_of_cons. intros [H|H]; [done|].
    unfold sendError in H. destruct (isOpen ws' st);
      rewrite ?list_elem_of_singleton, ?elem_of_nil in H; done.
  - cbn [snd]. rewrite elem_of_cons. intros [H|H]; [done|].
    unfold sendError in H. destruct (isOpen ws' st);
      rewrite ?list_elem_of_singleton, ?elem_of_nil in H; done.
  - cbn [snd]. rewrite elem_of_cons. intros [H|H]; [done|].
    apply presence_frames_only in H. done.
Qed.

Lemma batch_in_run k evs st ws items item :
  messages.getMessage (VStr k) (store st) = None →
  k ∉ submitted_ids evs →
  Send ws (undelivered_batch items) ∈ (run evs st).2 →
  item ∈ items →
  b_serverMsgId item ≠ k.
Proof.
  revert st. induction evs as [|ev evs IH]; intros st Hnone Hsub Hin Hitem.
  { by apply not_elem_of_nil in Hin. }
  rewrite submitted_ids_cons in Hsub. apply not_elem_of_app in Hsub as [Hsub1 Hsub2].
  pose proof (step_keeps_absent k ev st Hnone Hsub1) as Hstep.
  pose proof (batch_in_step ev st ws items item) as Hbatch.
  cbn [run] in Hin. destruct (step ev st) as [st1 out1]. specialize (IH st1).
  destruct (run evs st1) as [st2 out2]. cbn [fst snd] in *.
  apply elem_of_app in Hin as [Hin|Hin].
  - destruct (Hbatch Hin Hitem) as (m & Hm & ->). cbn.
    by apply (proj1 (getMessage_None k (store st)) Hnone).
  - by apply IH.
Qed.

(** Once its recipient has acknowledged a message, no batch the server
    sends afterwards, to anyone and whatever it handles in between,
    contains an item with that [serverMsgId], as long as no later request
    is assigned the same [serverMsgId]. *)
Theorem acknowledged_not_in_later_batch username message st msg evs ws items :
  truthy (w_serverMsgId message) = true →
  messages.getMessage (w_serverMsgId message) (store st) = Some msg →
  m_to msg = VStr username →
  m_serverMsgId msg ∉ submitted_ids evs →
  Send ws (undelivered_batch items)
    ∈ (run evs (handleAckMessage username message st).1).2 →
  ∀ item, item ∈ items → b_serverMsgId item ≠ m_serverMsgId msg.
Proof.
  intros Ht Hget Hto Hsub Hin item Hitem.
  apply (batch_in_run (m_serverMsgId msg) evs
           (handleAckMessage username message st).1 ws items item);
    [|done..].
  revert Hin. unfold handleAckMessage. rewrite Ht, Hget. cbn [negb].
  rewrite (proj2 (seq_str_true _ _) Hto). cbn [fst store set_store]. intros _.
  rewrite <- (getMessage_key _ _ _ Hget). apply getMessage_removeMessage.
Qed.

Lemma acknowledged_not_in_later_batch_witness :
  let ack := wire (client_ack "1700000000000-00112233445566ff") in
  let st := set_store [hi_bob; again_bob] alice_online in
  let evs := busy_meanwhile
             ++ [on_connection 2 (Some "dG9rZW4=") (Some "bob") true] in
  truthy (w_serverMsgId ack) = true
  ∧ messages.getMessage (w_serverMsgId ack) (store st) = Some hi_bob
  ∧ m_to hi_bob = VStr "bob"
  ∧ (m_serverMsgId hi_bob ∉ submitted_ids evs)
  ∧ Send 2 (undelivered_batch [batchItem again_bob])
      ∈ (run evs (handleAckMessage "bob" ack st).1).2
  ∧ ∀ item, item ∈ [batchItem again_bob] → b_serverMsgId item ≠ m_serverMsgId hi_bob.
Proof.
  assert (m_serverMsgId hi_bob
            ∉ submitted_ids
                (busy_meanwhile
                 ++ [on_connection 2 (Some "dG9rZW4=") (Some "bob") true])) as H4.
  { apply (bool_decide_unpack _). vm_compute. exact I. }
  assert (Send 2 (undelivered_batch [batchItem again_bob])
      ∈ (run (busy_meanwhile
              ++ [on_connection 2 (Some "dG9rZW4=") (Some "bob") true])
           (handleAckMessage "bob"
              (wire (client_ack "1700000000000-00112233445566ff"))
              (set_store [hi_bob; again_bob] alice_online)).1).2) as Hin.
  { apply list_elem_of_In. vm_compute. repeat ((left; reflexivity) || right). }
  split; [reflexivity|]. split; [reflexivity|]. split; [reflexivity|].
  split; [exact H4|]. split; [exact Hin|].
  exact (acknowledged_not_in_later_batch "bob"
           (wire (client_ack "1700000000000-00112233445566ff"))
           (set_store [hi_bob; again_bob] alice_online) hi_bob
           (busy_meanwhile ++ [on_connection 2 (Some "dG9rZW4=") (Some "bob") true])
           2%nat [batchItem again_bob] eq_refl eq_refl eq_refl H4 Hin).
Defined.

Lemma elem_of_getOnlineUsers u (r : gmap string nat) :
  u ∈ sockets.getOnlineUsers r ↔ is_Some (r !! u).
Proof.
  unfold sockets.getOnlineUsers. rewrite list_elem_of_fmap. split.
  - intros ([u' ws] & -> & H). apply elem_of_map_to_list in H. eauto.
  - intros [ws H]. exists (u, ws). split; [done|]. by apply elem_of_map_to_list.
Qed.

(** A presence broadcast reaches exactly the other users that are
    registered with an open socket: the user it is about is never
    notified, nor is a socket that is not open, and nothing but the
    [presence_update] frame is written. *)
Theorem presence_reaches_open_others username status st e :
  e ∈ broadcastPresence username status st ↔
  ∃ u ws, e = Send ws (presence_update username status)
          ∧ u ≠ username
          ∧ registry st !! u = Some ws
          ∧ isOpen ws st = true.
Proof.
  unfold broadcastPresence. rewrite list_elem_of_In, List.in_flat_map. split.
  - intros (u & Hu & He). apply list_elem_of_In, elem_of_getOnlineUsers in Hu.
    case_bool_decide as Hne; [|by destruct He].
    destruct (openSocket (VStr u) st) as [ws|] eqn:Hws; [|by destruct He].
    destruct He as [<-|[]]. apply openSocket_Some in Hws as [Hreg Hopen].
    by exists u, ws.
  - intros (u & ws & -> & Hne & Hreg & Hopen). exists u. split.
    + apply list_elem_of_In, elem_of_getOnlineUsers. eauto.
    + rewrite bool_decide_eq_true_2 by done.
      rewrite (proj2 (openSocket_Some (VStr u) st ws)) by done. by left.
Qed.

(** A connection without a token or a user name, or with a token that does
    not validate, is closed with code 4000 or 4001 and leaves nothing
    behind: the registry and the Outbox are what they were and no frame is
    written. *)
Theorem rejected_connection_leaves_no_state ws token username validToken st :
  missing token || missing username = true ∨ validToken = false →
  let r := step (on_connection ws token username validToken) st in
  registry r.1 = registry st
  ∧ store r.1 = store st
  ∧ frames_sent r.2 = []
  ∧ readyState r.1 !! ws = Some CLOSING
  ∧ (Close ws 4000 ∈ r.2 ∨ Close ws 4001 ∈ r.2).
Proof.
  intros H. cbn [step].
  destruct (missing token || missing username) eqn:Hm.
  - cbn [fst snd registry store readyState set_readyState].
    rewrite lookup_insert_eq. repeat split; try done.
    left. apply list_elem_of_further, list_elem_of_here.
  - destruct H as [H| ->]; [done|]. cbn [negb fst snd].
    cbn [registry store readyState set_readyState].
    rewrite lookup_insert_eq. repeat split; try done.
    right. apply list_elem_of_further, list_elem_of_here.
Qed.

Lemma rejected_connection_leaves_no_state_witness :
  let r := step (on_connection 2 (Some "") (Some "bob") true) alice_online_hi_stored in
  (missing (Some "") || missing (Some "bob") = true ∨ true = false)
  ∧ registry r.1 = registry alice_online_hi_stored
  ∧ store r.1 = store alice_online_hi_stored.
Proof.
  assert (missing (Some "") || missing (Some "bob") = true ∨ true = false) as H
    by (left; reflexivity).
  split; [exact H|].
  destruct (rejected_connection_leaves_no_state 2%nat (Some "") (Some "bob") true
              alice_online_hi_stored H) as (H1 & H2 & _).
  split; [exact H1 | exact H2].
Defined.

(** A recipient that has connected gets the next message for it directly:
    the [incoming_message] goes to the socket of its connection. *)
Theorem connected_recipient_gets_forward ws token username st env from message :
  token ≠ "" →
  accepted message = true →
  w_to message = VStr username →
  let st1 := (step (on_connection ws (Some token) (Some username) true) st).1 in
  (ws, incoming_message (generateMessageId (env_now env) (env_random env)) from
         (w_body message) (js_or (w_ts message) (VNum (Z.of_N (env_now_ts env)))))
  ∈ frames_sent (handleSendMessage env from message st1).2.
Proof.
  intros Htok Hacc Hto st1.
  assert (username ≠ "") as Hu.
  { intros ->. unfold accepted in Hacc. rewrite Hto in Hacc. cbn in Hacc.
    by rewrite andb_false_r in Hacc. }
  assert (openSocket (w_to message) st1 = Some ws) as Hopen.
  { rewrite Hto. apply openSocket_Some. unfold st1. cbn [step missing].
    apply String.eqb_neq in Htok, Hu. rewrite Htok, Hu. cbn [orb negb].
    change (default "" (Some username)) with username.
    unfold sendUndeliveredMessages. destruct (bool_decide _);
      cbn [fst registry readyState set_registry set_readyState sockets.getSocket];
      unfold isOpen, sockets.registerUser;
      cbn [readyState set_registry set_readyState];
      rewrite !lookup_insert_eq; by rewrite bool_decide_eq_true_2. }
  rewrite (proj1 (handleSendMessage_frames env from message st1 Hacc)), Hopen.
  apply elem_of_app. left. apply list_elem_of_here.
Qed.

Lemma connected_recipient_gets_forward_witness :
  let request := wire (send_message "1700000000000-k3x9" "bob" "hi" 1700000000000) in
  let st1 := (step (on_connection 2 (Some "dG9rZW4=") (Some "bob") true) alice_online).1 in
  "dG9rZW4=" ≠ "" ∧ accepted request = true ∧ w_to request = VStr "bob"
  ∧ (2%nat, incoming_message "1700000000000-00112233445566ff" "alice"
              (VStr "hi") (VNum 1700000000000))
    ∈ frames_sent (handleSendMessage same_reading "alice" request st1).2.
Proof.
  split; [discriminate|]. split; [reflexivity|]. split; [reflexivity|].
  apply (connected_recipient_gets_forward 2%nat "dG9rZW4=" "bob" alice_online
           same_reading "alice"
           (wire (send_message "1700000000000-k3x9" "bob" "hi" 1700000000000)));
    [discriminate | reflexivity | reflexivity].
Defined.

(** The close handler unregisters the user name, whichever socket closed.
    When a user has reconnected and the socket of the earlier connection
    closes afterwards, the user is unregistered although the new socket is
    open: a message for it is then stored and not forwarded (only the
    receipt for the sender is written). *)
Theorem close_of_any_socket_unregisters username ws st env from message :
  accepted message = true →
  w_to message = VStr username →
  let st1 := (step (on_close username ws) st).1 in
  openSocket (VStr username) st1 = None
  ∧ ∀ ws' f, (ws', f) ∈ frames_sent (handleSendMessage env from message st1).2 →
             f = ack_message (generateMessageId (env_now env) (env_random env))
                   (w_clientMsgId message) (w_to message).
Proof.
  intros Hacc Hto st1.
  assert (openSocket (VStr username) st1 = None) as Hnone.
  { unfold st1, openSocket. cbn [step fst registry set_registry sockets.getSocket].
    unfold sockets.unregisterUser. by rewrite lookup_delete_eq. }
  split; [exact Hnone|]. intros ws' f.
  rewrite (proj1 (handleSendMessage_frames env from message st1 Hacc)), Hto, Hnone.
  cbn [from_option app].
  destruct (openSocket (VStr from) st1); cbn [from_option].
  - intros H. apply list_elem_of_singleton in H. by injection H as -> ->.
  - by intros ?%not_elem_of_nil.
Qed.

Lemma close_of_any_socket_unregisters_witness :
  let request := wire (send_message "1700000000000-k3x9" "bob" "hi" 1700000000000) in
  let reconnected :=
    (run [on_connection 2 (Some "dG9rZW4=") (Some "bob") true;
          on_connection 3 (Some "dG9rZW4=") (Some "bob") true] alice_online).1 in
  accepted request = true ∧ w_to request = VStr "bob"
  ∧ openSocket (VStr "bob") reconnected = Some 3%nat
  ∧ openSocket (VStr "bob") (step (on_close "bob" 2) reconnected).1 = None.
Proof.
  split; [reflexivity|]. split; [reflexivity|]. split; [reflexivity|].
  apply (close_of_any_socket_unregisters "bob" 2%nat
           (run [on_connection 2 (Some "dG9rZW4=") (Some "bob") true;
                 on_connection 3 (Some "dG9rZW4=") (Some "bob") true] alice_online).1
           same_reading "alice"
           (wire (send_message "1700000000000-k3x9" "bob" "hi" 1700000000000)));
    reflexivity.
Defined.

(** A frame that cannot be parsed, or whose [type] is none of
    [send_message], [ack_message] and [ping], changes nothing on the
    server; the socket it came from gets an [error] frame if it is open. *)
Theorem unhandled_frame_answered_with_error username ws data env st :
  (∀ message, data = Some message →
     w_type message ≠ VStr "send_message" ∧ w_type message ≠ VStr "ack_message"
     ∧ w_type message ≠ VStr "ping") →
  (step (on_message username ws data env) st).1 = st
  ∧ frames_sent (step (on_message username ws data env) st).2
    = if isOpen ws st
      then [(ws, error (from_option (λ message, Unknown_message_type (w_type message))
                          Invalid_message_format data))]
      else [].
Proof.
  intros H. cbn [step]. destruct data as [message|].
  - destruct (H message eq_refl) as (H1 & H2 & H3).
    unfold handleMessage.
    rewrite (proj2 (seq_str_false _ _) H1), (proj2 (seq_str_false _ _) H2),
      (proj2 (seq_str_false _ _) H3).
    unfold sendError. by destruct (isOpen ws st).
  - unfold sendError. by destruct (isOpen ws st).
Qed.

Lemma unhandled_frame_answered_with_error_witness :
  (∀ message, @None WireMsg = Some message →
     w_type message ≠ VStr "send_message" ∧ w_type message ≠ VStr "ack_message"
     ∧ w_type message ≠ VStr "ping")
  ∧ step (on_message "alice" 1 None same_reading) alice_online
    = (alice_online,
       [Console (WS_error_parsing "alice"); Send 1 (error Invalid_message_format)]).
Proof.
  assert (∀ message, @None WireMsg = Some message →
     w_type message ≠ VStr "send_message" ∧ w_type message ≠ VStr "ack_message"
     ∧ w_type message ≠ VStr "ping") as H by (intros message [=]).
  split; [exact H|].
  apply injective_projections; cbn [fst snd].
  - exact (proj1 (unhandled_frame_answered_with_error "alice" 1%nat None
                    same_reading alice_online H)).
  - reflexivity.
Defined.

(** No frame a client sends changes who is registered or the state of a
    socket: message handling only ever touches the Outbox. *)
Theorem messages_never_touch_registry username ws data env st :
  registry (step (on_message username ws data env) st).1 = registry st
  ∧ readyState (step (on_message username ws data env) st).1 = readyState st.
Proof.
  cbn [step]. destruct data as [message|]; [|done]. unfold handleMessage.
  destruct (seq_str (w_type message) "send_message").
  { destruct (accepted message) eqn:Hacc.
    - by destruct (handleSendMessage_accepted env username message st Hacc) as [-> _].
    - by rewrite handleSendMessage_rejected. }
  destruct (seq_str (w_type message) "ack_message").
  { unfold handleAckMessage. destruct (truthy _); [|done].
    destruct (messages.getMessage _ _) as [msg|]; [|done].
    by destruct (seq_str _ _). }
  by destruct (seq_str (w_type message) "ping").
Qed.

End server_behaviour.

(** * Further properties of the client: sending *)

Lemma string_app_nonempty s c t : s +:+ String c t ≠ "".
Proof.
  intros H. apply (f_equal String.length) in H.
  rewrite string_length_app in H. cbn in H. lia.
Qed.

Lemma server_generateMessageId_nonempty now random :
  generateMessageId now random ≠ "".
Proof. unfold generateMessageId. apply string_app_nonempty. Qed.

Section client_sending.

Import ChatApp.

Lemma client_generateMessageId_nonempty now random :
  generateMessageId now random ≠ "".
Proof. unfold generateMessageId. apply string_app_nonempty. Qed.

Lemma present_Some s : present (Some s) = true ↔ s ≠ "".
Proof.
  cbn. destruct (String.eqb s "") eqn:E; cbn.
  - apply String.eqb_eq in E. split; [done | congruence].
  - apply String.eqb_neq in E. done.
Qed.

(** What [appendMessage] leaves alone. *)
Lemma appendMessage_keeps a st :
  let st' := (appendMessage a st).1.1 in
  socket st' = socket st
  ∧ reconnectAttempts st' = reconnectAttempts st
  ∧ reconnectTimer st' = reconnectTimer st
  ∧ seenMessageIds st' = seenMessageIds st
  ∧ pendingMessages st' = pendingMessages st
  ∧ messageInput st' = messageInput st
  ∧ currentUser st' = currentUser st
  ∧ selectedContact st' = selectedContact st
  ∧ client_frames (appendMessage a st).2 = [].
Proof.
  unfold appendMessage. destruct (messagesContainer st); [|done].
  by destruct (_ && _).
Qed.

(** In the conversation that is selected, [appendMessage] appends. *)
Lemma appendMessage_own a st children :
  messagesContainer st = Some children →
  a_from a = currentUser st →
  a_to a = selectedContact st →
  let el := {| sent := true; pending := a_pending a; delivered := false;
               failed := false;
               data_clientMsgId :=
                 if present (a_clientMsgId a) then a_clientMsgId a else None;
               data_serverMsgId :=
                 if present (a_serverMsgId a) then a_serverMsgId a else None;
               body := a_body a; ts := a_ts a |} in
  appendMessage a st
  = (set_messagesContainer (Some (children ++ [length (dom st)]))
       (set_dom (dom st ++ [el]) st),
     Some (length (dom st)), [AppendChild el]).
Proof.
  intros Hc Hfrom Hto. unfold appendMessage. rewrite Hc.
  rewrite (bool_decide_eq_true_2 _ Hfrom), Hto.
  rewrite (bool_decide_eq_false_2 (selectedContact st ≠ selectedContact st))
    by (intros H; by apply H).
  by rewrite andb_false_r.
Qed.

(** [sendMessage] refuses a blank body and a missing contact: nothing is
    rendered, registered or transmitted, and the state is what it was. *)
Theorem blank_message_not_sent now random now_ts st :
  present (trim <$> messageInput st) = false ∨ selectedContact st = "" →
  step (send now random now_ts) st = (st, []).
Proof.
  intros H. cbn [step]. unfold sendMessage.
  assert (negb (present (trim <$> messageInput st))
          || String.eqb (selectedContact st) "" = true) as ->; [|done].
  destruct H as [-> | ->]; [done|]. by rewrite orb_true_r.
Qed.

Lemma blank_message_not_sent_witness :
  let st := (step (type "   ") alice_session).1 in
  (present (trim <$> messageInput st) = false ∨ selectedContact st = "")
  ∧ step (send 1700000000000 "k3x9" 1700000000000) st = (st, []).
Proof.
  assert (present (trim <$> messageInput (step (type "   ") alice_session).1) = false
          ∨ selectedContact (step (type "   ") alice_session).1 = "") as H
    by (left; vm_compute; reflexivity).
  split; [exact H|].
  exact (blank_message_not_sent 1700000000000 "k3x9" 1700000000000
           (step (type "   ") alice_session).1 H).
Defined.

Lemma sendMessage_frame_accepted now random now_ts st f :
  f ∈ client_frames (step (send now random now_ts) st).2 →
  w_type (wire f) = VStr "send_message"
  ∧ accepted (wire f) = true
  ∧ w_to (wire f) = VStr (selectedContact st)
  ∧ w_clientMsgId (wire f) = VStr (generateMessageId now random).
Proof.
  cbn [step]. unfold sendMessage.
  destruct (present (trim <$> messageInput st)) eqn:Hb; cbn [negb orb];
    [|by intros ?%not_elem_of_nil].
  destruct (String.eqb (selectedContact st) "") eqn:Hc;
    [by intros ?%not_elem_of_nil|].
  set (a := Build_MessageArgs _ _ _ _ _ _ _).
  destruct (appendMessage_keeps a st) as (_ & _ & _ & _ & _ & _ & _ & _ & Hf).
  destruct (appendMessage a st) as [[st1 r] out]. cbn [fst snd] in *.
  unfold client_frames in *.
  destruct (socketOpen _).
  - cbn [snd]. rewrite omap_app, Hf. cbn. intros H.
    apply list_elem_of_singleton in H as ->. cbn [wire w_type w_to w_clientMsgId].
    split; [done|]. split; [|done]. unfold accepted. cbn [wire w_clientMsgId w_to w_body truthy].
    rewrite Hc.
    destruct (messageInput st) as [v|]; [|done]. cbn in Hb |- *.
    rewrite Hb. cbn.
    destruct (String.eqb (generateMessageId now random) "") eqn:E; [|done].
    apply String.eqb_eq in E. by apply client_generateMessageId_nonempty in E.
  - destruct r; cbn [snd]; rewrite ?omap_app, ?Hf; cbn;
      by intros ?%not_elem_of_nil.
Qed.

(** Every frame [sendMessage] transmits passes the validation of the
    server: it is a [send_message] for the selected contact whose
    [clientMsgId], [to] and [body] are all non-empty. *)
Theorem sent_frame_is_accepted now random now_ts st f :
  f ∈ client_frames (step (send now random now_ts) st).2 →
  w_type (wire f) = VStr "send_message"
  ∧ accepted (wire f) = true
  ∧ w_to (wire f) = VStr (selectedContact st)
  ∧ w_clientMsgId (wire f) = VStr (generateMessageId now random).
Proof. apply sendMessage_frame_accepted. Qed.

Lemma sent_frame_is_accepted_witness :
  let f := send_message "1700000000000-k3x9" "bob" "hi" 1700000000000 in
  f ∈ client_frames (step (send 1700000000000 "k3x9" 1700000000000) alice_session).2
  ∧ accepted (wire f) = true.
Proof.
  assert (send_message "1700000000000-k3x9" "bob" "hi" 1700000000000
          ∈ client_frames
              (step (send 1700000000000 "k3x9" 1700000000000) alice_session).2) as H.
  { vm_compute. apply list_elem_of_here. }
  split; [exact H|].
  exact (proj1 (proj2 (sent_frame_is_accepted 1700000000000 "k3x9" 1700000000000
                         alice_session _ H))).
Defined.

End client_sending.

(** * Further properties of the client: the life of a pending marker *)

Section pending_marker.

Lemma sendMessage_connected now random now_ts st children v :
  ChatApp.messagesContainer st = Some children →
  ChatApp.messageInput st = Some v →
  ChatApp.trim v ≠ "" →
  ChatApp.selectedContact st ≠ "" →
  ChatApp.socket st = Some OPEN →
  let cid := ChatApp.generateMessageId now random in
  let ref := length (ChatApp.dom st) in
  let el := {| ChatApp.sent := true; ChatApp.pending := true;
               ChatApp.delivered := false; ChatApp.failed := false;
               ChatApp.data_clientMsgId := Some cid;
               ChatApp.data_serverMsgId := None;
               ChatApp.body := VStr (ChatApp.trim v);
               ChatApp.ts := VNum (Z.of_N now_ts) |} in
  ChatApp.sendMessage now random now_ts st
  = ChatApp.Returned
      (ChatApp.set_messageInput (Some "")
         (ChatApp.set_pendingMessages (<[cid := Some ref]> (ChatApp.pendingMessages st))
            (ChatApp.set_messagesContainer (Some (children ++ [ref]))
               (ChatApp.set_dom (ChatApp.dom st ++ [el]) st))))
      [ChatApp.AppendChild el;
       ChatApp.Send (send_message cid (ChatApp.selectedContact st) (ChatApp.trim v) now_ts)].
Proof.
  intros Hc Hi Hv Hsel Hsock cid ref el. unfold ChatApp.sendMessage.
  rewrite Hi. cbn [fmap option_fmap option_map default from_option id].
  rewrite (proj2 (present_Some (ChatApp.trim v)) Hv).
  apply String.eqb_neq in Hsel. rewrite Hsel. cbn [negb orb].
  set (a := ChatApp.Build_MessageArgs _ _ _ _ _ _ _).
  rewrite (appendMessage_own a st children Hc eq_refl eq_refl). unfold a.
  cbn [ChatApp.a_pending ChatApp.a_clientMsgId ChatApp.a_serverMsgId
       ChatApp.a_body ChatApp.a_ts ChatApp.present].
  fold cid.
  destruct (String.eqb cid "") eqn:E.
  { apply String.eqb_eq in E. by apply client_generateMessageId_nonempty in E. }
  cbn [negb]. unfold ChatApp.socketOpen.
  cbn [ChatApp.socket ChatApp.set_pendingMessages ChatApp.set_messagesContainer
       ChatApp.set_dom].
  rewrite Hsock. by rewrite bool_decide_eq_true_2.
Qed.

(** The round trip of a sent message. With the sender connected on both
    sides, [sendMessage] renders a pending element, registers its marker
    and transmits the request; the server answers the request with a
    receipt on the socket of the sender; and on that receipt the client
    deletes the marker and turns the same element into a delivered one
    that carries the [serverMsgId]. *)
Theorem send_then_receipt_confirms now random now_ts st children v env sst ws :
  ChatApp.messagesContainer st = Some children →
  ChatApp.messageInput st = Some v →
  ChatApp.trim v ≠ "" →
  ChatApp.selectedContact st ≠ "" →
  ChatApp.socket st = Some OPEN →
  server.openSocket (VStr (ChatApp.currentUser st)) sst = Some ws →
  let cid := ChatApp.generateMessageId now random in
  let sid := generateMessageId (env_now env) (env_random env) in
  let ref := length (ChatApp.dom st) in
  let request := send_message cid (ChatApp.selectedContact st) (ChatApp.trim v) now_ts in
  let receipt := ack_message sid (VStr cid) (VStr (ChatApp.selectedContact st)) in
  let sent := ChatApp.step (ChatApp.send now random now_ts) st in
  let confirmed := (ChatApp.step (ChatApp.onmessage (Some receipt)) sent.1).1 in
  client_frames sent.2 = [request]
  ∧ (ws, receipt)
    ∈ frames_sent (server.handleSendMessage env (ChatApp.currentUser st) (wire request) sst).2
  ∧ ChatApp.pendingMessages sent.1 !! cid = Some (Some ref)
  ∧ ChatApp.pendingMessages confirmed !! cid = None
  ∧ ∃ el, ChatApp.dom sent.1 !! ref = Some el
          ∧ ChatApp.pending el = true ∧ ChatApp.delivered el = false
          ∧ ChatApp.dom confirmed !! ref = Some (ChatApp.mark_delivered sid el).
Proof.
  intros Hc Hi Hv Hsel Hsock Hws cid sid ref request receipt sent confirmed.
  pose proof (sendMessage_connected now random now_ts st children v
                Hc Hi Hv Hsel Hsock) as Hsend.
  cbv zeta in Hsend. fold cid ref in Hsend.
  set (el := ChatApp.Build_Element _ _ _ _ _ _ _ _) in Hsend.
  assert (sent = (ChatApp.set_messageInput (Some "")
         (ChatApp.set_pendingMessages (<[cid := Some ref]> (ChatApp.pendingMessages st))
            (ChatApp.set_messagesContainer (Some (children ++ [ref]))
               (ChatApp.set_dom (ChatApp.dom st ++ [el]) st))),
      [ChatApp.AppendChild el; ChatApp.Send request])) as Hsent.
  { unfold sent. cbn [ChatApp.step]. by rewrite Hsend. }
  assert (accepted (wire request) = true) as Hacc.
  { apply (sendMessage_frame_accepted now random now_ts st request).
    fold sent. rewrite Hsent. apply list_elem_of_here. }
  assert (ChatApp.pendingMessages sent.1 !! cid = Some (Some ref)) as Hmarker.
  { rewrite Hsent. cbn. apply lookup_insert_eq. }
  assert (ChatApp.dom sent.1 = ChatApp.dom st ++ [el]) as Hdom
    by (by rewrite Hsent).
  split; [by rewrite Hsent|]. split; [|split; [exact Hmarker|]].
  { rewrite (proj1 (handleSendMessage_frames env (ChatApp.currentUser st) (wire request) sst Hacc)).
    rewrite Hws. apply elem_of_app. right. apply list_elem_of_here. }
  assert (confirmed
          = ChatApp.set_pendingMessages (delete cid (ChatApp.pendingMessages sent.1))
              (ChatApp.set_dom
                 (alter (ChatApp.mark_delivered sid) ref (ChatApp.dom sent.1)) sent.1))
    as ->.
  { unfold confirmed, receipt. cbn [ChatApp.step ChatApp.handleMessage].
    rewrite (client_handleAckMessage_confirms sid cid ref sent.1); [done| |done].
    apply client_generateMessageId_nonempty. }
  split; [cbn; apply lookup_delete_eq|].
  exists el. rewrite Hdom. cbn [ChatApp.dom ChatApp.set_pendingMessages ChatApp.set_dom].
  rewrite list_lookup_alter_eq, list_lookup_middle by done. done.
Qed.

Lemma send_then_receipt_confirms_witness :
  let sent := ChatApp.step (ChatApp.send 1700000000000 "k3x9" 1700000000000) alice_session in
  let receipt :=
    ack_message "1700000000000-00112233445566ff"
      (VStr "1700000000000-k3x9") (VStr "bob") in
  ChatApp.messagesContainer alice_session = Some []
  ∧ ChatApp.messageInput alice_session = Some "hi"
  ∧ ChatApp.trim "hi" ≠ ""
  ∧ ChatApp.selectedContact alice_session ≠ ""
  ∧ ChatApp.socket alice_session = Some OPEN
  ∧ server.openSocket (VStr (ChatApp.currentUser alice_session)) alice_online = Some 1%nat
  ∧ ChatApp.pendingMessages
      (ChatApp.step (ChatApp.onmessage (Some receipt)) sent.1).1
    !! "1700000000000-k3x9" = None.
Proof.
  assert (ChatApp.trim "hi" ≠ "") as H3 by (vm_compute; discriminate).
  assert (ChatApp.selectedContact alice_session ≠ "") as H4 by (vm_compute; discriminate).
  split; [reflexivity|]. split; [reflexivity|]. split; [exact H3|].
  split; [exact H4|]. split; [reflexivity|]. split; [reflexivity|].
  exact (proj1 (proj2 (proj2 (proj2
           (send_then_receipt_confirms 1700000000000 "k3x9" 1700000000000
              alice_session [] "hi" same_reading alice_online 1%nat
              eq_refl eq_refl H3 H4 eq_refl eq_refl))))).
Defined.

(** Without an open socket nothing is transmitted: the element is
    rendered pending and marked failed, its marker is registered, the user
    is alerted, and the text stays in the input. *)
Theorem send_while_disconnected_fails now random now_ts st children v :
  ChatApp.messagesContainer st = Some children →
  ChatApp.messageInput st = Some v →
  ChatApp.trim v ≠ "" →
  ChatApp.selectedContact st ≠ "" →
  ChatApp.socket st ≠ Some OPEN →
  let cid := ChatApp.generateMessageId now random in
  let ref := length (ChatApp.dom st) in
  let sent := ChatApp.step (ChatApp.send now random now_ts) st in
  client_frames sent.2 = []
  ∧ ChatApp.Alert ∈ sent.2
  ∧ ChatApp.messageInput sent.1 = Some v
  ∧ ChatApp.pendingMessages sent.1 !! cid = Some (Some ref)
  ∧ ∃ el, ChatApp.dom sent.1 !! ref = Some el
          ∧ ChatApp.pending el = true ∧ ChatApp.failed el = true
          ∧ ChatApp.delivered el = false.
Proof.
  intros Hc Hi Hv Hsel Hsock cid ref sent. unfold sent.
  cbn [ChatApp.step]. unfold ChatApp.sendMessage.
  rewrite Hi. cbn [fmap option_fmap option_map default from_option id].
  rewrite (proj2 (present_Some (ChatApp.trim v)) Hv).
  apply String.eqb_neq in Hsel. rewrite Hsel. cbn [negb orb].
  set (a := ChatApp.Build_MessageArgs _ _ _ _ _ _ _).
  rewrite (appendMessage_own a st children Hc eq_refl eq_refl). unfold a.
  cbn [ChatApp.a_pending ChatApp.a_clientMsgId ChatApp.a_serverMsgId
       ChatApp.a_body ChatApp.a_ts ChatApp.present].
  fold cid ref.
  destruct (String.eqb cid "") eqn:E.
  { apply String.eqb_eq in E. by apply client_generateMessageId_nonempty in E. }
  cbn [negb]. unfold ChatApp.socketOpen.
  cbn [ChatApp.socket ChatApp.set_pendingMessages ChatApp.set_messagesContainer
       ChatApp.set_dom].
  rewrite (bool_decide_eq_false_2 _ Hsock). cbn [fst snd].
  split; [done|]. split.
  { apply list_elem_of_further, list_elem_of_further, list_elem_of_here. }
  split; [by cbn|]. split; [cbn; apply lookup_insert_eq|].
  cbn [ChatApp.dom ChatApp.set_pendingMessages ChatApp.set_messagesContainer
       ChatApp.set_dom].
  eexists. rewrite list_lookup_alter_eq, list_lookup_middle by done.
  cbn. done.
Qed.

Lemma send_while_disconnected_fails_witness :
  let st := (ChatApp.step (ChatApp.onclose true) alice_session).1 in
  ChatApp.messagesContainer st = Some []
  ∧ ChatApp.messageInput st = Some "hi"
  ∧ ChatApp.trim "hi" ≠ ""
  ∧ ChatApp.selectedContact st ≠ ""
  ∧ ChatApp.socket st ≠ Some OPEN
  ∧ client_frames (ChatApp.step (ChatApp.send 1700000000000 "k3x9" 1700000000000) st).2
    = [].
Proof.
  assert (ChatApp.trim "hi" ≠ "") as H3 by (vm_compute; discriminate).
  assert (ChatApp.selectedContact
            (ChatApp.step (ChatApp.onclose true) alice_session).1 ≠ "") as H4
    by (vm_compute; discriminate).
  assert (ChatApp.socket (ChatApp.step (ChatApp.onclose true) alice_session).1
          ≠ Some OPEN) as H5 by (vm_compute; discriminate).
  split; [reflexivity|]. split; [reflexivity|]. split; [exact H3|].
  split; [exact H4|]. split; [exact H5|].
  exact (proj1 (send_while_disconnected_fails 1700000000000 "k3x9" 1700000000000
                  (ChatApp.step (ChatApp.onclose true) alice_session).1 [] "hi"
                  eq_refl eq_refl H3 H4 H5)).
Defined.

(** A receipt is handled once: handling the same [ack_message] a second
    time leaves the client in the state the first left it in. *)
Theorem receipt_idempotent serverMsgId clientMsgId to st :
  let receipt := ChatApp.onmessage (Some (ack_message serverMsgId clientMsgId to)) in
  (ChatApp.step receipt (ChatApp.step receipt st).1).1 = (ChatApp.step receipt st).1.
Proof.
  cbn [ChatApp.step ChatApp.handleMessage]. unfold ChatApp.handleAckMessage.
  destruct clientMsgId as [| | | |c|]; try done.
  destruct (truthy (VStr c)) eqn:Ht; [|by rewrite ?Ht].
  destruct (ChatApp.pendingMessages st !! c) as [[ref|]|] eqn:Hp; cbn [fst].
  - cbn [ChatApp.pendingMessages ChatApp.set_pendingMessages ChatApp.set_dom].
    by rewrite lookup_delete_eq.
  - by rewrite Hp.
  - by rewrite Hp.
Qed.

End pending_marker.

(** * Further properties of the client: what a run never does *)

Section client_runs.

Import ChatApp.

Ltac crush_state st :=
  destruct st as [? ? ? ? ? ? ? ? ? ? ? ?]; cbn in *;
  repeat (case_match; cbn in *); subst; auto.

Lemma handleOpen_keeps st :
  pendingMessages (handleOpen st).1 = pendingMessages st
  ∧ client_frames (handleOpen st).2 = [].
Proof. unfold handleOpen, updateConnectionStatus. crush_state st. Qed.

Lemma scheduleReconnect_keeps st :
  pendingMessages (scheduleReconnect st).1 = pendingMessages st
  ∧ client_frames (scheduleReconnect st).2 = [].
Proof. unfold scheduleReconnect, updateConnectionStatus. crush_state st. Qed.

Lemma handleClose_keeps wasClean st :
  pendingMessages (handleClose wasClean st).1 = pendingMessages st
  ∧ client_frames (handleClose wasClean st).2 = [].
Proof.
  unfold handleClose.
  set (st1 := updateConnectionStatus Disconnected false st).
  assert (pendingMessages st1 = pendingMessages st) as <-.
  { unfold st1, updateConnectionStatus. by destruct (connectionStatus st). }
  destruct (_ && _).
  - destruct (scheduleReconnect_keeps st1) as [H1 H2].
    by destruct (scheduleReconnect st1) as [st2 out].
  - destruct (bool_decide _); [|done]. cbn [fst snd].
    unfold updateConnectionStatus. by destruct (connectionStatus st1).
Qed.

Lemma connect_keeps throws st :
  pendingMessages (connect throws st).1 = pendingMessages st
  ∧ client_frames (connect throws st).2 = [].
Proof.
  unfold connect.
  set (st1 := updateConnectionStatus Connecting false st).
  assert (pendingMessages st1 = pendingMessages st) as <-.
  { unfold st1, updateConnectionStatus. by destruct (connectionStatus st). }
  destruct throws; [|done].
  destruct (scheduleReconnect_keeps st1) as [H1 H2].
  by destruct (scheduleReconnect st1) as [st2 out].
Qed.

Lemma handleIncomingMessage_keeps serverMsgId from body ts st :
  pendingMessages (handleIncomingMessage serverMsgId from body ts st).1
    = pendingMessages st
  ∧ socket (handleIncomingMessage serverMsgId from body ts st).1 = socket st
  ∧ (client_frames (handleIncomingMessage serverMsgId from body ts st).2 = []
     ∨ client_frames (handleIncomingMessage serverMsgId from body ts st).2
       = [client_ack serverMsgId]).
Proof.
  destruct (decide (serverMsgId ∈ seenMessageIds st)) as [Hin|Hnew].
  { rewrite handleIncomingMessage_seen by done. auto. }
  rewrite handleIncomingMessage_fresh by done. cbn [fst snd].
  set (st1 := set_seenMessageIds _ st). set (a := Build_MessageArgs _ _ _ _ _ _ _).
  destruct (appendMessage_keeps a st1) as (Hs & _ & _ & _ & Hp & _ & _ & _ & Hf).
  cbv zeta in Hs, Hp. rewrite Hs, Hp. unfold client_frames in *.
  rewrite omap_app, Hf. split; [done|]. split; [done|].
  destruct (socketOpen st); auto.
Qed.

Lemma handleUndeliveredBatch_keeps messages st :
  pendingMessages (handleUndeliveredBatch messages st).1 = pendingMessages st
  ∧ socket (handleUndeliveredBatch messages st).1 = socket st
  ∧ Forall (λ f, ∃ id, f = client_ack id)
      (client_frames (handleUndeliveredBatch messages st).2).
Proof.
  revert st. induction messages as [|msg rest IH]; intros st.
  { cbn. auto. }
  cbn [handleUndeliveredBatch].
  destruct (handleIncomingMessage_keeps (b_serverMsgId msg) (b_from msg)
              (b_body msg) (b_ts msg) st) as (Hp & Hs & Hf).
  destruct (handleIncomingMessage _ _ _ _ st) as [st1 out1].
  specialize (IH st1). destruct (handleUndeliveredBatch rest st1) as [st2 out2].
  cbn [fst snd] in *. destruct IH as (Hp2 & Hs2 & Hf2).
  split; [congruence|]. split; [congruence|].
  unfold client_frames in *. rewrite omap_app. apply Forall_app. split; [|done].
  destruct Hf as [-> | ->]; [constructor|]. constructor; eauto.
Qed.

Lemma step_keeps_marker c ev st :
  ¬ concerns_marker c ev →
  pendingMessages (step ev st).1 !! c = pendingMessages st !! c.
Proof.
  intros Hev.
  destruct ev as [|data|wasClean| |throws|now random now_ts|contact|text];
    cbn [step].
  - destruct (socket st); [|done].
    by destruct (handleOpen_keeps (set_socket (Some OPEN) st)) as [-> _].
  - destruct data as [[serverMsgId from body ts|serverMsgId clientMsgId to
                      |user status|messages|err|timestamp]|];
      cbn [handleMessage]; try done.
    + by destruct (handleIncomingMessage_keeps serverMsgId from body ts st) as [-> _].
    + unfold handleAckMessage. destruct clientMsgId as [| | | |c'|]; try done.
      destruct (truthy _); [|done].
      destruct (pendingMessages st !! c') as [[ref|]|] eqn:Hp; try done.
      cbn [fst pendingMessages set_pendingMessages set_dom].
      apply lookup_delete_ne. intros ->. by apply Hev.
    + by destruct (handleUndeliveredBatch_keeps messages st) as [-> _].
  - destruct (socket st); [|done].
    by destruct (handleClose_keeps wasClean (set_socket (Some CLOSED) st)) as [-> _].
  - done.
  - destruct (reconnectTimer st); [|done].
    by destruct (connect_keeps throws (set_reconnectTimer None st)) as [-> _].
  - unfold sendMessage. destruct (_ || _); [done|].
    set (a := Build_MessageArgs _ _ _ _ _ _ _).
    destruct (appendMessage_keeps a st) as (_ & _ & _ & _ & Hp & _).
    destruct (appendMessage a st) as [[st1 r] out]. cbn [fst snd] in *.
    destruct (socketOpen _); [|destruct r];
      cbn [fst pendingMessages set_pendingMessages set_messageInput set_dom];
      rewrite lookup_insert_ne, Hp; done.
  - unfold selectContact. crush_state st.
  - by destruct (messageInput st).
Qed.

(** A pending marker is set by the [send] that generates its identifier
    and deleted by a receipt that names it, and by nothing else: through
    every run without such an event the marker of a [clientMsgId] is what
    it was, so a message whose receipt never arrives stays pending. *)
Theorem marker_pending_until_receipt c evs st :
  Forall (λ ev, ¬ concerns_marker c ev) evs →
  pendingMessages (run evs st).1 !! c = pendingMessages st !! c.
Proof.
  intros H. revert st. induction H as [|ev evs Hev _ IH]; intros st; [done|].
  cbn [run]. pose proof (step_keeps_marker c ev st Hev) as Hstep.
  destruct (step ev st) as [st1 out1]. specialize (IH st1).
  destruct (run evs st1) as [st2 out2]. cbn [fst] in *. congruence.
Qed.

Lemma marker_pending_until_receipt_witness :
  let sent := (step (send 1700000000000 "k3x9" 1700000000000) alice_session).1 in
  let evs := [onclose false; timeout false; onopen;
              onmessage (Some (incoming_message "1700000000500-8899aabbccddeeff"
                                 "bob" (VStr "yo") (VNum 1700000000500)))] in
  Forall (λ ev, ¬ concerns_marker "1700000000000-k3x9" ev) evs
  ∧ pendingMessages (run evs sent).1 !! "1700000000000-k3x9" = Some (Some 0%nat).
Proof.
  assert (Forall (λ ev, ¬ concerns_marker "1700000000000-k3x9" ev)
            [onclose false; timeout false; onopen;
             onmessage (Some (incoming_message "1700000000500-8899aabbccddeeff"
                                "bob" (VStr "yo") (VNum 1700000000500)))]) as H.
  { repeat constructor; cbn; auto. }
  split; [exact H|].
  rewrite (marker_pending_until_receipt "1700000000000-k3x9" _
             (step (send 1700000000000 "k3x9" 1700000000000) alice_session).1 H).
  vm_compute. reflexivity.
Defined.

Lemma step_frames_acks ev st :
  ¬ is_send ev →
  Forall (λ f, ∃ id, f = client_ack id) (client_frames (step ev st).2).
Proof.
  intros Hev.
  destruct ev as [|data|wasClean| |throws|now random now_ts|contact|text];
    cbn [step].
  - destruct (socket st); [|constructor].
    destruct (handleOpen_keeps (set_socket (Some OPEN) st)) as [_ ->]. constructor.
  - destruct data as [[serverMsgId from body ts|serverMsgId clientMsgId to
                      |user status|messages|err|timestamp]|];
      cbn [handleMessage]; try constructor.
    + destruct (handleIncomingMessage_keeps serverMsgId from body ts st)
        as (_ & _ & [-> | ->]); repeat constructor; eauto.
    + pose proof (handleAckMessage_silent "" serverMsgId clientMsgId st) as H.
      destruct (handleAckMessage _ _ _) as [st1 out|st1 out];
        destruct H as [_ ->]; constructor.
    + by destruct (handleUndeliveredBatch_keeps messages st) as (_ & _ & ?).
  - destruct (socket st); [|constructor].
    destruct (handleClose_keeps wasClean (set_socket (Some CLOSED) st)) as [_ ->].
    constructor.
  - constructor.
  - destruct (reconnectTimer st); [|constructor].
    destruct (connect_keeps throws (set_reconnectTimer None st)) as [_ ->].
    constructor.
  - by destruct Hev.
  - constructor.
  - destruct (messageInput st); constructor.
Qed.

(** The client never transmits a message again: in a run without a click
    on send, whatever closes, reconnections and frames it contains, the
    only frames the client writes are acknowledgments. A message that
    failed to send, or whose receipt was lost, is not resent on
    reconnection. *)
Theorem no_retransmission evs st :
  Forall (λ ev, ¬ is_send ev) evs →
  Forall (λ f, ∃ id, f = client_ack id) (client_frames (run evs st).2).
Proof.
  intros H. revert st. induction H as [|ev evs Hev _ IH]; intros st; [constructor|].
  cbn [run]. pose proof (step_frames_acks ev st Hev) as Hstep.
  destruct (step ev st) as [st1 out1]. specialize (IH st1).
  destruct (run evs st1) as [st2 out2]. cbn [snd] in *.
  unfold client_frames in *. rewrite omap_app. by apply Forall_app.
Qed.

Lemma no_retransmission_witness :
  let failed_send :=
    (run [onclose false; send 1700000000000 "k3x9" 1700000000000] alice_session).1 in
  let evs := [timeout false; onopen] in
  Forall (λ ev, ¬ is_send ev) evs
  ∧ Forall (λ f, ∃ id, f = client_ack id) (client_frames (run evs failed_send).2).
Proof.
  assert (Forall (λ ev, ¬ is_send ev) [timeout false; onopen]) as H.
  { repeat constructor; cbn; auto. }
  split; [exact H|].
  exact (no_retransmission [timeout false; onopen]
           (run [onclose false; send 1700000000000 "k3x9" 1700000000000]
              alice_session).1 H).
Defined.

(** The Seen-Set only grows: no event ever removes an identifier from
    it. *)
Theorem seen_set_append_only evs st :
  seenMessageIds st ⊆ seenMessageIds (run evs st).1.
Proof. by destruct (dedups_run "" evs st) as [H _]. Qed.

End client_runs.

(** * Further properties of the client: reconnection and batches *)

Section client_reconnect.

Import ChatApp.

(** The backoff delay of attempt [k] lies between one and thirty seconds,
    never decreases with [k], and is at the cap from the sixth attempt
    on. *)
Theorem backoff_bounds k k' :
  (1 ≤ k)%N → (k ≤ k')%N →
  (1000 ≤ backoff k ≤ 30000)%N
  ∧ (backoff k ≤ backoff k')%N
  ∧ ((6 ≤ k)%N → backoff k = 30000%N).
Proof.
  intros Hk Hkk'. unfold backoff, BASE_DELAY.
  assert (1 ≤ 2 ^ (k - 1))%N as Hpos.
  { change 1%N with (2 ^ 0)%N at 1. apply N.pow_le_mono_r; lia. }
  assert (2 ^ (k - 1) ≤ 2 ^ (k' - 1))%N as Hmono.
  { apply N.pow_le_mono_r; lia. }
  split; [lia|]. split; [lia|].
  intros H6. assert (2 ^ 5 ≤ 2 ^ (k - 1))%N as H32.
  { apply N.pow_le_mono_r; lia. }
  change (2 ^ 5)%N with 32%N in H32. lia.
Qed.

Lemma backoff_bounds_witness :
  (1 ≤ 3)%N ∧ (3 ≤ 7)%N
  ∧ (1000 ≤ backoff 3 ≤ 30000)%N ∧ (backoff 3 ≤ backoff 7)%N.
Proof.
  assert (1 ≤ 3)%N as H1 by lia. assert (3 ≤ 7)%N as H2 by lia.
  split; [exact H1|]. split; [exact H2|].
  destruct (backoff_bounds 3 7 H1 H2) as (Ha & Hb & _).
  split; [exact Ha | exact Hb].
Defined.

(** A clean close does not reconnect: while attempts are left, nothing is
    scheduled, no socket is constructed, and the counter and the timer are
    what they were. *)
Theorem clean_close_does_not_reconnect st :
  (reconnectAttempts st < MAX_RECONNECT_ATTEMPTS)%N →
  scheduled (step (onclose true) st).2 = []
  ∧ sockets_constructed (step (onclose true) st).2 = 0%nat
  ∧ reconnectAttempts (step (onclose true) st).1 = reconnectAttempts st
  ∧ reconnectTimer (step (onclose true) st).1 = reconnectTimer st.
Proof.
  intros H. cbn [step]. destruct (socket st); [|done].
  unfold handleClose. cbn [negb andb].
  set (st1 := updateConnectionStatus Disconnected false _).
  assert (reconnectAttempts st1 = reconnectAttempts st
          ∧ reconnectTimer st1 = reconnectTimer st) as [Ha Ht].
  { unfold st1, updateConnectionStatus. by destruct (connectionStatus _). }
  rewrite Ha. rewrite (bool_decide_eq_false_2 (MAX_RECONNECT_ATTEMPTS ≤ _)%N) by lia.
  done.
Qed.

Lemma clean_close_does_not_reconnect_witness :
  (reconnectAttempts alice_session < MAX_RECONNECT_ATTEMPTS)%N
  ∧ scheduled (step (onclose true) alice_session).2 = [].
Proof.
  assert (reconnectAttempts alice_session < MAX_RECONNECT_ATTEMPTS)%N as H
    by (vm_compute; reflexivity).
  split; [exact H|]. exact (proj1 (clean_close_does_not_reconnect alice_session H)).
Defined.

(** At most one reconnection is pending: while a timer is pending, a close
    schedules nothing, counts no attempt and leaves the timer alone. *)
Theorem one_pending_reconnect wasClean delay st :
  reconnectTimer st = Some delay →
  scheduled (step (onclose wasClean) st).2 = []
  ∧ reconnectAttempts (step (onclose wasClean) st).1 = reconnectAttempts st
  ∧ reconnectTimer (step (onclose wasClean) st).1 = Some delay.
Proof.
  intros H. cbn [step]. destruct (socket st); [|done].
  unfold handleClose.
  set (st1 := updateConnectionStatus Disconnected false _).
  assert (reconnectAttempts st1 = reconnectAttempts st
          ∧ reconnectTimer st1 = Some delay) as [Ha Ht].
  { unfold st1, updateConnectionStatus. by destruct (connectionStatus _). }
  destruct (_ && _).
  - rewrite (scheduleReconnect_pending st1 delay Ht). done.
  - destruct (bool_decide _); cbn [fst snd]; [|done].
    unfold updateConnectionStatus. by destruct (connectionStatus st1).
Qed.

Lemma one_pending_reconnect_witness :
  let waiting := (step (onclose false) alice_session).1 in
  reconnectTimer waiting = Some 1000%N
  ∧ scheduled (step (onclose false) waiting).2 = []
  ∧ reconnectAttempts (step (onclose false) waiting).1 = 1%N.
Proof.
  assert (reconnectTimer (step (onclose false) alice_session).1 = Some 1000%N) as H
    by reflexivity.
  split; [exact H|].
  destruct (one_pending_reconnect false 1000%N
              (step (onclose false) alice_session).1 H) as (H1 & H2 & _).
  split; [exact H1|]. rewrite H2. reflexivity.
Defined.

(** Without a token or a user in the URL, [init] connects nothing: no
    socket is constructed and no timer started, and the user is
    alerted. *)
Theorem init_without_credentials page throws :
  present (p_token page) = false ∨ present (p_user page) = false →
  sockets_constructed (init page throws).2 = 0%nat
  ∧ scheduled (init page throws).2 = []
  ∧ Alert ∈ (init page throws).2
  ∧ socket (init page throws).1 = None
  ∧ reconnectTimer (init page throws).1 = None.
Proof.
  intros H. unfold init.
  assert (negb (present (p_token page)) || negb (present (p_user page)) = true) as ->.
  { destruct H as [-> | ->]; [done|]. by rewrite orb_true_r. }
  cbn. repeat split; try done. apply list_elem_of_further, list_elem_of_here.
Qed.

Lemma init_without_credentials_witness :
  let page :=
    {| p_messagesContainer := true; p_messageInput := Some "";
       p_connectionStatus := None; p_currentChatName := None;
       p_token := None; p_user := Some "alice" |} in
  (present (p_token page) = false ∨ present (p_user page) = false)
  ∧ sockets_constructed (init page false).2 = 0%nat.
Proof.
  intros page.
  assert (present (p_token page) = false ∨ present (p_user page) = false) as H
    by (left; reflexivity).
  split; [exact H|]. exact (proj1 (init_without_credentials page false H)).
Defined.

Lemma handleUndeliveredBatch_fresh messages st :
  socket st = Some OPEN →
  NoDup (b_serverMsgId <$> messages) →
  (∀ id, id ∈ b_serverMsgId <$> messages → id ∉ seenMessageIds st) →
  client_frames (handleUndeliveredBatch messages st).2
    = (λ msg, client_ack (b_serverMsgId msg)) <$> messages
  ∧ seenMessageIds (handleUndeliveredBatch messages st).1
    = list_to_set (b_serverMsgId <$> messages) ∪ seenMessageIds st.
Proof.
  revert st. induction messages as [|msg rest IH]; intros st Hopen Hnd Hnew.
  { cbn. split; [done|]. by rewrite (left_id_L ∅ (∪)). }
  cbn [handleUndeliveredBatch fmap list_fmap] in *.
  apply NoDup_cons in Hnd as [Hhd Hnd].
  assert (b_serverMsgId msg ∉ seenMessageIds st) as Hfresh.
  { apply Hnew, list_elem_of_here. }
  rewrite handleIncomingMessage_fresh by done.
  set (st1 := set_seenMessageIds _ st). set (a := Build_MessageArgs _ _ _ _ _ _ _).
  destruct (appendMessage_keeps a st1) as (Hs & _ & _ & Hseen & _ & _ & _ & _ & Hf).
  cbv zeta in Hs, Hseen.
  destruct (IH (appendMessage a st1).1.1) as [IHf IHs].
  { by rewrite Hs. }
  { done. }
  { intros id Hid. rewrite Hseen. cbn. intros [Heq|Hin]%elem_of_union.
    - apply elem_of_singleton in Heq as ->. done.
    - by eapply Hnew; [apply list_elem_of_further|]. }
  destruct (handleUndeliveredBatch rest _) as [st2 out2]. cbn [fst snd] in *.
  unfold client_frames in *. rewrite !omap_app, Hf, IHf, IHs, Hseen.
  unfold socketOpen. rewrite Hopen, bool_decide_eq_true_2 by done.
  cbn [list_to_set foldr]. split; [done|].
  cbn [st1 set_seenMessageIds seenMessageIds].
  rewrite (assoc_L (∪)), (comm_L (∪) (list_to_set _)), <- (assoc_L (∪)). done.
Qed.

(** A batch of messages that are new and pairwise different is
    acknowledged message by message: one [ack_message] for each, in the
    order of the batch, and every identifier is in the Seen-Set
    afterwards. *)
Theorem batch_acknowledged_one_by_one messages st :
  socket st = Some OPEN →
  NoDup (b_serverMsgId <$> messages) →
  (∀ id, id ∈ b_serverMsgId <$> messages → id ∉ seenMessageIds st) →
  client_frames (step (onmessage (Some (undelivered_batch messages))) st).2
    = (λ msg, client_ack (b_serverMsgId msg)) <$> messages
  ∧ seenMessageIds (step (onmessage (Some (undelivered_batch messages))) st).1
    = list_to_set (b_serverMsgId <$> messages) ∪ seenMessageIds st.
Proof. apply handleUndeliveredBatch_fresh. Qed.

Lemma batch_acknowledged_one_by_one_witness :
  socket bob_session = Some OPEN
  ∧ NoDup (b_serverMsgId <$> two_for_bob)
  ∧ (∀ id, id ∈ b_serverMsgId <$> two_for_bob → id ∉ seenMessageIds bob_session)
  ∧ client_frames (step (onmessage (Some (undelivered_batch two_for_bob))) bob_session).2
    = [client_ack "1700000000000-00112233445566ff";
       client_ack "1700000000500-8899aabbccddeeff"].
Proof.
  assert (NoDup (b_serverMsgId <$> two_for_bob)) as H2.
  { apply (bool_decide_unpack _). vm_compute. exact I. }
  assert (∀ id, id ∈ b_serverMsgId <$> two_for_bob → id ∉ seenMessageIds bob_session)
    as H3.
  { intros id _. change (seenMessageIds bob_session) with (∅ : gset string).
    apply not_elem_of_empty. }
  split; [reflexivity|]. split; [exact H2|]. split; [exact H3|].
  exact (proj1 (batch_acknowledged_one_by_one two_for_bob bob_session eq_refl H2 H3)).
Defined.

End client_reconnect.

(** * Delivery from end to end *)

Section delivery.

(** The round trip of a delivered message. The server forwards an accepted
    message to the open socket of its recipient and stores it; the client
    of the recipient, for which the message is new, answers with an
    [ack_message] for its [serverMsgId]; and when the server handles that
    frame from the recipient, the message is gone from the Outbox. *)
Theorem forward_acknowledge_remove env env' from message sst ws username c :
  accepted message = true →
  w_to message = VStr username →
  server.openSocket (VStr username) sst = Some ws →
  ChatApp.socket c = Some OPEN →
  generateMessageId (env_now env) (env_random env) ∉ ChatApp.seenMessageIds c →
  let sid := generateMessageId (env_now env) (env_random env) in
  let forwarded :=
    incoming_message sid from (w_body message)
      (js_or (w_ts message) (VNum (Z.of_N (env_now_ts env)))) in
  let stored := (server.handleSendMessage env from message sst).1 in
  (ws, forwarded) ∈ frames_sent (server.handleSendMessage env from message sst).2
  ∧ messages.getMessage (VStr sid) (server.store stored)
    = Some (accepted_message env from message)
  ∧ client_frames (ChatApp.step (ChatApp.onmessage (Some forwarded)) c).2
    = [client_ack sid]
  ∧ messages.getMessage (VStr sid)
      (server.store
         (server.step
            (server.on_message username ws (Some (wire (client_ack sid))) env')
            stored).1)
    = None.
Proof.
  intros Hacc Hto Hws Hopen Hnew sid forwarded stored.
  assert (messages.getMessage (VStr sid) (server.store stored)
          = Some (accepted_message env from message)) as Hstored.
  { unfold stored.
    destruct (handleSendMessage_accepted env from message sst Hacc) as [-> _].
    apply (getMessage_addMessage (accepted_message env from message)). }
  split; [|split; [exact Hstored|split]].
  - rewrite (proj1 (handleSendMessage_frames env from message sst Hacc)), Hto, Hws.
    apply elem_of_app. left. apply list_elem_of_here.
  - unfold forwarded. cbn [ChatApp.step ChatApp.handleMessage].
    rewrite handleIncomingMessage_fresh by done. cbn [snd].
    set (a := ChatApp.Build_MessageArgs _ _ _ _ _ _ _).
    destruct (appendMessage_keeps a
                (ChatApp.set_seenMessageIds
                   ({[sid]} ∪ ChatApp.seenMessageIds c) c))
      as (_ & _ & _ & _ & _ & _ & _ & _ & Hf).
    unfold client_frames in *. rewrite omap_app, Hf.
    unfold ChatApp.socketOpen. rewrite Hopen. by rewrite bool_decide_eq_true_2.
  - cbn [server.step]. unfold server.handleMessage. cbn [wire w_type seq_str].
    rewrite bool_decide_eq_false_2 by discriminate.
    rewrite bool_decide_eq_true_2 by reflexivity.
    apply (server_ack_removes username sid (accepted_message env from message) stored);
      [apply server_generateMessageId_nonempty | exact Hstored | exact Hto].
Qed.

Lemma forward_acknowledge_remove_witness :
  let request := wire (send_message "1700000000000-k3x9" "bob" "hi" 1700000000000) in
  let bob_online :=
    (server.step (server.on_connection 2 (Some "dG9rZW4=") (Some "bob") true)
       alice_online).1 in
  let stored := (server.handleSendMessage same_reading "alice" request bob_online).1 in
  accepted request = true
  ∧ w_to request = VStr "bob"
  ∧ server.openSocket (VStr "bob") bob_online = Some 2%nat
  ∧ ChatApp.socket bob_session = Some OPEN
  ∧ (generateMessageId (env_now same_reading) (env_random same_reading)
       ∉ ChatApp.seenMessageIds bob_session)
  ∧ messages.getMessage (VStr "1700000000000-00112233445566ff")
      (server.store
         (server.step
            (server.on_message "bob" 2
               (Some (wire (client_ack "1700000000000-00112233445566ff")))
               same_reading)
            stored).1)
    = None.
Proof.
  assert (generateMessageId (env_now same_reading) (env_random same_reading)
            ∉ ChatApp.seenMessageIds bob_session) as H5.
  { change (ChatApp.seenMessageIds bob_session) with (∅ : gset string).
    apply not_elem_of_empty. }
  split; [reflexivity|]. split; [reflexivity|]. split; [reflexivity|].
  split; [reflexivity|]. split; [exact H5|].
  exact (proj2 (proj2 (proj2
           (forward_acknowledge_remove same_reading same_reading "alice"
              (wire (send_message "1700000000000-k3x9" "bob" "hi" 1700000000000))
              (server.step (server.on_connection 2 (Some "dG9rZW4=") (Some "bob") true)
                 alice_online).1
              2%nat "bob" bob_session eq_refl eq_refl eq_refl eq_refl H5)))).
Defined.

End delivery.

(** * Tokens *)

Section tokens.

Import auth.

Lemma string_app_assoc s t u : (s +:+ t) +:+ u = s +:+ (t +:+ u).
Proof.
  induction s as [|a s IH]; [done|]. rewrite !append_cons. by rewrite IH.
Qed.

Lemma split_head sep s :
  ∃ hd tl, split sep s = hd :: tl ∧ contains sep hd = false.
Proof.
  induction s as [|a s (hd & tl & IH & Hhd)]; cbn [split].
  - by exists "", [].
  - destruct (Ascii.eqb a sep) eqn:E.
    + by exists "", (split sep s).
    + rewrite IH. exists (String a hd), tl. split; [done|].
      cbn [contains]. by rewrite E, Hhd.
Qed.

Lemma split_app_sep sep s t :
  contains sep s = false →
  split sep (s +:+ String sep t) = s :: split sep t.
Proof.
  induction s as [|a s IH]; intros H.
  - rewrite append_nil. cbn [split]. by rewrite Ascii.eqb_refl.
  - cbn [contains] in H. apply orb_false_iff in H as [Ha Hs].
    rewrite append_cons. cbn [split]. by rewrite Ha, IH.
Qed.

Lemma split_no_sep sep s : contains sep s = false → split sep s = [s].
Proof.
  induction s as [|a s IH]; intros H; [done|].
  cbn [contains] in H. apply orb_false_iff in H as [Ha Hs].
  cbn [split]. by rewrite Ha, IH.
Qed.

Lemma is_nat_pretty_N_char x : is_Some (Ascii.is_nat (pretty_N_char x)).
Proof. unfold pretty_N_char. repeat case_match; cbn; eauto. Qed.

Lemma dec_value_pretty_N_char x :
  (x < 10)%N → dec_value (pretty_N_char x) = Some x.
Proof.
  intros H. destruct x as [|digit]; [reflexivity|].
  do 4 (try (destruct digit as [digit|digit|]; try reflexivity; try lia)).
Qed.

Lemma all_digits_pretty_N_go x s :
  all_digits s = true → all_digits (pretty_N_go x s) = true.
Proof.
  revert s. induction (N.lt_wf_0 x) as [x _ IH]; intros s Hs.
  assert (x = 0 ∨ 0 < x)%N as [->|?] by lia; [by rewrite pretty_N_go_0|].
  rewrite pretty_N_go_step by done. apply IH; [by apply N.div_lt|].
  cbn [all_digits]. by destruct (is_nat_pretty_N_char (x `mod` 10)) as [d ->].
Qed.

Lemma all_digits_pretty (n : N) : all_digits (pretty n) = true.
Proof.
  unfold pretty, pretty_N. case_decide; [done|].
  by apply all_digits_pretty_N_go.
Qed.

Lemma digits_pretty_N_go x s :
  ∃ k, ∀ acc, digits 10 dec_value acc (pretty_N_go x s)
              = digits 10 dec_value (acc * 10 ^ k + x) s.
Proof.
  revert s. induction (N.lt_wf_0 x) as [x _ IH]; intros s.
  assert (x = 0 ∨ 0 < x)%N as [->|?] by lia.
  { exists 0%N. intros acc. rewrite pretty_N_go_0. f_equal. lia. }
  destruct (IH (x `div` 10)%N ltac:(by apply N.div_lt)
              (String (pretty_N_char (x `mod` 10)) s)) as [k Hk].
  exists (k + 1)%N. intros acc. rewrite pretty_N_go_step, Hk by done.
  cbn [digits]. rewrite dec_value_pretty_N_char by (apply N.mod_lt; lia).
  f_equal. rewrite N.pow_add_r. pose proof (N.div_mod x 10 ltac:(lia)). lia.
Qed.

Lemma digits_pretty (n : N) : digits 10 dec_value 0 (pretty n) = n.
Proof.
  unfold pretty, pretty_N. case_decide as H; [by subst|].
  destruct (digits_pretty_N_go n "") as [k ->]. cbn. lia.
Qed.

Lemma contains_all_digits c s :
  Ascii.is_nat c = None → all_digits s = true → contains c s = false.
Proof.
  intros Hc. induction s as [|a s IH]; [done|]. cbn [all_digits contains].
  destruct (Ascii.is_nat a) eqn:Ha; [|done]. intros Hs.
  rewrite IH by done. rewrite orb_false_r. apply Ascii.eqb_neq. congruence.
Qed.

Lemma pretty_nonempty (n : N) : pretty n ≠ "".
Proof.
  intros H. pose proof (digits_pretty n) as Hd. pose proof (digits_pretty (n + 1)) as Hd1.
  assert (pretty (n + 1)%N ≠ pretty n) as Hne.
  { intros E. apply (inj pretty) in E. lia. }
  rewrite H in Hd. cbn in Hd. subst n. by vm_compute in H.
Qed.

(** A string that starts with a digit starts with no white space. *)
Lemma js_trimStart_digit a r d :
  Ascii.is_nat a = Some d → js_trimStart (String a r) = String a r.
Proof.
  intros Ha. unfold js_trimStart.
  destruct a as [[] [] [] [] [] [] [] []]; try discriminate Ha;
    destruct r as [|b [|c r]]; reflexivity.
Qed.

(** [parseInt] reads a string of decimal digits as the number it
    writes. *)
Lemma parseInt_all_digits s :
  s ≠ "" → all_digits s = true →
  parseInt s = Some (Z.of_N (digits 10 dec_value 0 s)).
Proof.
  destruct s as [|a r]; [done|]. intros _ H. cbn [all_digits] in H.
  destruct (Ascii.is_nat a) as [d|] eqn:Ha; [|done].
  assert (a ≠ "-"%char ∧ a ≠ "+"%char) as (Hm & Hp).
  { destruct a as [[] [] [] [] [] [] [] []]; try discriminate Ha; done. }
  unfold parseInt. rewrite (js_trimStart_digit a r d Ha).
  assert (∀ (f : string → bool * string),
            match String a r with
            | String "-" rest => f rest
            | String "+" rest => (false, rest)
            | _ => (false, String a r)
            end%char = (false, String a r)) as Hsign.
  { intros f. destruct a as [[] [] [] [] [] [] [] []]; try done. }
  rewrite (Hsign (λ rest, (true, rest))).
  assert (match String a r with
          | String "0" (String "x" rest) | String "0" (String "X" rest) =>
              number 16 hex_value rest
          | _ => number 10 dec_value (String a r)
          end%char = number 10 dec_value (String a r)) as ->.
  { destruct r as [|b r]; [by destruct a as [[] [] [] [] [] [] [] []]|].
    cbn [all_digits] in H. destruct (Ascii.is_nat b) eqn:Hb; [|done].
    assert (b ≠ "x"%char ∧ b ≠ "X"%char) as [Hx HX].
    { split; intros ->; discriminate Hb. }
    destruct a as [[] [] [] [] [] [] [] []]; try done;
      destruct b as [[] [] [] [] [] [] [] []]; done. }
  unfold number, dec_value at 1. rewrite Ha. done.
Qed.

Lemma parseInt_pretty (n : N) : parseInt (pretty n) = Some (Z.of_N n).
Proof.
  rewrite parseInt_all_digits; [by rewrite digits_pretty| |].
  - apply pretty_nonempty.
  - apply all_digits_pretty.
Qed.

Lemma decoded_generateToken p now username :
  lawful p →
  unbase64 p (generateToken p now username)
  = username +:+ String ":" (pretty now +:+ String ":"
      (hmac_hex p (username +:+ ":" +:+ pretty now))).
Proof.
  intros [Hb _]. unfold generateToken. rewrite Hb.
  rewrite !string_app_assoc, !append_cons, !append_nil. done.
Qed.

Lemma split_generateToken p now username :
  lawful p → contains ":" username = false →
  split ":" (unbase64 p (generateToken p now username))
  = [username; pretty now; hmac_hex p (username +:+ ":" +:+ pretty now)].
Proof.
  intros Hp Hu. rewrite decoded_generateToken by done.
  destruct Hp as [_ Hh].
  rewrite split_app_sep by done.
  rewrite split_app_sep by (by apply contains_all_digits, all_digits_pretty).
  by rewrite split_no_sep.
Qed.

(** The round trip of a token. For a user name without a colon, the token
    [generateToken] issues validates for that user exactly as long as the
    clock is not more than 24 hours past the moment of issue. *)
Theorem token_valid_for_a_day p now now' username :
  lawful p →
  contains ":" username = false →
  validateToken p now' (generateToken p now username) username
  = negb (24 * 60 * 60 * 1000 <? Z.of_N now' - Z.of_N now)%Z.
Proof.
  intros Hp Hu. unfold validateToken.
  rewrite split_generateToken by done.
  cbn [lookup list_lookup template default from_option id].
  rewrite !bool_decide_eq_true_2 by done. cbn [negb].
  rewrite parseInt_pretty. by destruct (_ <? _)%Z.
Qed.

Lemma toy_platform_lawful : lawful toy_platform.
Proof. split; intros; reflexivity. Qed.

Lemma token_valid_for_a_day_witness :
  lawful toy_platform
  ∧ contains ":" "alice" = false
  ∧ validateToken toy_platform 1700003600000
      (generateToken toy_platform 1700000000000 "alice") "alice" = true.
Proof.
  split; [exact toy_platform_lawful|]. split; [reflexivity|].
  rewrite (token_valid_for_a_day toy_platform 1700000000000 1700003600000 "alice"
             toy_platform_lawful eq_refl).
  reflexivity.
Defined.

(** A user name with a colon in it cannot connect: the token issued for
    it never validates, because [split(':')] cuts the name at its first
    colon and the comparison of the user names fails. *)
Theorem token_of_name_with_colon_invalid p now now' username :
  lawful p →
  contains ":" username = true →
  validateToken p now' (generateToken p now username) username = false.
Proof.
  intros Hp Hu. unfold validateToken.
  destruct (split_head ":" (unbase64 p (generateToken p now username)))
    as (hd & tl & -> & Hhd).
  cbn [lookup list_lookup].
  rewrite bool_decide_eq_false_2; [done|]. intros [= ->]. congruence.
Qed.

Lemma token_of_name_with_colon_invalid_witness :
  lawful toy_platform
  ∧ contains ":" "al:ice" = true
  ∧ validateToken toy_platform 1700000000001
      (generateToken toy_platform 1700000000000 "al:ice") "al:ice" = false.
Proof.
  split; [exact toy_platform_lawful|]. split; [reflexivity|].
  exact (token_of_name_with_colon_invalid toy_platform 1700000000000 1700000000001
           "al:ice" toy_platform_lawful eq_refl).
Defined.

(** A token is bound to the user it was issued for: it validates for no
    other user name. *)
Theorem token_bound_to_user p now now' username other :
  lawful p →
  contains ":" username = false →
  other ≠ username →
  validateToken p now' (generateToken p now username) other = false.
Proof.
  intros Hp Hu Hne. unfold validateToken.
  rewrite split_generateToken by done. cbn [lookup list_lookup].
  rewrite bool_decide_eq_false_2; [done|]. intros [= ->]. done.
Qed.

Lemma token_bound_to_user_witness :
  lawful toy_platform
  ∧ contains ":" "alice" = false
  ∧ "bob" ≠ "alice"
  ∧ validateToken toy_platform 1700000000001
      (generateToken toy_platform 1700000000000 "alice") "bob" = false.
Proof.
  assert ("bob" ≠ "alice") as H by discriminate.
  split; [exact toy_platform_lawful|]. split; [reflexivity|]. split; [exact H|].
  exact (token_bound_to_user toy_platform 1700000000000 1700000000001
           "alice" "bob" toy_platform_lawful eq_refl H).
Defined.

(** Whatever the token, [validateToken] accepts it only if the decoded
    text starts with the user name and its third field is the HMAC of the
    first two: the signature is checked over exactly the user name and the
    timestamp the token carries. *)
Theorem valid_token_is_signed p now token username :
  validateToken p now token username = true →
  ∃ rest,
    split ":" (unbase64 p token) = username :: rest
    ∧ rest !! 1%nat
      = Some (hmac_hex p (username +:+ ":" +:+ template (rest !! 0%nat))).
Proof.
  unfold validateToken.
  destruct (split_head ":" (unbase64 p token)) as (hd & tl & -> & _).
  cbn [lookup list_lookup].
  case_bool_decide as Hu; [|done]. cbn [negb]. injection Hu as ->.
  case_bool_decide as Hs; [|done]. intros _.
  exists tl. split; [done|]. destruct tl as [|ts [|sig tl]]; try done.
Qed.

Lemma valid_token_is_signed_witness :
  validateToken toy_platform 1700000000001 "alice:1700000000000:5f2a" "alice" = true
  ∧ ∃ rest,
      split ":" (unbase64 toy_platform "alice:1700000000000:5f2a") = "alice" :: rest
      ∧ rest !! 1%nat
        = Some (hmac_hex toy_platform ("alice" +:+ ":" +:+ template (rest !! 0%nat))).
Proof.
  split; [reflexivity|].
  exact (valid_token_is_signed toy_platform 1700000000001
           "alice:1700000000000:5f2a" "alice" eq_refl).
Defined.

(** From token to connection: a connection that presents the token issued
    for its user name is registered under that name, with its socket open,
    while the token is at most a day old; once the token is older the
    connection is closed with code 4001 and the registry is left alone. *)
Theorem issued_token_decides_connection p now now' username ws st :
  lawful p →
  contains ":" username = false →
  username ≠ "" →
  generateToken p now username ≠ "" →
  let token := generateToken p now username in
  let r := server.step
             (server.on_connection ws (Some token) (Some username)
                (validateToken p now' token username)) st in
  if (24 * 60 * 60 * 1000 <? Z.of_N now' - Z.of_N now)%Z
  then server.registry r.1 = server.registry st ∧ server.Close ws 4001 ∈ r.2
  else sockets.getSocket (VStr username) (server.registry r.1) = Some ws
       ∧ server.isOpen ws r.1 = true.
Proof.
  intros Hp Hu Hne Htok token r. unfold r, token.
  rewrite token_valid_for_a_day by done.
  cbn [server.step server.missing].
  apply String.eqb_neq in Hne, Htok. rewrite Hne, Htok. cbn [orb].
  destruct (_ <? _)%Z; cbn [negb].
  - split; [done|]. apply list_elem_of_further, list_elem_of_here.
  - change (default "" (Some username)) with username.
    unfold server.sendUndeliveredMessages. destruct (bool_decide _);
      cbn [fst server.registry server.set_registry server.set_readyState
           sockets.getSocket];
      unfold server.isOpen, sockets.registerUser;
      cbn [server.readyState server.set_registry server.set_readyState];
      rewrite !lookup_insert_eq; by rewrite bool_decide_eq_true_2.
Qed.

Lemma issued_token_decides_connection_witness :
  let token := generateToken toy_platform 1700000000000 "bob" in
  lawful toy_platform
  ∧ contains ":" "bob" = false
  ∧ "bob" ≠ ""
  ∧ token ≠ ""
  ∧ sockets.getSocket (VStr "bob")
      (server.registry
         (server.step
            (server.on_connection 2 (Some token) (Some "bob")
               (validateToken toy_platform 1700003600000 token "bob"))
            alice_online).1)
    = Some 2%nat.
Proof.
  assert ("bob" ≠ "") as H3 by discriminate.
  assert (generateToken toy_platform 1700000000000 "bob" ≠ "") as H4
    by (vm_compute; discriminate).
  split; [exact toy_platform_lawful|]. split; [reflexivity|].
  split; [exact H3|]. split; [exact H4|].
  exact (proj1 (issued_token_decides_connection toy_platform 1700000000000
                  1700003600000 "bob" 2%nat alice_online
                  toy_platform_lawful eq_refl H3 H4)).
Defined.

End tokens.

(** * White space *)

(** [trim] strips each of the white space characters from both ends and
    leaves the ones inside; a string of white space trims to the empty
    string; and a character that is not white space stays. *)
Example trim_white_space :
  Forall (λ w, ChatApp.trim (w +:+ "a" +:+ w +:+ "b" +:+ w) = "a" +:+ w +:+ "b"
               ∧ ChatApp.trim (w +:+ w) = ""
               ∧ js_trimStart (w +:+ "7") = "7")
    white_space
  ∧ Forall (λ c, ChatApp.trim c = c ∧ ChatApp.trim (" " +:+ c +:+ " ") = c)
      not_white_space.
Proof. split; repeat constructor. Qed.

(** A body of no-break spaces is refused like a blank one, and white space
    of any kind around the text is not transmitted. *)
Example white_space_body :
  ChatApp.step (ChatApp.send 1700000000000 "k3x9" 1700000000000)
    (ChatApp.step (ChatApp.type (nbsp +:+ nbsp)) alice_session).1
  = ((ChatApp.step (ChatApp.type (nbsp +:+ nbsp)) alice_session).1, [])
  ∧ client_frames
      (ChatApp.step (ChatApp.send 1700000000000 "k3x9" 1700000000000)
         (ChatApp.step (ChatApp.type (nbsp +:+ "hi" +:+ nbsp)) alice_session).1).2
    = [send_message "1700000000000-k3x9" "bob" "hi" 1700000000000].
Proof. split; reflexivity. Qed.
